(** * Interlytics cross-tabulation engine: a shallow embedding

    The TypeScript sources are embedded function by function.

    - a JavaScript [number] is an IEEE-754 binary64 value, i.e. Rocq's
      primitive [float]; [+ - * /], [Math.sqrt] and the comparisons are the
      primitive operations (round to nearest even, NaN-aware comparisons);
    - a JavaScript string is a [string] of bytes; the text handled by the
      engine is taken to be ASCII, and the few non-ASCII literals of the
      sources are kept as their UTF-8 bytes;
    - an array is a [list]; [push] appends; a [for]/[forEach] loop is a left
      fold over the indices or elements, threading the mutated locals;
    - an object used as a dictionary is an insertion-ordered association
      list ([JS.obj]); keys that collide with members of [Object.prototype]
      are outside the model;
    - a function that may [throw] returns a [JS.result];
      [T | null] is [option T];
    - [Math.exp], [Math.log], [Math.pow], [Number(string)] and
      [new Date(string)] are supplied by the JavaScript runtime; the
      functions that call them take them as section variables;
    - the dictionary [bannerValuesByVar] has an entry for every banner
      variable and the TF-IDF matrix has a row for every response, as the
      engine builds them; on other arguments the sources throw a TypeError
      that is not modelled, and the theorems about the functions that
      receive them assume these two facts.

    The embedded sources come first, then the vocabulary of the properties
    and the scenarios, then the facts about the loops, the matcher and the
    aggregators, and last the theorems, one module per part of the engine. *)

From Stdlib Require Import Floats ZArith String List Ascii Bool Arith Lia.
From Stdlib Require Import DecimalString Uint63 Sorted Permutation.
Import ListNotations.

Set Warnings "-inexact-float".
Set Implicit Arguments.

(* ================================================================== *)
(** * The JavaScript runtime *)
(* ================================================================== *)

Module JS.

(** ** Exceptions *)

Inductive result (A : Type) : Type :=
| Ok (a : A)
| Throw (e : string).
Arguments Ok {A} a.
Arguments Throw {A} e.

Definition bind {A B} (m : result A) (f : A -> result B) : result B :=
  match m with
  | Ok a => f a
  | Throw e => Throw e
  end.

Definition TypeError : string := "TypeError".

(** ** Arrays *)

Definition push {A} (arr : list A) (x : A) : list A := arr ++ [x].

(** [for (let i = 0; i < n; i++) body], threading the mutated state. *)
Definition for_range {St} (n : nat) (body : nat -> St -> St) (init : St) : St :=
  fold_left (fun s i => body i s) (seq 0 n) init.

(** [arr.forEach(x => body)], threading the mutated state. *)
Definition forEach {A St} (arr : list A) (body : A -> St -> St) (init : St)
  : St :=
  fold_left (fun s x => body x s) arr init.

(** [arr.forEach((x, index) => body)]. *)
Definition forEachi {A St} (arr : list A) (body : A -> nat -> St -> St)
  (init : St) : St :=
  snd (fold_left (fun '(i, s) x => (S i, body x i s)) arr (0, init)).

(** [Array.prototype.sort] is stable; [le x y] says that the comparator
    does not put [y] strictly before [x]. *)
Fixpoint insert_by {A} (le : A -> A -> bool) (x : A) (l : list A) : list A :=
  match l with
  | [] => [x]
  | y :: l' => if le x y then x :: l else y :: insert_by le x l'
  end.

Definition sort_by {A} (le : A -> A -> bool) (l : list A) : list A :=
  fold_right (insert_by le) [] l.

(** ** Strings *)

Definition code (c : ascii) : nat := nat_of_ascii c.

Definition in_range (lo hi : nat) (c : ascii) : bool :=
  (lo <=? code c) && (code c <=? hi).

(** White space of [trim] and [\s] (the ASCII part). *)
Definition is_ws (c : ascii) : bool :=
  (code c =? 32) || in_range 9 13 c.

Definition is_digit (c : ascii) : bool := in_range 48 57 c.

(** [\w] *)
Definition is_word (c : ascii) : bool :=
  is_digit c || in_range 65 90 c || in_range 97 122 c || (code c =? 95).

(** [.] matches everything but a line terminator. *)
Definition is_dot (c : ascii) : bool :=
  negb ((code c =? 10) || (code c =? 13)).

Fixpoint trimStart (s : string) : string :=
  match s with
  | EmptyString => EmptyString
  | String c s' => if is_ws c then trimStart s' else s
  end.

Fixpoint trimEnd (s : string) : string :=
  match s with
  | EmptyString => EmptyString
  | String c s' =>
      match trimEnd s' with
      | EmptyString => if is_ws c then EmptyString else String c EmptyString
      | r => String c r
      end
  end.

Definition trim (s : string) : string := trimEnd (trimStart s).

Definition lower_char (c : ascii) : ascii :=
  if in_range 65 90 c then ascii_of_nat (code c + 32) else c.

Fixpoint toLowerCase (s : string) : string :=
  match s with
  | EmptyString => EmptyString
  | String c s' => String (lower_char c) (toLowerCase s')
  end.

(** [s.includes(sub)] *)
Fixpoint includes (s sub : string) : bool :=
  if String.prefix sub s then true
  else match s with
       | EmptyString => false
       | String _ s' => includes s' sub
       end.

(** [arr.includes(x)] on an array of strings *)
Definition arr_includes (arr : list string) (x : string) : bool :=
  existsb (String.eqb x) arr.

(** [arr.sort()] on strings: ascending code-unit order. *)
Definition sort_strings (l : list string) : list string :=
  sort_by String.leb l.

(** [[...new Set(arr)]]: first occurrences, in order. *)
Definition dedupe (l : list string) : list string :=
  forEach l (fun x seen => if arr_includes seen x then seen else push seen x) [].

(** [arr.join(sep)] *)
Fixpoint join (sep : string) (l : list string) : string :=
  match l with
  | [] => EmptyString
  | [x] => x
  | x :: l' => x ++ sep ++ join sep l'
  end.

(** [s.split(delimiter)[0]]: the text before the first occurrence. *)
Fixpoint before_first (s delimiter : string) : string :=
  if String.prefix delimiter s then EmptyString
  else match s with
       | EmptyString => EmptyString
       | String c s' => String c (before_first s' delimiter)
       end.

Definition upper_char (c : ascii) : ascii :=
  if in_range 97 122 c then ascii_of_nat (code c - 32) else c.

Fixpoint toUpperCase (s : string) : string :=
  match s with
  | EmptyString => EmptyString
  | String c s' => String (upper_char c) (toUpperCase s')
  end.

(** The longest prefix whose characters all satisfy [p], and what follows. *)
Fixpoint take_while (p : ascii -> bool) (s : string) : string :=
  match s with
  | EmptyString => EmptyString
  | String c s' => if p c then String c (take_while p s') else EmptyString
  end.

Fixpoint drop_while (p : ascii -> bool) (s : string) : string :=
  match s with
  | EmptyString => EmptyString
  | String c s' => if p c then drop_while p s' else s
  end.

(** Removal of the longest suffix whose characters all satisfy [p]. *)
Fixpoint drop_while_end (p : ascii -> bool) (s : string) : string :=
  match s with
  | EmptyString => EmptyString
  | String c s' =>
      match drop_while_end p s' with
      | EmptyString => if p c then EmptyString else String c EmptyString
      | r => String c r
      end
  end.

Fixpoint map_chars (f : ascii -> ascii) (s : string) : string :=
  match s with
  | EmptyString => EmptyString
  | String c s' => String (f c) (map_chars f s')
  end.

Definition is_empty_string (s : string) : bool :=
  match s with EmptyString => true | _ => false end.

(** [x || d] on strings: the empty string is falsy. *)
Definition or_else (x d : string) : string :=
  if is_empty_string x then d else x.

(** A string literal given by its bytes. *)
Definition bytes (l : list nat) : string :=
  fold_right (fun n s => String (ascii_of_nat n) s) EmptyString l.

(** The double-quote character, as a string. *)
Definition dquote : string := bytes [34].

(** ** Objects used as dictionaries (insertion ordered) *)

Definition obj (V : Type) : Type := list (string * V).

Fixpoint obj_get {V} (o : obj V) (k : string) : option V :=
  match o with
  | [] => None
  | (k', v) :: o' => if String.eqb k k' then Some v else obj_get o' k
  end.

Fixpoint obj_set {V} (o : obj V) (k : string) (v : V) : obj V :=
  match o with
  | [] => [(k, v)]
  | (k', v') :: o' =>
      if String.eqb k k' then (k', v) :: o' else (k', v') :: obj_set o' k v
  end.

(** An integer key (a canonical array index) and its value. *)
Definition array_index (k : string) : option nat :=
  match k with
  | EmptyString => None
  | String c k' =>
      if forallb is_digit (list_ascii_of_string k)
         && (negb (code c =? 48) || is_empty_string k')
         && (String.length k <=? 9)
      then Some (fold_left (fun acc d => 10 * acc + (code d - 48))
                           (list_ascii_of_string k) 0)
      else None
  end.

(** Own-property order of [Object.keys]/[Object.entries]: integer keys in
    ascending order first, then the other keys in insertion order.
    (Integer keys of ten digits and more are ordered as strings here.) *)
Definition own_entries {V} (o : obj V) : list (string * V) :=
  let ints :=
    filter (fun kv => match array_index (fst kv) with Some _ => true | None => false end) o in
  let strs :=
    filter (fun kv => match array_index (fst kv) with Some _ => false | None => true end) o in
  let key_le (a b : string * V) :=
    match array_index (fst a), array_index (fst b) with
    | Some x, Some y => x <=? y
    | _, _ => true
    end in
  sort_by key_le ints ++ strs.

Definition obj_keys {V} (o : obj V) : list string := map fst (own_entries o).
Definition obj_values {V} (o : obj V) : list V := map snd (own_entries o).
Definition hasOwnProperty {V} (o : obj V) (k : string) : bool :=
  existsb (fun kv => String.eqb k (fst kv)) o.

(** ** Numbers *)

Local Open Scope float_scope.

Definition number : Type := float.

(** The number nearest to an integer (round to nearest even). *)
Definition of_Z (z : Z) : number :=
  SF2Prim (binary_normalize prec emax z 0 false).

(** [arr.length] and other natural numbers, as numbers. *)
Definition of_nat (n : nat) : number := of_Z (Z.of_nat n).

(** The integer [floor (x + 1/2)] of a finite non-integer [x = +-m * 2^e],
    computed exactly. *)
Definition round_half_up (sgn : bool) (m : positive) (e : Z) : Z :=
  let den := (2 ^ (- e))%Z in
  let num := if sgn then Z.neg m else Z.pos m in
  ((2 * num + den) / (2 * den))%Z.

(** [Math.round]: nearest integer, ties towards +infinity. *)
Definition Math_round (x : number) : number :=
  match Prim2SF x with
  | S754_finite sgn m e =>
      if (0 <=? e)%Z then x else of_Z (round_half_up sgn m e)
  | _ => x
  end.

(** The integer value of an integer-valued number. *)
Definition to_Z (x : number) : Z :=
  match Prim2SF x with
  | S754_finite sgn m e =>
      let v := if (0 <=? e)%Z then (Z.pos m * 2 ^ e)%Z
               else (Z.pos m / 2 ^ (- e))%Z in
      if sgn then (- v)%Z else v
  | _ => 0%Z
  end.

(** [String(x)] / [`${x}`] for the numbers the engine prints: NaN, the
    infinities and integer-valued numbers (below 1e21 these print as plain
    decimal digits). *)
Definition Number_toString (x : number) : string :=
  match Prim2SF x with
  | S754_nan => "NaN"
  | S754_infinity false => "Infinity"
  | S754_infinity true => "-Infinity"
  | _ => NilZero.string_of_int (Z.to_int (to_Z x))
  end.

(** What arithmetic and comparisons make of [undefined] (an array read past
    the end): [undefined === 0] is false and every operation yields NaN. *)
Definition undefined_number : number := nan.

(** The value of a string of decimal digits. *)
Definition digits_value (s : string) : Z :=
  fold_left (fun acc c => (10 * acc + Z.of_nat (code c - 48))%Z)
            (list_ascii_of_string s) 0%Z.

(** [parseInt(s)]: leading white space, an optional sign and the longest
    run of decimal digits; NaN when there is no digit.  (Hexadecimal
    prefixes are not modelled.) *)
Definition parseInt (s : string) : number :=
  let t := trimStart s in
  let '(neg, t) :=
    match t with
    | String c t' =>
        if (code c =? 45)%nat then (true, t')
        else if (code c =? 43)%nat then (false, t') else (false, t)
    | EmptyString => (false, t)
    end in
  let ds := take_while is_digit t in
  if is_empty_string ds then nan
  else if neg then - of_Z (digits_value ds) else of_Z (digits_value ds).

Definition Math_abs (x : number) : number := PrimFloat.abs x.
Definition Math_sqrt (x : number) : number := PrimFloat.sqrt x.

(** ** A reference [Math.exp]

    ECMAScript leaves [Math.exp] implementation-approximated.  The engine is
    parametric in it; the scenarios are evaluated with this implementation:
    argument reduction [x = k ln 2 + r], a degree-22 Taylor polynomial for
    [exp r], and scaling by [2^k]. *)

Definition ln2 : number := 0.6931471805599453.

Fixpoint exp_taylor (n : nat) (i : number) (r : number) : number :=
  match n with
  | O => 1
  | S n' => 1 + r / i * exp_taylor n' (i + 1) r
  end.

Definition Math_exp_ref (x : number) : number :=
  if PrimFloat.is_nan x then x
  else if 710 <? x then infinity
  else if x <? -746 then 0
  else
    let k := to_Z (Math_round (x / ln2)) in
    let r := x - of_Z k * ln2 in
    Z.ldexp (exp_taylor 22 1 r) k.

End JS.

(* ================================================================== *)
(** * Regular expressions

    A backtracking matcher for the fragment the sources use: character
    classes, concatenation, ordered alternation, greedy [?], greedy and
    lazy repetition of a character class, capturing groups and the anchors
    [^] and [$] (no [m] flag).  The continuation receives the position and
    the text left after the match, and the captures made so far. *)
(* ================================================================== *)

Module Regex.
Import JS.

Inductive re : Type :=
| Chr (p : ascii -> bool)
| Cat (a b : re)
| Alt (a b : re)
| Opt (a : re)
| Star (p : ascii -> bool)
| LazyStar (p : ascii -> bool)
| Grp (n : nat) (a : re)
| Bol
| Eol.

Definition captures : Type := list (nat * string).

Section Matcher.

Variable R : Type.

Definition cont : Type := nat -> string -> captures -> option R.

Fixpoint star_greedy (p : ascii -> bool) (caps : captures) (k : cont)
  (pos : nat) (s : string) : option R :=
  match s with
  | String c s' =>
      if p c then
        match star_greedy p caps k (S pos) s' with
        | Some x => Some x
        | None => k pos s caps
        end
      else k pos s caps
  | EmptyString => k pos s caps
  end.

Fixpoint star_lazy (p : ascii -> bool) (caps : captures) (k : cont)
  (pos : nat) (s : string) : option R :=
  match k pos s caps with
  | Some x => Some x
  | None =>
      match s with
      | String c s' => if p c then star_lazy p caps k (S pos) s' else None
      | EmptyString => None
      end
  end.

Fixpoint m (r : re) (pos : nat) (s : string) (caps : captures) (k : cont)
  : option R :=
  match r with
  | Chr p =>
      match s with
      | String c s' => if p c then k (S pos) s' caps else None
      | EmptyString => None
      end
  | Cat a b => m a pos s caps (fun pos' s' caps' => m b pos' s' caps' k)
  | Alt a b =>
      match m a pos s caps k with
      | Some x => Some x
      | None => m b pos s caps k
      end
  | Opt a =>
      match m a pos s caps k with
      | Some x => Some x
      | None => k pos s caps
      end
  | Star p => star_greedy p caps k pos s
  | LazyStar p => star_lazy p caps k pos s
  | Grp n a =>
      m a pos s caps
        (fun pos' s' caps' => k pos' s' ((n, substring 0 (pos' - pos) s) :: caps'))
  | Bol => if pos =? 0 then k pos s caps else None
  | Eol => match s with EmptyString => k pos s caps | _ => None end
  end.

End Matcher.

(** The leftmost match, as [RegExp.prototype.exec] finds it: start
    positions are tried from left to right. *)
Fixpoint search (r : re) (pos : nat) (s : string) : option captures :=
  match m r pos s [] (fun _ _ caps => Some caps) with
  | Some caps => Some caps
  | None =>
      match s with
      | String _ s' => search r (S pos) s'
      | EmptyString => None
      end
  end.

(** [s.match(r)] for a regex without the [g] flag. *)
Definition exec (r : re) (s : string) : option captures := search r 0 s.

(** [r.test(s)] *)
Definition test (r : re) (s : string) : bool :=
  match exec r s with Some _ => true | None => false end.

(** [match[n]]; [None] is [undefined] (the group did not take part). *)
Fixpoint group (caps : captures) (n : nat) : option string :=
  match caps with
  | [] => None
  | (n', t) :: caps' => if n =? n' then Some t else group caps' n
  end.

(** Abbreviations. *)
Definition chr (c : ascii) : re := Chr (Ascii.eqb c).
Definition oneof (cs : string) : re :=
  Chr (fun c => existsb (Ascii.eqb c) (list_ascii_of_string cs)).
Definition digit : re := Chr is_digit.
Definition plus (p : ascii -> bool) : re := Cat (Chr p) (Star p).
Definition lazy_plus (p : ascii -> bool) : re := Cat (Chr p) (LazyStar p).
Fixpoint seq_re (l : list re) (last : re) : re :=
  match l with
  | [] => last
  | r :: l' => Cat r (seq_re l' last)
  end.
Fixpoint rep (n : nat) (r : re) (rest : re) : re :=
  match n with
  | O => rest
  | S n' => Cat r (rep n' r rest)
  end.

End Regex.

(* ================================================================== *)
(** * The data model ([types/index.ts]) *)
(* ================================================================== *)

Module Types.
Import JS.

Inductive QuestionType : Type :=
| single_choice | multiple_choice | ranking | binary
| open_ended | date | numeric | scale.

Definition QuestionType_eqb (a b : QuestionType) : bool :=
  match a, b with
  | single_choice, single_choice | multiple_choice, multiple_choice
  | ranking, ranking | binary, binary | open_ended, open_ended
  | date, date | numeric, numeric | scale, scale => true
  | _, _ => false
  end.

Inductive FilterOperator : Type :=
| equals | not_equals | contains | not_contains | greater_than | less_than
| in_range_op | is_empty | is_not_empty | starts_with | ends_with.

(** [value] and [secondValue] are [string | number]; they are kept as the
    text [String(v)] (a missing second value is [None]). *)
Record FilterConfig : Type := {
  column : string;
  operator : FilterOperator;
  value : string;
  secondValue : option string
}.

Inductive CustomVariableType : Type :=
| grouped_single | grouped_multi | formula | recode | switch_case.

Record CustomVariable : Type := {
  cv_id : string;
  cv_name : string;
  cv_type : CustomVariableType;
  sourceColumns : list string
}.

(** A cell is kept as the text [String(cell || '')], which is all the
    engine reads of it. *)
Record ExcelData : Type := {
  headers : list string;
  rows : list (list string);
  fileName : string
}.

Record CrossTabConfig : Type := {
  tableVariables : list string;
  bannerVariables : list string;
  multiSelectGroups : obj (list string);
  questionTypes : obj QuestionType;
  tableNames : obj string;
  filters : obj FilterConfig;
  customVariables : obj CustomVariable
}.

Record BannerStructure : Type := {
  question : string;
  answers : list string;
  startIndex : nat;
  endIndex : nat
}.

Record ColumnMapping : Type := {
  rank1Columns : list string;
  rank2Columns : list string;
  rank3Columns : list string
}.

Record RankQuestionStructure : Type := {
  questionName : string;
  options : list string;
  maxRanks : nat;
  columnMapping : ColumnMapping
}.

Record RankingCalculations : Type := {
  rank1Only : list (list number);
  rank2Only : list (list number);
  rank3Only : list (list number);
  rank1Plus2 : list (list number);
  rank1Plus2Plus3 : list (list number);
  rankOptions : list string;
  rc_maxRanks : nat
}.

(** The fields of a [CrossTabResult] that the properties below talk about;
    the optional blocks (scale boxes, descriptive statistics, themes) are
    computed after these and do not feed back into them. *)
Record CrossTabResult : Type := {
  name : string;
  displayName : string;
  absolute : list (list number);
  percentage : list (list string);
  result_headers : list string;
  rowLabels : list string;
  bannerQuestion : string;
  bannerAnswers : list string;
  questionType : QuestionType;
  baseValues : list number;
  validationErrors : list string;
  significanceFlags : list (list string);
  bannerStructure : list BannerStructure
}.

(** A data row of [dataMap]: header -> cell. *)
Definition Row : Type := obj string.

End Types.

(* ================================================================== *)
(** * Ranking batteries ([utils/rankingProcessor.ts]) *)
(* ================================================================== *)

Module Ranking.
Import JS Regex Types.
Local Open Scope string_scope.

Definition is_Rr (c : ascii) : bool :=
  ((code c =? 82) || (code c =? 114))%nat.
Definition is_underscore (c : ascii) : bool := (code c =? 95)%nat.

(** [/^(.+?)_[Rr]ank?\d+/] *)
Definition root_pattern_1 : re :=
  seq_re [Bol; Grp 1 (lazy_plus is_dot); chr "_"; Chr is_Rr; chr "a"; chr "n";
          Opt (chr "k")] (plus is_digit).

(** [/^(.+?)_[Rr]\d+/] *)
Definition root_pattern_2 : re :=
  seq_re [Bol; Grp 1 (lazy_plus is_dot); chr "_"; Chr is_Rr] (plus is_digit).

(** [/^(.+?)_Rank_?\d+/] *)
Definition root_pattern_3 : re :=
  seq_re [Bol; Grp 1 (lazy_plus is_dot); chr "_"; chr "R"; chr "a"; chr "n";
          chr "k"; Opt (chr "_")] (plus is_digit).

(** [/^(.+?)\s+[Rr]ank\s*\d+/] *)
Definition root_pattern_4 : re :=
  seq_re [Bol; Grp 1 (lazy_plus is_dot); plus is_ws; Chr is_Rr; chr "a";
          chr "n"; chr "k"; Star is_ws] (plus is_digit).

Definition root_patterns : list re :=
  [root_pattern_1; root_pattern_2; root_pattern_3; root_pattern_4].

(** The [for (const pattern of patterns)] loop, returning at the first
    match. *)
Fixpoint first_root (patterns : list re) (header : string) : option string :=
  match patterns with
  | [] => None
  | pattern :: rest =>
      match exec pattern header with
      | Some caps =>
          match group caps 1 with
          | Some g => Some (trim g)
          | None => first_root rest header
          end
      | None => first_root rest header
      end
  end.

Definition extractRankQuestionRoot (header : string) : string :=
  match first_root root_patterns header with
  | Some root => root
  | None =>
      (* header.split(/[_\s]/)[0] *)
      take_while (fun c => negb (is_underscore c || is_ws c)) header
  end.

(** [/[Rr]ank?_?(\d+)|[Rr](\d+)/] *)
Definition rank_pattern : re :=
  Alt (seq_re [Chr is_Rr; chr "a"; chr "n"; Opt (chr "k"); Opt (chr "_")]
              (Grp 1 (plus is_digit)))
      (Cat (Chr is_Rr) (Grp 2 (plus is_digit))).

(** [groups[rankNum]] with creation on first use, then [push]. *)
Definition group_push (groups : obj (list string)) (k v : string)
  : obj (list string) :=
  match obj_get groups k with
  | Some l => obj_set groups k (push l v)
  | None => obj_set groups k (push [] v)
  end.

Definition groupColumnsByRank (columns : list string) : list (list string) :=
  let groups :=
    forEach columns
      (fun column groups =>
         match exec rank_pattern column with
         | Some rankMatch =>
             let rankNum :=
               match group rankMatch 1 with
               | Some g => if is_empty_string g
                           then match group rankMatch 2 with Some h => h | None => "undefined" end
                           else g
               | None => match group rankMatch 2 with Some h => h | None => "undefined" end
               end in
             group_push groups rankNum column
         | None => groups
         end)
      [] in
  (* Object.keys(groups).sort((a, b) => parseInt(a) - parseInt(b)) *)
  let by_rank (a b : string) : bool :=
    negb (PrimFloat.ltb 0%float (PrimFloat.sub (parseInt a) (parseInt b))) in
  map (fun rank =>
         sort_strings (match obj_get groups rank with Some g => g | None => [] end))
      (sort_by by_rank (obj_keys groups)).

(** [/(?:[Rr]ank?\d*_?|[Rr]\d+_?)(.+)$/] *)
Definition option_pattern : re :=
  seq_re [Alt (seq_re [Chr is_Rr; chr "a"; chr "n"; Opt (chr "k"); Star is_digit]
                      (Opt (chr "_")))
              (seq_re [Chr is_Rr; plus is_digit] (Opt (chr "_")));
          Grp 1 (plus is_dot)] Eol.

(** [.replace(/^_+|_+$/g, '').replace(/_/g, ' ').trim()] *)
Definition clean_option (s : string) : string :=
  trim (map_chars (fun c => if is_underscore c then " "%char else c)
          (drop_while_end is_underscore (drop_while is_underscore s))).

Definition extractOptionsFromRankGroup (rankColumns : list string)
  : list string :=
  forEach rankColumns
    (fun column options =>
       match exec option_pattern column with
       | Some optionMatch =>
           match group optionMatch 1 with
           | Some g =>
               let option := clean_option g in
               if negb (is_empty_string option) && negb (arr_includes options option)
               then push options option
               else options
           | None => options
           end
       | None => options
       end)
    [].

Definition analyzeRankStructure (questionRoot : string)
  (rankColumns allHeaders : list string) : option RankQuestionStructure :=
  let sortedColumns := sort_strings rankColumns in
  let rankGroups := groupColumnsByRank sortedColumns in
  if (length rankGroups <? 2)%nat then None
  else
    let options := extractOptionsFromRankGroup (nth 0 rankGroups []) in
    if (length options =? 0)%nat then None
    else
      let expectedColumnsPerRank := length options in
      let validStructure :=
        forallb (fun group => (length group =? expectedColumnsPerRank)%nat)
                rankGroups in
      if negb validStructure then None
      else
        let columnMapping :=
          {| rank1Columns := nth 1 rankGroups [];
             rank2Columns := nth 2 rankGroups [];
             rank3Columns := nth 3 rankGroups [] |} in
        Some {| questionName := questionRoot;
                options := options;
                maxRanks := Nat.min 3 (length rankGroups - 1);
                columnMapping := columnMapping |}.

Definition detectRankQuestionStructure (headers : list string)
  (questionTypes : obj QuestionType) : list RankQuestionStructure :=
  let rankingHeaders :=
    filter (fun header =>
              match obj_get questionTypes header with
              | Some t => QuestionType_eqb t ranking
              | None => false
              end) headers in
  let questionGroups :=
    forEach rankingHeaders
      (fun header questionGroups =>
         group_push questionGroups (extractRankQuestionRoot header) header)
      [] in
  forEach (own_entries questionGroups)
    (fun '(questionRoot, columns) rankQuestions =>
       match analyzeRankStructure questionRoot columns headers with
       | Some structure => push rankQuestions structure
       | None => rankQuestions
       end)
    [].

End Ranking.

(* ================================================================== *)
(** * SignificanceTester ([utils/statisticalTests.ts]) *)
(* ================================================================== *)

Module Stats.
Import JS.
Local Open Scope float_scope.

Inductive ComparisonType : Type := higher | lower | none.

Record SignificanceTestResult : Type := {
  isSignificant : bool;
  pValue : number;
  zScore : number;
  comparisonType : ComparisonType
}.

(** The literal pushed for a significantly lower cell, byte for byte as it
    stands in [statisticalTests.ts] (the UTF-8 encoding of the three
    characters U+00E2 U+2020 U+201C). *)
Definition lower_flag : string :=
  bytes [195; 162; 226; 128; 160; 226; 128; 156]%nat.

(** The downwards arrow U+2193 that the exporter and the legend look for. *)
Definition down_arrow : string := bytes [226; 134; 147]%nat.

Definition not_significant : SignificanceTestResult :=
  {| isSignificant := false; pValue := 1; zScore := 0; comparisonType := none |}.

(** [se] of [zTestForProportions], as a function of its arguments. *)
Definition standard_error (count1 total1 count2 total2 : number) : number :=
  let pPooled := (count1 + count2) / (total1 + total2) in
  Math_sqrt (pPooled * (1 - pPooled) * (1 / total1 + 1 / total2)).

Section WithExp.

Variable Math_exp : number -> number.

Definition normalCDF (x : number) : number :=
  let t := 1 / (1 + 0.2316419 * Math_abs x) in
  let d := 0.3989423 * Math_exp (- x * x / 2) in
  let prob :=
    d * t * (0.3193815 + t * (-0.3565638 + t * (1.781478
               + t * (-1.821256 + t * 1.330274)))) in
  if 0 <? x then 1 - prob else prob.

Definition zTestForProportions (count1 total1 count2 total2 alpha : number)
  : SignificanceTestResult :=
  if (total1 =? 0) || (total2 =? 0) then
    {| isSignificant := false; pValue := 1; zScore := 0; comparisonType := none |}
  else
    let p1 := count1 / total1 in
    let p2 := count2 / total2 in
    let pPooled := (count1 + count2) / (total1 + total2) in
    let se := Math_sqrt (pPooled * (1 - pPooled) * (1 / total1 + 1 / total2)) in
    if se =? 0 then
      {| isSignificant := false; pValue := 1; zScore := 0; comparisonType := none |}
    else
      let zScore := (p1 - p2) / se in
      let pValue := 2 * (1 - normalCDF (Math_abs zScore)) in
      let isSignificant := pValue <? alpha in
      let comparisonType :=
        if isSignificant then (if p2 <? p1 then higher else lower) else none in
      {| isSignificant := isSignificant; pValue := pValue; zScore := zScore;
         comparisonType := comparisonType |}.

(** Body of the inner loop of [performSignificanceTests]. *)
Definition flag_column (row baseValues : list number) (alpha : number)
  (colIndex : nat) (flagRow : list string) : list string :=
  if (colIndex =? 0)%nat then push flagRow ""%string
  else
    let cellCount := nth colIndex row undefined_number in
    let cellBase := nth colIndex baseValues undefined_number in
    let totalCount := nth 0 row undefined_number in
    let totalBase := nth 0 baseValues undefined_number in
    let testResult :=
      zTestForProportions cellCount cellBase totalCount totalBase alpha in
    if isSignificant testResult then
      push flagRow (match comparisonType testResult with
                    | higher => "*"%string
                    | _ => lower_flag
                    end)
    else push flagRow ""%string.

Definition performSignificanceTests (absoluteData : list (list number))
  (baseValues : list number) (alpha : number) : list (list string) :=
  for_range (length absoluteData)
    (fun rowIndex significanceFlags =>
       let row := nth rowIndex absoluteData [] in
       let flagRow :=
         for_range (length row) (flag_column row baseValues alpha) [] in
       push significanceFlags flagRow)
    [].

End WithExp.

(** [alpha = 0.05], the default argument. *)
Definition default_alpha : number := 0.05.

End Stats.

(* ================================================================== *)
(** * TextNormalizer ([utils/textProcessing.ts]) *)
(* ================================================================== *)

Module Text.
Import JS.
Local Open Scope string_scope.

Definition en_dash : string := bytes [226; 128; 147]%nat.
Definition em_dash : string := bytes [226; 128; 148]%nat.

Definition question_delimiters : list string :=
  [" - "; " " ++ en_dash ++ " "; " " ++ em_dash ++ " "; ": "; " | "; " ; "].

Definition is_open_paren (c : ascii) : bool := (code c =? 40)%nat.

Fixpoint first_delimiter (delimiters : list string) (header : string)
  : option string :=
  match delimiters with
  | [] => None
  | delimiter :: rest =>
      if includes header delimiter
      then Some (trim (before_first header delimiter))
      else first_delimiter rest header
  end.

Definition extractQuestionFromHeader (header : string) : string :=
  match first_delimiter question_delimiters header with
  | Some q => q
  | None =>
      (* header.match(/^([^(]+)/) *)
      let parenMatch := take_while (fun c => negb (is_open_paren c)) header in
      if is_empty_string parenMatch then header else trim parenMatch
  end.

(** The ASCII members of the class [[\s\-:|;]] (its two dash characters are
    not ASCII). *)
Definition is_prefix_delimiter (c : ascii) : bool :=
  (is_ws c || (code c =? 45) || (code c =? 58) || (code c =? 124)
   || (code c =? 59))%nat.

Definition char_at (s : string) (i : nat) : option ascii := String.get i s.

Definition option_ascii_eqb (a : option ascii) (c : ascii) : bool :=
  match a with Some a' => Ascii.eqb a' c | None => false end.

Definition removeSharedPrefix (columns : list string) : list string :=
  if (length columns <=? 1)%nat then columns
  else
    let firstColumn := nth 0 columns "" in
    (* the loop with its [break] *)
    let '(commonPrefix, _) :=
      for_range (String.length firstColumn)
        (fun i '(commonPrefix, stopped) =>
           if (stopped : bool) then (commonPrefix, stopped)
           else
             match char_at firstColumn i with
             | Some char =>
                 if forallb (fun col => option_ascii_eqb (char_at col i) char) columns
                 then (commonPrefix ++ String char "", false)
                 else (commonPrefix, true)
             | None => (commonPrefix, true)
             end)
        ("", false) in
    let commonPrefix := drop_while_end is_prefix_delimiter commonPrefix in
    if (3 <? String.length commonPrefix)%nat then
      map (fun col =>
             let cleaned :=
               trim (substring (String.length commonPrefix)
                               (String.length col - String.length commonPrefix) col) in
             let cleaned := drop_while is_prefix_delimiter cleaned in
             or_else cleaned col)
          columns
    else columns.

End Text.

(* ================================================================== *)
(** * CrossTabEngine ([utils/excelProcessor.ts]) *)
(* ================================================================== *)

Module CrossTab.
Import JS Types Stats Text.
Local Open Scope string_scope.

(** ** Expressions the source repeats inline *)

(** [String(row[col] || '').trim()] *)
Definition cell_text (row : Row) (col : string) : string :=
  trim (match obj_get row col with Some v => v | None => "" end).

(** [val !== '' && val !== 'null' && val !== 'undefined'] *)
Definition non_blank (val : string) : bool :=
  negb (val =? "") && negb (val =? "null") && negb (val =? "undefined").

(** [arr.filter(p).length] *)
Definition count {A} (p : A -> bool) (arr : list A) : number :=
  of_nat (length (filter p arr)).

(** [base > 0 ? Math.round((count / base) * 100) : 0] *)
Definition percent_of (cnt base : number) : number :=
  if PrimFloat.ltb 0 base
  then Math_round (PrimFloat.mul (PrimFloat.div cnt base) 100)
  else 0%float.

(** [`${percentage}%`] *)
Definition percent_label (p : number) : string := Number_toString p ++ "%".

(** The sorted distinct non-blank values of a column:
    [[...new Set(dataMap.map(..).filter(..))].sort()] *)
Definition distinct_values (dataMap : list Row) (col : string) : list string :=
  sort_strings
    (dedupe (filter non_blank (map (fun row => cell_text row col) dataMap))).

(** [bannerValuesByVar[bannerVar]], read in a dictionary that has the
    entry.  The engine builds the dictionary with one entry per banner
    variable ([banner_headers]).  On a dictionary without the entry the
    source iterates [undefined] and throws a TypeError; that is not
    modelled, and the properties of the functions that take the dictionary
    from their caller are stated for the dictionaries that define every
    banner variable. *)
Definition banner_values (bannerValuesByVar : obj (list string))
  (bannerVar : string) : list string :=
  match obj_get bannerValuesByVar bannerVar with Some v => v | None => [] end.

(** [bannerVars.forEach(bannerVar =>
       bannerValuesByVar[bannerVar].forEach(bannerVal => body))] *)
Definition forEach_banner {St} (bannerVars : list string)
  (bannerValuesByVar : obj (list string))
  (body : string -> string -> St -> St) (init : St) : St :=
  forEach bannerVars
    (fun bannerVar st =>
       forEach (banner_values bannerValuesByVar bannerVar) (body bannerVar) st)
    init.

(** The "combined banner headers" block: [allBannerHeaders] and
    [bannerValuesByVar]. *)
Definition banner_headers (bannerVars : list string) (dataMap : list Row)
  : list string * obj (list string) :=
  forEach bannerVars
    (fun bannerVar '(allBannerHeaders, bannerValuesByVar) =>
       let bannerValues := distinct_values dataMap bannerVar in
       (forEach bannerValues (fun val hs => push hs val) allBannerHeaders,
        obj_set bannerValuesByVar bannerVar bannerValues))
    (["Total"], []).

(** [new Array(n).fill(x)] *)
Definition filled {A} (n : nat) (x : A) : list A := repeat x n.

Fixpoint index_of (l : list string) (x : string) : option nat :=
  match l with
  | [] => None
  | y :: l' =>
      if x =? y then Some 0
      else match index_of l' x with Some i => Some (S i) | None => None end
  end.

(** [s.replace('%', '')]: the first occurrence only. *)
Fixpoint remove_first_percent (s : string) : string :=
  match s with
  | EmptyString => EmptyString
  | String c s' =>
      if (code c =? 37)%nat then s' else String c (remove_first_percent s')
  end.

(** A row of counts: the total, then one count per banner value
    ([absRow], and [baseValues] itself). *)
Definition count_row (bannerVars : list string)
  (bannerValuesByVar : obj (list string)) (total : number)
  (banner_count : string -> string -> number) : list number :=
  forEach_banner bannerVars bannerValuesByVar
    (fun bannerVar bannerVal absRow =>
       push absRow (banner_count bannerVar bannerVal))
    (push [] total).

(** The "calculate percentages" block: [pctRow], built with the running
    [colIndex]. *)
Definition percent_row (bannerVars : list string)
  (bannerValuesByVar : obj (list string)) (baseValues absRow : list number)
  (totalCount totalBase : number) : list string :=
  let totalPercentage := percent_of totalCount totalBase in
  let pctRow := push [] (percent_label totalPercentage) in
  let colIndex := 1 in
  fst (forEach_banner bannerVars bannerValuesByVar
         (fun bannerVar bannerVal '(pctRow, colIndex) =>
            let base := nth colIndex baseValues undefined_number in
            let cnt := nth colIndex absRow undefined_number in
            let percentage := percent_of cnt base in
            (push pctRow (percent_label percentage), S colIndex))
         (pctRow, colIndex)).

(** ** Filters *)

Section Filters.

(** [Number(string)] of the runtime. *)
Variable Number : string -> number.

Definition filter_passes (data : ExcelData) (row : list string)
  (flt : FilterConfig) : bool :=
  match index_of (headers data) (column flt) with
  | None => true
  | Some columnIndex =>
      let cellValue := toLowerCase (trim (nth columnIndex row "")) in
      let filterValue := toLowerCase (trim (value flt)) in
      match operator flt with
      | equals => cellValue =? filterValue
      | not_equals => negb (cellValue =? filterValue)
      | contains => includes cellValue filterValue
      | not_contains => negb (includes cellValue filterValue)
      | greater_than =>
          let numValue := Number cellValue in
          let numFilter := Number filterValue in
          negb (PrimFloat.is_nan numValue) && negb (PrimFloat.is_nan numFilter)
          && PrimFloat.ltb numFilter numValue
      | less_than =>
          let numValue2 := Number cellValue in
          let numFilter2 := Number filterValue in
          negb (PrimFloat.is_nan numValue2) && negb (PrimFloat.is_nan numFilter2)
          && PrimFloat.ltb numValue2 numFilter2
      | in_range_op =>
          let numValue3 := Number cellValue in
          let numFilter3 := Number filterValue in
          let numFilter4 :=
            match secondValue flt with
            | Some s => if is_empty_string s then 0%float else Number s
            | None => 0%float
            end in
          negb (PrimFloat.is_nan numValue3) && negb (PrimFloat.is_nan numFilter3)
          && negb (PrimFloat.is_nan numFilter4)
          && PrimFloat.leb numFilter3 numValue3
          && PrimFloat.leb numValue3 numFilter4
      | _ => true   (* default: *)
      end
  end.

Definition applyFilters (data : ExcelData) (flts : obj FilterConfig)
  : ExcelData :=
  if (length (obj_keys flts) =? 0)%nat then data
  else
    let filteredRows :=
      filter (fun row => forallb (filter_passes data row) (obj_values flts))
             (rows data) in
    {| headers := headers data; rows := filteredRows;
       fileName := fileName data |}.

End Filters.

(** ** Banner structure *)

Definition createBannerStructure (bannerVars : list string)
  (dataMap : list Row) : list BannerStructure :=
  fst (forEach bannerVars
         (fun bannerVar '(bannerStructure, currentIndex) =>
            let question := extractQuestionFromHeader bannerVar in
            let bannerValues := distinct_values dataMap bannerVar in
            (push bannerStructure
               {| question := question;
                  answers := bannerValues;
                  startIndex := currentIndex;
                  endIndex := currentIndex + length bannerValues - 1 |},
             currentIndex + length bannerValues))
         ([], 1)).

(** ** Open-ended themes *)

Definition themeKeywords : list (string * list string) :=
  [ ("Price/Cost/Value",
     ["price"; "cost"; "cheap"; "expensive"; "affordable"; "budget"; "money";
      "value"; "worth"; "pricing"; "fee"; "charge"; "rate"; "economical";
      "inexpensive"]);
    ("Quality/Performance",
     ["quality"; "good"; "bad"; "excellent"; "poor"; "high-quality";
      "low-quality"; "performance"; "reliable"; "durable"; "effective";
      "efficient"; "superior"]);
    ("Customer Service",
     ["service"; "staff"; "customer"; "help"; "support"; "friendly"; "rude";
      "assistance"; "representative"; "team"; "personnel"; "helpful";
      "professional"]);
    ("Location/Accessibility",
     ["location"; "close"; "near"; "far"; "convenient"; "accessible";
      "parking"; "distance"; "proximity"; "nearby"; "remote"; "central";
      "easy to find"]);
    ("Product Features",
     ["product"; "feature"; "function"; "design"; "style"; "variety";
      "selection"; "options"; "functionality"; "capability"; "specification";
      "attribute"]);
    ("User Experience",
     ["experience"; "feel"; "atmosphere"; "environment"; "comfortable";
      "pleasant"; "enjoyable"; "satisfaction"; "impression"; "usability";
      "interface"]);
    ("Speed/Efficiency",
     ["time"; "fast"; "slow"; "quick"; "wait"; "delay"; "speed"; "efficient";
      "prompt"; "rapid"; "immediate"; "timely"; "responsive"]);
    ("Recommendation/Loyalty",
     ["recommend"; "suggest"; "refer"; "tell"; "friends"; "family"; "loyalty";
      "trust"; "confidence"; "satisfaction"; "repeat"]);
    ("Communication",
     ["communication"; "information"; "clear"; "confusing"; "explanation";
      "instructions"; "guidance"; "feedback"; "response"; "contact"]);
    ("Convenience/Ease",
     ["convenient"; "easy"; "simple"; "straightforward"; "hassle";
      "complicated"; "difficult"; "user-friendly"; "intuitive"]) ].

Record ThemeData : Type := {
  td_count : nat;
  actualResponses : list string;
  responsesByBanner : obj (list string)
}.

Record ThemeWithResponses : Type := {
  theme : string;
  tw_count : nat;
  tw_actualResponses : list string;
  tw_responsesByBanner : obj (list string)
}.

(** A theme entry with an empty response array per banner value. *)
Definition empty_theme (bannerVars : list string)
  (bannerValuesByVar : obj (list string)) : ThemeData :=
  {| td_count := 0;
     actualResponses := [];
     responsesByBanner :=
       forEach_banner bannerVars bannerValuesByVar
         (fun _ bannerVal rb => obj_set rb bannerVal []) [] |}.

(** [themes[t].count++; themes[t].actualResponses.push(response);] and the
    banner-specific pushes. *)
Definition record_response (bannerVars : list string)
  (bannerValuesByVar : obj (list string)) (row : Row) (response : string)
  (t : string) (themes : obj ThemeData) : obj ThemeData :=
  match obj_get themes t with
  | None => themes
  | Some td =>
      let rb :=
        forEach bannerVars
          (fun bannerVar rb =>
             let bannerValue := cell_text row bannerVar in
             if negb (is_empty_string bannerValue)
                && arr_includes (banner_values bannerValuesByVar bannerVar) bannerValue
             then
               match obj_get rb bannerValue with
               | Some l => obj_set rb bannerValue (push l response)
               | None => rb
               end
             else rb)
          (responsesByBanner td) in
      obj_set themes t
        {| td_count := S (td_count td);
           actualResponses := push (actualResponses td) response;
           responsesByBanner := rb |}
  end.

Definition extractThemesWithResponses (responses : list string)
  (dataMap : list Row) (tableVar : string) (bannerVars : list string)
  (bannerValuesByVar : obj (list string)) : list ThemeWithResponses :=
  let validResponses :=
    filter (fun r => negb (is_empty_string r)
                     && (0 <? String.length (trim r))%nat) responses in
  if (length validResponses =? 0)%nat then []
  else
    let themes :=
      forEach (map fst themeKeywords)
        (fun t themes => obj_set themes t (empty_theme bannerVars bannerValuesByVar))
        [] in
    let themes := obj_set themes "Other" (empty_theme bannerVars bannerValuesByVar) in
    let themes :=
      forEach dataMap
        (fun row themes =>
           let response := cell_text row tableVar in
           if is_empty_string response || (response =? "null")
              || (response =? "undefined")
           then themes
           else
             let lowerResponse := toLowerCase response in
             let '(bestMatch, maxMatches) :=
               forEach themeKeywords
                 (fun '(t, keywords) '(bestMatch, maxMatches) =>
                    let matches :=
                      length (filter (fun keyword => includes lowerResponse keyword)
                                     keywords) in
                    if (maxMatches <? matches)%nat then (t, matches)
                    else (bestMatch, maxMatches))
                 ("", 0) in
             if (0 <? maxMatches)%nat
             then record_response bannerVars bannerValuesByVar row response
                    bestMatch themes
             else record_response bannerVars bannerValuesByVar row response
                    "Other" themes)
        themes in
    sort_by (fun a b => (tw_count b <=? tw_count a)%nat)
      (map (fun '(t, data) =>
              {| theme := t;
                 tw_count := td_count data;
                 tw_actualResponses := actualResponses data;
                 tw_responsesByBanner := responsesByBanner data |})
         (filter (fun '(_, data) => (0 <? td_count data)%nat)
                 (own_entries themes))).

(** ** Ranking calculations ([createRankingCrossTab],
       [calculateRankCount] of [rankingProcessor.ts]) *)

(** [value !== '' && value !== '0' && value !== 'null' && value !== 'undefined'] *)
Definition has_rank_value (v : string) : bool :=
  negb (v =? "") && negb (v =? "0") && negb (v =? "null")
  && negb (v =? "undefined").

(** [columnName] is [undefined] when the mapping has no such column. *)
Definition calculateRankCount (dataMap : list Row) (columnName : option string)
  (bannerVars : list string) (bannerValuesByVar : obj (list string))
  (colIndex : nat) : number :=
  match columnName with
  | None => 0%float
  | Some columnName =>
      if is_empty_string columnName then 0%float
      else if (colIndex =? 0)%nat then
        count (fun row => has_rank_value (cell_text row columnName)) dataMap
      else
        (* the nested loops, returning at [currentIndex === colIndex] *)
        let '(_, found) :=
          forEach_banner bannerVars bannerValuesByVar
            (fun bannerVar bannerVal '(currentIndex, found) =>
               match found with
               | Some _ => (currentIndex, found)
               | None =>
                   if (currentIndex =? colIndex)%nat then
                     (currentIndex,
                      Some (count (fun row =>
                                     has_rank_value (cell_text row columnName)
                                     && (cell_text row bannerVar =? bannerVal))
                                  dataMap))
                   else (S currentIndex, None)
               end)
            (1, None) in
        match found with Some n => n | None => 0%float end
  end.

Definition createRankingCrossTab (dataMap : list Row)
  (rankStructure : RankQuestionStructure) (bannerVars : list string)
  (bannerValuesByVar : obj (list string)) (baseValues : list number)
  : RankingCalculations :=
  let options := options rankStructure in
  let columnMapping := columnMapping rankStructure in
  let '(rank1Only, rank2Only, rank3Only, rank1Plus2, rank1Plus2Plus3) :=
    forEachi options
      (fun option optionIndex '(r1, r2, r3, r12, r123) =>
         let rank1Col := nth_error (rank1Columns columnMapping) optionIndex in
         let rank2Col := nth_error (rank2Columns columnMapping) optionIndex in
         let rank3Col := nth_error (rank3Columns columnMapping) optionIndex in
         let '(rank1Row, rank2Row, rank3Row, rank1Plus2Row, rank1Plus2Plus3Row) :=
           for_range (length baseValues)
             (fun colIndex '(a1, a2, a3, a12, a123) =>
                let rank1Count :=
                  calculateRankCount dataMap rank1Col bannerVars bannerValuesByVar colIndex in
                let rank2Count :=
                  calculateRankCount dataMap rank2Col bannerVars bannerValuesByVar colIndex in
                let rank3Count :=
                  calculateRankCount dataMap rank3Col bannerVars bannerValuesByVar colIndex in
                let base := nth colIndex baseValues undefined_number in
                (push a1 (percent_of rank1Count base),
                 push a2 (percent_of rank2Count base),
                 push a3 (percent_of rank3Count base),
                 push a12 (percent_of (PrimFloat.add rank1Count rank2Count) base),
                 push a123 (percent_of (PrimFloat.add (PrimFloat.add rank1Count rank2Count)
                                                       rank3Count) base)))
             ([], [], [], [], []) in
         (push r1 rank1Row, push r2 rank2Row, push r3 rank3Row,
          push r12 rank1Plus2Row, push r123 rank1Plus2Plus3Row))
      ([], [], [], [], []) in
  {| rank1Only := rank1Only;
     rank2Only := rank2Only;
     rank3Only := rank3Only;
     rank1Plus2 := rank1Plus2;
     rank1Plus2Plus3 := rank1Plus2Plus3;
     rankOptions := options;
     rc_maxRanks := maxRanks rankStructure |}.

(** ** The aggregators *)

Section Aggregators.

(** [Math.exp] of the runtime (used by the significance test). *)
Variable Math_exp : number -> number.

Definition createOpenEndedCrossTab (dataMap : list Row) (tableVar : string)
  (bannerVars allHeaders : list string) (displayName : string)
  : option CrossTabResult :=
  let validationErrors : list string := [] in
  let allResponses :=
    filter non_blank (map (fun row => cell_text row tableVar) dataMap) in
  if (length allResponses =? 0)%nat then None
  else
    let bannerStructure := createBannerStructure bannerVars dataMap in
    let '(allBannerHeaders, bannerValuesByVar) :=
      banner_headers bannerVars dataMap in
    let totalBase := of_nat (length allResponses) in
    let baseValues :=
      count_row bannerVars bannerValuesByVar totalBase
        (fun bannerVar bannerVal =>
           count (fun row => non_blank (cell_text row tableVar)
                             && (cell_text row bannerVar =? bannerVal)) dataMap) in
    let rowLabels := push [] "FULL RESPONSES" in
    let absolute := push [] baseValues in
    let percentage := push [] (map (fun _ => "100%") baseValues) in
    let rowLabels := push rowLabels "--- THEMATIC ANALYSIS ---" in
    let absolute := push absolute (filled (length baseValues) 0%float) in
    let percentage := push percentage (filled (length baseValues) "") in
    let themesWithResponses :=
      extractThemesWithResponses allResponses dataMap tableVar bannerVars
        bannerValuesByVar in
    if (length themesWithResponses =? 0)%nat then None
    else
      let '(absolute, percentage, rowLabels) :=
        forEach themesWithResponses
          (fun themeData '(absolute, percentage, rowLabels) =>
             let absRow :=
               count_row bannerVars bannerValuesByVar (of_nat (tw_count themeData))
                 (fun bannerVar bannerVal =>
                    match obj_get (tw_responsesByBanner themeData) bannerVal with
                    | Some l => of_nat (length l)
                    | None => 0%float
                    end) in
             let pctRow :=
               percent_row bannerVars bannerValuesByVar baseValues absRow
                 (of_nat (tw_count themeData)) totalBase in
             (push absolute absRow, push percentage pctRow,
              push rowLabels (theme themeData)))
          (absolute, percentage, rowLabels) in
      let significanceFlags :=
        performSignificanceTests Math_exp absolute baseValues default_alpha in
      Some {| name := tableVar ++ "_themes_by_" ++ join "_" bannerVars;
              displayName := displayName;
              absolute := absolute;
              percentage := percentage;
              result_headers := allBannerHeaders;
              rowLabels := rowLabels;
              bannerQuestion := join " | " bannerVars;
              bannerAnswers := tl allBannerHeaders;
              questionType := open_ended;
              baseValues := baseValues;
              validationErrors := validationErrors;
              significanceFlags := significanceFlags;
              bannerStructure := bannerStructure |}.

(** [rankType.data] of the five ranking views, with their labels. *)
Definition rankingTypes (rc : RankingCalculations)
  : list (string * list (list number)) :=
  [ ("Rank 1 Only", rank1Only rc);
    ("Rank 2 Only", rank2Only rc);
    ("Rank 3 Only", rank3Only rc);
    ("Rank 1 + 2", rank1Plus2 rc);
    ("Rank 1 + 2 + 3", rank1Plus2Plus3 rc) ].

Definition createRankQuestionCrossTab (dataMap : list Row)
  (questionName : string) (bannerVars : list string)
  (rankStructure : RankQuestionStructure) (allHeaders : list string)
  (displayName : string) : option CrossTabResult :=
  let bannerStructure := createBannerStructure bannerVars dataMap in
  let '(allBannerHeaders, bannerValuesByVar) :=
    banner_headers bannerVars dataMap in
  let allRankColumns :=
    filter (fun col => negb (is_empty_string col))
      (rank1Columns (columnMapping rankStructure)
       ++ rank2Columns (columnMapping rankStructure)
       ++ rank3Columns (columnMapping rankStructure)) in
  let hasAnyRanking (row : Row) :=
    existsb (fun col => has_rank_value (cell_text row col)) allRankColumns in
  let totalBase := count hasAnyRanking dataMap in
  let baseValues :=
    count_row bannerVars bannerValuesByVar totalBase
      (fun bannerVar bannerVal =>
         count (fun row => (cell_text row bannerVar =? bannerVal)
                           && hasAnyRanking row) dataMap) in
  let rankingCalculations :=
    createRankingCrossTab dataMap rankStructure bannerVars bannerValuesByVar
      baseValues in
  let '(absolute, percentage, rowLabels) :=
    forEach (rankingTypes rankingCalculations)
      (fun '(label, data) '(absolute, percentage, rowLabels) =>
         if (0 <? length data)%nat then
           let rowLabels := push rowLabels ("--- " ++ toUpperCase label ++ " ---") in
           let absolute := push absolute (filled (length baseValues) 0%float) in
           let percentage := push percentage (filled (length baseValues) "") in
           forEachi data
             (fun row optionIndex '(absolute, percentage, rowLabels) =>
                let optionName :=
                  match nth_error (rankOptions rankingCalculations) optionIndex with
                  | Some o => or_else o ("Option " ++ Number_toString (of_nat (optionIndex + 1)))
                  | None => "Option " ++ Number_toString (of_nat (optionIndex + 1))
                  end in
                let absRow :=
                  forEachi row
                    (fun pct colIndex absRow =>
                       let base := nth colIndex baseValues undefined_number in
                       push absRow
                         (Math_round (PrimFloat.div (PrimFloat.mul pct base) 100)))
                    [] in
                let pctRow := map percent_label row in
                (push absolute absRow, push percentage pctRow,
                 push rowLabels optionName))
             (absolute, percentage, rowLabels)
         else (absolute, percentage, rowLabels))
      ([], [], []) in
  let significanceFlags :=
    performSignificanceTests Math_exp absolute baseValues default_alpha in
  let validationErrors :=
    if PrimFloat.eqb totalBase 0
    then push [] ("No respondents found who provided rankings for: " ++ questionName)
    else [] in
  Some {| name := questionName ++ "_ranking_by_" ++ join "_" bannerVars;
          displayName := displayName;
          absolute := absolute;
          percentage := percentage;
          result_headers := allBannerHeaders;
          rowLabels := rowLabels;
          bannerQuestion := join " | " bannerVars;
          bannerAnswers := tl allBannerHeaders;
          questionType := ranking;
          baseValues := baseValues;
          validationErrors := validationErrors;
          significanceFlags := significanceFlags;
          bannerStructure := bannerStructure |}.

Definition createRegularCrossTab (dataMap : list Row) (tableVar : string)
  (bannerVars : list string) (questionType : QuestionType)
  (allHeaders : list string) (displayName : string) : option CrossTabResult :=
  if QuestionType_eqb questionType open_ended then
    createOpenEndedCrossTab dataMap tableVar bannerVars allHeaders displayName
  else
    let tableValues := distinct_values dataMap tableVar in
    if (length tableValues =? 0)%nat then None
    else
      let bannerStructure := createBannerStructure bannerVars dataMap in
      let '(allBannerHeaders, bannerValuesByVar) :=
        banner_headers bannerVars dataMap in
      let totalBase :=
        count (fun row => non_blank (cell_text row tableVar)) dataMap in
      let baseValues :=
        count_row bannerVars bannerValuesByVar totalBase
          (fun bannerVar bannerVal =>
             count (fun row => non_blank (cell_text row tableVar)
                               && (cell_text row bannerVar =? bannerVal))
                   dataMap) in
      let '(absolute, percentage) :=
        forEach tableValues
          (fun tableVal '(absolute, percentage) =>
             let totalCount :=
               count (fun row => cell_text row tableVar =? tableVal) dataMap in
             let absRow :=
               count_row bannerVars bannerValuesByVar totalCount
                 (fun bannerVar bannerVal =>
                    count (fun row => (cell_text row tableVar =? tableVal)
                                      && (cell_text row bannerVar =? bannerVal))
                          dataMap) in
             let pctRow :=
               percent_row bannerVars bannerValuesByVar baseValues absRow
                 totalCount totalBase in
             (push absolute absRow, push percentage pctRow))
          ([], []) in
      let totalsAbs := baseValues in
      let totalsPct := map (fun _ => "100%") baseValues in
      let absolute := push absolute totalsAbs in
      let percentage := push percentage totalsPct in
      let significanceFlags :=
        performSignificanceTests Math_exp absolute baseValues default_alpha in
      let validationErrors :=
        if QuestionType_eqb questionType single_choice
           || QuestionType_eqb questionType binary
        then
          for_range (length allBannerHeaders)
            (fun colIndex validationErrors =>
               let sum :=
                 for_range (length tableValues)
                   (fun rowIndex sum =>
                      let pctStr := nth colIndex (nth rowIndex percentage []) "" in
                      let pct := parseInt (remove_first_percent pctStr) in
                      PrimFloat.add sum pct)
                   0%float in
               if PrimFloat.ltb 5 (Math_abs (PrimFloat.sub sum 100))
               then push validationErrors
                      ("Column " ++ dquote ++ nth colIndex allBannerHeaders ""
                       ++ dquote ++ " percentages sum to " ++ Number_toString sum
                       ++ "% instead of 100%. This may indicate data quality issues.")
               else validationErrors)
            []
        else [] in
      Some {| name := tableVar ++ "_by_" ++ join "_" bannerVars;
              displayName := displayName;
              absolute := absolute;
              percentage := percentage;
              result_headers := allBannerHeaders;
              rowLabels := tableValues ++ ["Total"];
              bannerQuestion := join " | " bannerVars;
              bannerAnswers := tl allBannerHeaders;
              questionType := questionType;
              baseValues := baseValues;
              validationErrors := validationErrors;
              significanceFlags := significanceFlags;
              bannerStructure := bannerStructure |}.

(** [arr.forEach((x, index) => body)] where the body may throw. *)
Definition forEachi_r {A St} (arr : list A)
  (body : A -> nat -> St -> result St) (init : St) : result St :=
  bind
    (fold_left
       (fun acc x =>
          bind acc (fun '(i, s) => bind (body x i s) (fun s' => Ok (S i, s'))))
       arr (Ok (0, init)))
    (fun '(_, s) => Ok s).

(** The [isSelected] helper of [createMultiSelectCrossTab]. *)
Definition isSelected (row : Row) (col : string) : bool :=
  let cellValue := toLowerCase (cell_text row col) in
  negb (cellValue =? "") && negb (cellValue =? "0") && negb (cellValue =? "no")
  && negb (cellValue =? "false") && negb (cellValue =? "n/a")
  && negb (cellValue =? "na") && negb (cellValue =? "null")
  && negb (cellValue =? "undefined").

Definition createMultiSelectCrossTab (dataMap : list Row) (groupName : string)
  (bannerVars multiSelectCols allHeaders : list string) (displayName : string)
  : result (option CrossTabResult) :=
  let bannerStructure := createBannerStructure bannerVars dataMap in
  let '(allBannerHeaders, bannerValuesByVar) :=
    banner_headers bannerVars dataMap in
  let hasAnySelection (row : Row) :=
    existsb (fun col => isSelected row col) multiSelectCols in
  let totalBase := count hasAnySelection dataMap in
  let baseValues :=
    count_row bannerVars bannerValuesByVar totalBase
      (fun bannerVar bannerVal =>
         count (fun row => (cell_text row bannerVar =? bannerVal)
                           && hasAnySelection row) dataMap) in
  let cleanedOptions := removeSharedPrefix multiSelectCols in
  bind
    (forEachi_r multiSelectCols
       (fun col index '(absolute, percentage, rowLabels) =>
          (* dataMap[0].hasOwnProperty(col) *)
          match nth_error dataMap 0 with
          | None => Throw TypeError
          | Some firstRow =>
              if negb (hasOwnProperty firstRow col)
              then Ok (absolute, percentage, rowLabels)
              else
                let totalCount := count (fun row => isSelected row col) dataMap in
                let absRow :=
                  count_row bannerVars bannerValuesByVar totalCount
                    (fun bannerVar bannerVal =>
                       count (fun row => isSelected row col
                                         && (cell_text row bannerVar =? bannerVal))
                             dataMap) in
                let pctRow :=
                  percent_row bannerVars bannerValuesByVar baseValues absRow
                    totalCount totalBase in
                Ok (push absolute absRow, push percentage pctRow,
                    push rowLabels (nth index cleanedOptions ""))
          end)
       ([], [], []))
    (fun '(absolute, percentage, rowLabels) =>
       let netAbsRow := baseValues in
       let netPctRow := map (fun _ => "100%") baseValues in
       let absolute := push absolute netAbsRow in
       let percentage := push percentage netPctRow in
       let rowLabels := push rowLabels "NET: Any Response" in
       let significanceFlags :=
         performSignificanceTests Math_exp absolute baseValues default_alpha in
       let validationErrors :=
         if PrimFloat.eqb totalBase 0
         then push [] ("No respondents found who answered any option in "
                       ++ "multi-select group: " ++ groupName)
         else [] in
       Ok (Some {| name := groupName ++ "_by_" ++ join "_" bannerVars;
                   displayName := displayName;
                   absolute := absolute;
                   percentage := percentage;
                   result_headers := allBannerHeaders;
                   rowLabels := rowLabels;
                   bannerQuestion := join " | " bannerVars;
                   bannerAnswers := tl allBannerHeaders;
                   questionType := multiple_choice;
                   baseValues := baseValues;
                   validationErrors := validationErrors;
                   significanceFlags := significanceFlags;
                   bannerStructure := bannerStructure |})).

(** "Implementation for custom variables would go here. This is a
    placeholder for the custom variable functionality": [return null]. *)
Definition createCustomVariableCrossTab (dataMap : list Row)
  (variableName : string) (bannerVars : list string)
  (customVariable : option CustomVariable) (allHeaders : list string)
  (displayName : string) : option CrossTabResult :=
  None.

(** [if (result) results.push(result);] *)
Definition push_result (results : list CrossTabResult)
  (r : option CrossTabResult) : list CrossTabResult :=
  match r with
  | Some r => push results r
  | None => results
  end.

(** [arr.forEach(x => body)] where the body may throw. *)
Definition forEach_r {A St} (arr : list A) (body : A -> St -> result St)
  (init : St) : result St :=
  fold_left (fun acc x => bind acc (body x)) arr (Ok init).

(** The row objects of [dataMap]. *)
Definition build_dataMap (hdrs : list string) (rws : list (list string))
  : list Row :=
  map (fun row =>
         forEachi hdrs
           (fun header index rowData => obj_set rowData header (nth index row ""))
           [])
      rws.

Section Generate.

Variable Number : string -> number.

(** The callback of [config.tableVariables.forEach]: the dispatch on the
    kind of one table variable. *)
Definition table_step (data : ExcelData) (config : CrossTabConfig)
  (dataMap : list Row) (rankQuestionStructures : list RankQuestionStructure)
  (tableVar : string) (results : list CrossTabResult)
  : result (list CrossTabResult) :=
  let isMultiSelectGroup :=
    arr_includes (obj_keys (multiSelectGroups config)) tableVar in
  let isCustomVariable :=
    arr_includes (obj_keys (customVariables config)) tableVar in
  let isRankQuestion :=
    existsb (fun rank => questionName rank =? tableVar)
            rankQuestionStructures in
  let displayName :=
    match obj_get (tableNames config) tableVar with
    | Some n => or_else n tableVar
    | None => tableVar
    end in
  if isMultiSelectGroup then
    match obj_get (multiSelectGroups config) tableVar with
    | Some multiSelectCols =>
        if (0 <? length multiSelectCols)%nat then
          bind (createMultiSelectCrossTab dataMap tableVar
                  (bannerVariables config) multiSelectCols (headers data)
                  displayName)
               (fun r => Ok (push_result results r))
        else Ok results
    | None => Ok results
    end
  else if isCustomVariable then
    let customVar := obj_get (customVariables config) tableVar in
    Ok (push_result results
          (createCustomVariableCrossTab dataMap tableVar
             (bannerVariables config) customVar (headers data) displayName))
  else if isRankQuestion then
    match find (fun rank => questionName rank =? tableVar)
               rankQuestionStructures with
    | Some rankStructure =>
        Ok (push_result results
              (createRankQuestionCrossTab dataMap tableVar
                 (bannerVariables config) rankStructure (headers data)
                 displayName))
    | None => Ok results
    end
  else if arr_includes (headers data) tableVar then
    let questionType :=
      match obj_get (questionTypes config) tableVar with
      | Some t => t
      | None => single_choice
      end in
    Ok (push_result results
          (createRegularCrossTab dataMap tableVar (bannerVariables config)
             questionType (headers data) displayName))
  else Ok results.

Definition generateCrossTabs (data : ExcelData) (config : CrossTabConfig)
  : result (list CrossTabResult) :=
  let filteredData := applyFilters Number data (filters config) in
  let dataMap := build_dataMap (headers data) (rows filteredData) in
  let rankQuestionStructures :=
    Ranking.detectRankQuestionStructure (headers data) (questionTypes config) in
  forEach_r (tableVariables config)
    (table_step data config dataMap rankQuestionStructures) [].

End Generate.

End Aggregators.

End CrossTab.

(* ================================================================== *)
(** * TypeDetector ([utils/questionTypeDetection.ts]) *)
(* ================================================================== *)

Module TypeDetector.
Import JS Regex Types.
Local Open Scope string_scope.

Record QuestionTypeAnalysis : Type := {
  qta_type : QuestionType;
  confidence : number;
  reasoning : string
}.

Definition d : re := digit.
Definition slash : re := chr "/".
Definition dash : re := chr "-".
Definition colon : re := chr ":".

(** [(:\\d{2})?$] *)
Definition opt_seconds_end : re :=
  Cat (Opt (Grp 1 (seq_re [colon; d] d))) Eol.

(** [\\d{2}:\\d{2}(:\\d{2})?$] *)
Definition time_end : re := seq_re [d; d; colon; d; d] opt_seconds_end.

Definition datePatterns : list re :=
  [ (* /^\\d{4}-\\d{2}-\\d{2}$/ *)
    seq_re [Bol; d; d; d; d; dash; d; d; dash; d; d] Eol;
    (* /^\\d{2}\\/\\d{2}\\/\\d{4}$/ *)
    seq_re [Bol; d; d; slash; d; d; slash; d; d; d; d] Eol;
    (* /^\\d{2}-\\d{2}-\\d{4}$/ *)
    seq_re [Bol; d; d; dash; d; d; dash; d; d; d; d] Eol;
    (* /^\\d{1,2}\\/\\d{1,2}\\/\\d{2,4}$/ *)
    seq_re [Bol; d; Opt d; slash; d; Opt d; slash; d; d; Opt (Cat d (Opt d))] Eol;
    (* /^\\d{4}\\/\\d{2}\\/\\d{2}$/ *)
    seq_re [Bol; d; d; d; d; slash; d; d; slash; d; d] Eol;
    (* /^\\d{2}:\\d{2}(:\\d{2})?$/ *)
    Cat Bol time_end;
    (* /^\\d{4}-\\d{2}-\\d{2}\\s+\\d{2}:\\d{2}(:\\d{2})?$/ *)
    seq_re [Bol; d; d; d; d; dash; d; d; dash; d; d; plus is_ws] time_end;
    (* /^\\d{2}\\/\\d{2}\\/\\d{4}\\s+\\d{2}:\\d{2}(:\\d{2})?$/ *)
    seq_re [Bol; d; d; slash; d; d; slash; d; d; d; d; plus is_ws] time_end ].

Definition dateKeywords : list string :=
  ["date"; "time"; "when"; "timestamp"; "created"; "updated"; "birth";
   "start"; "end"; "schedule"].

Definition binaryPatterns : list (list string) :=
  [ ["yes"; "no"]; ["y"; "n"]; ["true"; "false"]; ["1"; "0"];
    ["male"; "female"]; ["agree"; "disagree"]; ["pass"; "fail"];
    ["on"; "off"]; ["enabled"; "disabled"]; ["active"; "inactive"] ].

Definition scaleKeywords : list string :=
  ["rate"; "rating"; "scale"; "score"; "satisfaction"; "likely"; "likelihood";
   "agree"; "important"; "quality"; "recommend"; "how much"; "extent";
   "strongly"; "somewhat"; "very"; "extremely"; "not at all"].

Definition numericKeywords : list string :=
  ["age"; "income"; "salary"; "price"; "cost"; "amount"; "number"; "count";
   "quantity"].

Definition openEndedKeywords : list string :=
  ["comment"; "feedback"; "opinion"; "explain"; "describe"; "why"; "how";
   "other"; "specify"; "elaborate"; "detail"; "reason"; "suggestion";
   "improvement"; "additional"; "anything else"; "open"; "text"].

Definition rankingKeywords : list string :=
  ["rank"; "ranking"; "order"; "priority"; "preference"; "choice"; "1st";
   "2nd"; "3rd"; "_r1_"; "_r2_"; "_r3_"; "_rank1"; "_rank2"; "_rank3"].

Definition multiChoiceVocabulary : list string :=
  ["1"; "0"; "yes"; "no"; "true"; "false"; "selected"; "x"].

(** [keywords.some(keyword => lowerHeader.includes(keyword))] *)
Definition has_keyword (keywords : list string) (lowerHeader : string) : bool :=
  existsb (fun keyword => includes lowerHeader keyword) keywords.

(** [Number.isInteger] *)
Definition Number_isInteger (x : number) : bool :=
  match Prim2SF x with
  | S754_zero _ => true
  | S754_finite _ m e =>
      (0 <=? e)%Z || (Z.pos m mod 2 ^ (- e) =? 0)%Z
  | _ => false
  end.

(** [Math.min(...arr)] and [Math.max(...arr)] of numbers that are not NaN. *)
Definition Math_min (arr : list number) : number :=
  fold_left (fun a b => if PrimFloat.ltb b a then b else a) arr infinity.
Definition Math_max (arr : list number) : number :=
  fold_left (fun a b => if PrimFloat.ltb a b then b else a) arr neg_infinity.

Local Open Scope float_scope.

Section Detector.

(** [Number(string)] of the runtime. *)
Variable Number : string -> number.

(** [new Date(string)] of the runtime: [None] for an invalid date, else
    [getFullYear()]. *)
Variable Date_year : string -> option Z.

(** The predicate of [dateMatches]. *)
Definition is_date_match (v : string) : bool :=
  if existsb (fun pattern => test pattern v) datePatterns then true
  else match Date_year v with
       | Some year => (1900 <=? year)%Z && (year <=? 2100)%Z
       | None => false
       end.

Definition analyzeQuestionType (header : string) (values : list string)
  (sampleSize : nat) : QuestionTypeAnalysis :=
  let cleanValues :=
    firstn sampleSize
      (filter (fun v => negb (v =? "")%string && negb (v =? "null")%string
                        && negb (v =? "undefined")%string
                        && negb (v =? "N/A")%string && negb (v =? "n/a")%string)
              (map trim values)) in
  if (length cleanValues =? 0)%nat then
    {| qta_type := single_choice; confidence := 0.1;
       reasoning := "No valid data found" |}
  else
    let uniqueValues := dedupe cleanValues in
    let uniqueCount := length uniqueValues in
    let totalCount := length cleanValues in
    let uniqueRatio := of_nat uniqueCount / of_nat totalCount in
    let lowerHeader := toLowerCase header in
    (* 1. date/time *)
    let hasDateKeywords := has_keyword dateKeywords lowerHeader in
    let dateMatches := filter is_date_match cleanValues in
    if (of_nat totalCount * 0.6 <? of_nat (length dateMatches))
       && (hasDateKeywords || (0.7 <? uniqueRatio))
    then
      {| qta_type := date;
         confidence := if hasDateKeywords then 0.95 else 0.8;
         reasoning :=
           (Number_toString (of_nat (length dateMatches)) ++ "/"
            ++ Number_toString (of_nat totalCount)
            ++ " values match date/time patterns"
            ++ (if hasDateKeywords then " with date keywords" else ""))%string |}
    else
    (* 2. binary *)
    let lowerValues := map toLowerCase uniqueValues in
    let isBinary :=
      existsb (fun pattern => forallb (fun p => arr_includes lowerValues p) pattern)
              binaryPatterns in
    if (uniqueCount =? 2)%nat
       && (isBinary || includes lowerHeader "yes/no"
           || includes lowerHeader "true/false")
    then
      {| qta_type := binary; confidence := 0.95;
         reasoning := "Two distinct values matching binary patterns" |}
    else
    (* 3. scale *)
    let numericValues :=
      filter (fun v => negb (PrimFloat.is_nan v) && Number_isInteger v)
             (map Number cleanValues) in
    let min := Math_min numericValues in
    let max := Math_max numericValues in
    let range := max - min in
    let hasScaleKeywords := has_keyword scaleKeywords lowerHeader in
    let isTypicalScale :=
      ((min =? 1) && (max <=? 10) && (range <=? 9))
      || ((min =? 0) && (max <=? 10) && (range <=? 10)) in
    if (of_nat totalCount * 0.8 <? of_nat (length numericValues))
       && isTypicalScale && (hasScaleKeywords || (uniqueCount <=? 11)%nat)
    then
      {| qta_type := scale;
         confidence := if hasScaleKeywords then 0.9 else 0.75;
         reasoning :=
           ("Numeric range " ++ Number_toString min ++ "-" ++ Number_toString max
            ++ " with "
            ++ (if hasScaleKeywords then "scale keywords"
                else "limited unique values"))%string |}
    else
    (* 4. numeric *)
    let hasNumericKeywords := has_keyword numericKeywords lowerHeader in
    if (of_nat totalCount * 0.8 <? of_nat (length numericValues))
       && ((20 <? range) || hasNumericKeywords || (15 <? uniqueCount)%nat)
    then
      {| qta_type := numeric; confidence := 0.8;
         reasoning :=
           ("Numeric values with "
            ++ (if hasNumericKeywords then "numeric keywords" else "wide range")
            ++ " (" ++ Number_toString min ++ "-" ++ Number_toString max ++ ")")%string |}
    else
    (* 5. open-ended *)
    let avgLength :=
      fold_left (fun sum v => sum + of_nat (String.length v)) cleanValues 0
      / of_nat (length cleanValues) in
    let longResponses :=
      length (filter (fun v => (20 <? String.length v)%nat) cleanValues) in
    let longResponseRatio := of_nat longResponses / of_nat totalCount in
    let hasOpenEndedKeywords := has_keyword openEndedKeywords lowerHeader in
    if (0.7 <? uniqueRatio)
       && ((15 <? avgLength) || (0.3 <? longResponseRatio) || hasOpenEndedKeywords)
       && (of_nat (length dateMatches) <? of_nat totalCount * 0.3)
    then
      {| qta_type := open_ended;
         confidence :=
           if hasOpenEndedKeywords then 0.9
           else if 30 <? avgLength then 0.85 else 0.75;
         reasoning :=
           ("High uniqueness ("
            ++ Number_toString (Math_round (uniqueRatio * 100)) ++ "%) with "
            ++ (if hasOpenEndedKeywords then "open-ended keywords"
                else "long responses")
            ++ " (avg: " ++ Number_toString (Math_round avgLength)
            ++ " chars)")%string |}
    else
    (* 6. ranking *)
    let hasRankingKeywords := has_keyword rankingKeywords lowerHeader in
    if (of_nat totalCount * 0.6 <? of_nat (length numericValues))
       && (hasRankingKeywords
           || ((1 <=? min) && (max <=? 10) && (uniqueCount <=? 10)%nat))
    then
      {| qta_type := ranking; confidence := 0.85;
         reasoning :=
           ((if hasRankingKeywords then "Ranking keywords" else "Ranking pattern")
            ++ " with numeric range " ++ Number_toString min ++ "-"
            ++ Number_toString max)%string |}
    else
    (* 7. multiple choice *)
    let multiChoiceIndicators :=
      filter (fun v => arr_includes multiChoiceVocabulary (toLowerCase v))
             cleanValues in
    if (of_nat totalCount * 0.8 <? of_nat (length multiChoiceIndicators))
       && (uniqueCount <=? 4)%nat
    then
      {| qta_type := multiple_choice; confidence := 0.8;
         reasoning := "Binary indicators suggesting multiple choice option" |}
    else
    (* 8. single choice *)
    if of_nat uniqueCount
       <=? (if of_nat totalCount * 0.5 <? 20 then of_nat totalCount * 0.5 else 20)
    then
      {| qta_type := single_choice;
         confidence := if (uniqueCount <=? 10)%nat then 0.7 else 0.6;
         reasoning :=
           ("Limited unique values (" ++ Number_toString (of_nat uniqueCount)
            ++ ") suggesting categorical data")%string |}
    else
      {| qta_type := single_choice; confidence := 0.4;
         reasoning :=
           ("Default classification - " ++ Number_toString (of_nat uniqueCount)
            ++ " unique values from " ++ Number_toString (of_nat totalCount)
            ++ " responses")%string |}.

End Detector.

(** [sampleSize = 100], the default argument. *)
Definition default_sampleSize : nat := 100.

End TypeDetector.

(* ================================================================== *)
(** * OpenEndCoder ([utils/openEndCoding.ts]) *)
(* ================================================================== *)

Module OpenEnd.
Import JS.
Local Open Scope string_scope.

Record CodingSettings : Type := {
  minCategorySize : number;
  maxCategories : number;
  similarityThreshold : number;
  useSemanticClustering : bool;
  excludeShortResponses : bool;
  minResponseLength : number
}.

Record OpenEndResponse : Type := {
  or_id : string;
  or_text : string;
  categoryId : string;
  or_confidence : number;
  rowIndex : nat
}.

Record OpenEndCategory : Type := {
  oc_id : string;
  oc_name : string;
  description : string;
  keywords : list string;
  sampleResponses : list string;
  responseCount : nat;
  oc_confidence : number
}.

Record OpenEndCoding : Type := {
  questionColumn : string;
  responses : list OpenEndResponse;
  categories : list OpenEndCategory;
  settings : CodingSettings
}.

(** [{ text, originalIndex }] *)
Record Clean : Type := { text : string; originalIndex : nat }.

Record Theme : Type := {
  th_name : string;
  th_description : string;
  th_keywords : list string;
  th_confidence : number
}.

Definition stopWords : list string :=
  ["the"; "a"; "an"; "and"; "or"; "but"; "in"; "on"; "at"; "to"; "for"; "of";
   "with"; "by"; "is"; "are"; "was"; "were"; "be"; "been"; "have"; "has";
   "had"; "do"; "does"; "did"; "will"; "would"; "could"; "should"; "may";
   "might"; "can"; "this"; "that"; "these"; "those"].

Definition isStopWord (word : string) : bool := arr_includes stopWords word.

(** [s.split(/\\s+/)]: the pieces between runs of white space (the empty
    pieces at the ends included). *)
Fixpoint split_ws_from (cur : string) (in_ws : bool) (s : string)
  : list string :=
  match s with
  | EmptyString => [cur]
  | String c s' =>
      if is_ws c then
        if in_ws then split_ws_from cur true s'
        else cur :: split_ws_from "" true s'
      else split_ws_from (cur ++ String c "") false s'
  end.

Definition split_ws (s : string) : list string := split_ws_from "" false s.

Definition tokenize (txt : string) : list string :=
  filter (fun word => negb (isStopWord word))
    (filter (fun word => (2 <? String.length word)%nat)
       (split_ws
          (map_chars (fun c => if is_word c || is_ws c then c else " "%char)
                     (toLowerCase txt)))).

(** A [Map<string, number>] counting occurrences, in insertion order. *)
Definition count_words (words : list string) (wordCounts : obj nat) : obj nat :=
  forEach words
    (fun word wordCounts =>
       obj_set wordCounts word
         (match obj_get wordCounts word with Some n => n | None => 0 end + 1))
    wordCounts.

(** A [Map] keeps insertion order for every key. *)
Definition map_entries {V} (m : obj V) : list (string * V) := m.

Definition buildVocabulary (documents : list string) : list string :=
  let wordCounts :=
    forEach documents (fun doc wc => count_words (tokenize doc) wc) [] in
  sort_strings
    (map fst
       (filter (fun '(word, cnt) =>
                  (2 <=? cnt)%nat
                  && PrimFloat.leb (of_nat cnt)
                       (PrimFloat.mul (of_nat (length documents)) 0.8%float))
               (map_entries wordCounts))).

Definition matchesTheme (txt : string) (kws : list string) : bool :=
  let lowerText := toLowerCase txt in
  existsb (fun keyword => includes lowerText (toLowerCase keyword)) kws.

(** [words.slice(i, i + n).join(' ')] *)
Definition ngram (words : list string) (i n : nat) : string :=
  join " " (firstn n (skipn i words)).

Definition extractKeyPhrases (texts : list string) : list (string * nat) :=
  let phrases :=
    forEach texts
      (fun txt phrases =>
         let words := tokenize txt in
         for_range 3
           (fun n0 phrases =>
              let n := S n0 in
              (* for (i = 0; i <= words.length - n; i++) *)
              for_range (if (n <=? length words)%nat then length words - n + 1 else 0)
                (fun i phrases =>
                   let phrase := ngram words i n in
                   obj_set phrases phrase
                     (match obj_get phrases phrase with Some k => k | None => 0 end + 1))
                phrases)
           phrases)
      [] in
  firstn 50
    (sort_by (fun a b => (snd b <=? snd a)%nat)
       (filter (fun item => (2 <=? snd item)%nat) (map_entries phrases))).

Definition themeGroups : list (string * list string * string) :=
  [ ("Quality & Performance",
     ["quality"; "performance"; "good"; "bad"; "excellent"; "poor"; "reliable";
      "durable"; "effective"],
     "Comments about product or service quality and performance");
    ("Price & Value",
     ["price"; "cost"; "expensive"; "cheap"; "affordable"; "value"; "money";
      "budget"; "worth"],
     "Comments about pricing, cost, and value for money");
    ("Customer Service",
     ["service"; "staff"; "customer"; "support"; "help"; "friendly"; "rude";
      "professional"; "helpful"],
     "Comments about customer service and staff interactions");
    ("Speed & Efficiency",
     ["fast"; "slow"; "quick"; "time"; "wait"; "delay"; "speed"; "efficient";
      "prompt"; "immediate"],
     "Comments about speed, timing, and efficiency");
    ("Convenience & Ease",
     ["convenient"; "easy"; "simple"; "difficult"; "complicated";
      "user-friendly"; "accessible"],
     "Comments about convenience and ease of use");
    ("Location & Accessibility",
     ["location"; "close"; "near"; "far"; "parking"; "distance"; "accessible";
      "convenient"],
     "Comments about location and accessibility");
    ("Product Features",
     ["feature"; "function"; "design"; "style"; "variety"; "selection";
      "options"; "capability"],
     "Comments about product features and functionality");
    ("Communication",
     ["communication"; "information"; "clear"; "confusing"; "explanation";
      "instructions"],
     "Comments about communication and information clarity") ].

Definition identifyThemes (phrases : list (string * nat)) : list Theme :=
  let identifiedThemes :=
    forEach themeGroups
      (fun '(nm, kws, descr) identifiedThemes =>
         let matchingPhrases :=
           filter (fun p => existsb (fun keyword => includes (fst p) keyword) kws)
                  phrases in
         if (0 <? length matchingPhrases)%nat then
           let totalFrequency :=
             fold_left (fun sum p => PrimFloat.add sum (of_nat (snd p)))
                       matchingPhrases 0%float in
           let q := PrimFloat.div totalFrequency (of_nat (length phrases)) in
           let conf := if PrimFloat.ltb q 1 then q else 1%float in
           push identifiedThemes
             {| th_name := nm; th_description := descr; th_keywords := kws;
                th_confidence := conf |}
         else identifiedThemes)
      [] in
  sort_by (fun a b =>
             negb (PrimFloat.ltb 0 (PrimFloat.sub (th_confidence b) (th_confidence a))))
          identifiedThemes.

Section Coder.

Variable st : CodingSettings.

(** [Math.log] of the runtime. *)
Variable Math_log : number -> number.

Definition preprocessResponses (rs : list string) : list Clean :=
  filter (fun item =>
            if is_empty_string (text item) || (text item =? "null")
               || (text item =? "undefined") then false
            else if excludeShortResponses st
                    && PrimFloat.ltb (of_nat (String.length (text item)))
                                     (minResponseLength st)
            then false
            else true)
    (forEachi rs
       (fun t index acc => push acc {| text := trim t; originalIndex := index |})
       []).

Definition keywordBasedClustering (rs : list Clean) : list OpenEndCategory :=
  let phrases := extractKeyPhrases (map text rs) in
  let themes := identifyThemes phrases in
  let cats :=
    forEachi themes
      (fun th index cats =>
         let categoryResponses :=
           filter (fun r => matchesTheme (text r) (th_keywords th)) rs in
         if PrimFloat.leb (minCategorySize st) (of_nat (length categoryResponses))
         then
           push cats
             {| oc_id := "cat_" ++ Number_toString (of_nat index);
                oc_name := th_name th;
                description := th_description th;
                keywords := th_keywords th;
                sampleResponses := map text (firstn 5 categoryResponses);
                responseCount := length categoryResponses;
                oc_confidence := th_confidence th |}
         else cats)
      [] in
  let uncategorizedResponses :=
    filter (fun r =>
              negb (existsb (fun cat => matchesTheme (text r) (keywords cat)) cats))
           rs in
  if PrimFloat.leb (minCategorySize st) (of_nat (length uncategorizedResponses))
  then
    push cats
      {| oc_id := "cat_other";
         oc_name := "Other/Miscellaneous";
         description := "Responses that did not fit into other categories";
         keywords := [];
         sampleResponses := map text (firstn 5 uncategorizedResponses);
         responseCount := length uncategorizedResponses;
         oc_confidence := 0.5%float |}
  else cats.

Definition calculateTFIDF (documents vocabulary : list string)
  : list (list number) :=
  forEach documents
    (fun doc tfidfMatrix =>
       let words := tokenize doc in
       let wordCounts := count_words words [] in
       let tfidfVector :=
         forEach vocabulary
           (fun term tfidfVector =>
              let tf :=
                PrimFloat.div
                  (of_nat (match obj_get wordCounts term with
                           | Some n => n | None => 0 end))
                  (of_nat (length words)) in
              let df :=
                length (filter (fun d => arr_includes (tokenize d) term) documents) in
              let idf :=
                Math_log (PrimFloat.div (of_nat (length documents)) (of_nat (df + 1))) in
              push tfidfVector (PrimFloat.mul tf idf))
           [] in
       push tfidfMatrix tfidfVector)
    [].

Definition cosineSimilarity (vec1 vec2 : list number) : number :=
  let '(dotProduct, norm1, norm2) :=
    for_range (length vec1)
      (fun i '(dotProduct, norm1, norm2) =>
         let a := nth i vec1 undefined_number in
         let b := nth i vec2 undefined_number in
         (PrimFloat.add dotProduct (PrimFloat.mul a b),
          PrimFloat.add norm1 (PrimFloat.mul a a),
          PrimFloat.add norm2 (PrimFloat.mul b b)))
      (0%float, 0%float, 0%float) in
  let magnitude := PrimFloat.mul (Math_sqrt norm1) (Math_sqrt norm2) in
  if PrimFloat.ltb 0 magnitude then PrimFloat.div dotProduct magnitude
  else 0%float.

(** [allResponses.findIndex(r => r.originalIndex === k)] *)
Fixpoint findIndex (allResponses : list Clean) (k : nat) : option nat :=
  match allResponses with
  | [] => None
  | r :: rest =>
      if (originalIndex r =? k)%nat then Some 0
      else match findIndex rest k with Some i => Some (S i) | None => None end
  end.

(** The matrix has a row for every response, as [semanticClustering]
    builds it with [calculateTFIDF].  On a matrix without the row of a
    response the source hands [undefined] to [cosineSimilarity], which
    throws a TypeError; that is not modelled, and the properties of the
    clustering are stated for the matrices that have the rows. *)
Definition calculateClusterDistance (cluster1 cluster2 : list Clean)
  (tfidfMatrix : list (list number)) (allResponses : list Clean) : number :=
  let '(totalDistance, cnt) :=
    forEach cluster1
      (fun r1 acc =>
         forEach cluster2
           (fun r2 '(totalDistance, cnt) =>
              match findIndex allResponses (originalIndex r1),
                    findIndex allResponses (originalIndex r2) with
              | Some idx1, Some idx2 =>
                  (PrimFloat.add totalDistance
                     (cosineSimilarity (nth idx1 tfidfMatrix [])
                                       (nth idx2 tfidfMatrix [])),
                   S cnt)
              | _, _ => (totalDistance, cnt)
              end)
           acc)
      (0%float, 0) in
  if (0 <? cnt)%nat
  then PrimFloat.sub 1 (PrimFloat.div totalDistance (of_nat cnt))
  else 1%float.

(** The pair scan of one iteration of the [while] loop: the smallest
    distance and the first pair that attains it. *)
Definition closest_pair (clusters : list (list Clean))
  (tfidfMatrix : list (list number)) (allResponses : list Clean)
  : number * (nat * nat) :=
  for_range (length clusters)
    (fun i acc =>
       for_range (length clusters - (i + 1))
         (fun dj '(minDistance, mergeIndices) =>
            let j := i + 1 + dj in
            let distance :=
              calculateClusterDistance (nth i clusters []) (nth j clusters [])
                tfidfMatrix allResponses in
            if PrimFloat.ltb distance minDistance then (distance, (i, j))
            else (minDistance, mergeIndices))
         acc)
    (infinity, (0, 1)).

(** [clusters.splice(j, 1)] *)
Definition remove_at {A} (j : nat) (l : list A) : list A :=
  (firstn j l ++ skipn (S j) l)%list.

(** [clusters[i] = v] for an index inside the array. *)
Fixpoint set_at {A} (i : nat) (v : A) (l : list A) : list A :=
  match i, l with
  | _, [] => []
  | O, _ :: l' => v :: l'
  | S i', x :: l' => x :: set_at i' v l'
  end.

(** The [while (clusters.length > maxCategories)] loop; each turn either
    stops or leaves one cluster less.  [None]: the fuel ran out. *)
Fixpoint clustering_loop (fuel : nat) (clusters : list (list Clean))
  (tfidfMatrix : list (list number)) (allResponses : list Clean)
  : option (result (list (list Clean))) :=
  if PrimFloat.ltb (maxCategories st) (of_nat (length clusters)) then
    let '(minDistance, (i, j)) := closest_pair clusters tfidfMatrix allResponses in
    if PrimFloat.ltb (similarityThreshold st) minDistance then Some (Ok clusters)
    else
      (* [...clusters[i], ...clusters[j]] throws when either is undefined *)
      match nth_error clusters i, nth_error clusters j with
      | Some ci, Some cj =>
          match fuel with
          | O => None
          | S fuel' =>
              clustering_loop fuel' (remove_at j (set_at i (ci ++ cj)%list clusters))
                tfidfMatrix allResponses
          end
      | _, _ => Some (Throw TypeError)
      end
  else Some (Ok clusters).

Definition hierarchicalClustering (tfidfMatrix : list (list number))
  (rs : list Clean) : result (list (list Clean)) :=
  let clusters := map (fun r => [r]) rs in
  match clustering_loop (length clusters) clusters tfidfMatrix rs with
  | Some r =>
      bind r (fun clusters =>
                Ok (filter (fun cluster =>
                              PrimFloat.leb (minCategorySize st)
                                            (of_nat (length cluster)))
                           clusters))
  | None => Throw "unreachable"
  end.

Definition extractClusterKeywords (texts : list string) : list string :=
  let allWords := flat_map tokenize texts in
  let wordCounts := count_words allWords [] in
  map fst
    (firstn 10
       (sort_by (fun a b => (snd b <=? snd a)%nat)
          (filter (fun '(_, cnt) => (2 <=? cnt)%nat) (map_entries wordCounts)))).

Definition themeMap : list (string * string) :=
  [ ("quality", "Quality & Performance");
    ("price", "Price & Value");
    ("service", "Customer Service");
    ("fast", "Speed & Efficiency");
    ("location", "Location & Access");
    ("easy", "Convenience & Ease") ].

(** [k.charAt(0).toUpperCase() + k.slice(1)] *)
Definition capitalize (k : string) : string :=
  match k with
  | EmptyString => EmptyString
  | String c k' => String (upper_char c) k'
  end.

Definition generateCategoryName (kws sampleTexts : list string) : string :=
  if (length kws =? 0)%nat then "Miscellaneous"
  else
    let topKeywords := firstn 3 kws in
    match find (fun '(key, _) => existsb (fun keyword => includes keyword key) topKeywords)
               themeMap with
    | Some (_, th) => th
    | None => join " & " (map capitalize topKeywords)
    end.

Definition clustersToCategories (clusters : list (list Clean))
  (allResponses : list Clean) : list OpenEndCategory :=
  forEachi clusters
    (fun cluster index cats =>
       let kws := extractClusterKeywords (map text cluster) in
       let categoryName := generateCategoryName kws (map text cluster) in
       push cats
         {| oc_id := "semantic_cat_" ++ Number_toString (of_nat index);
            oc_name := categoryName;
            description := "Auto-generated category based on semantic similarity";
            keywords := kws;
            sampleResponses := map text (firstn 5 cluster);
            responseCount := length cluster;
            oc_confidence := 0.8%float |})
    [].

Definition semanticClustering (rs : list Clean) : result (list OpenEndCategory) :=
  let documents := map text rs in
  let vocabulary := buildVocabulary documents in
  let tfidfMatrix := calculateTFIDF documents vocabulary in
  bind (hierarchicalClustering tfidfMatrix rs)
       (fun clusters => Ok (clustersToCategories clusters rs)).

Definition generateCategories (rs : list Clean) : result (list OpenEndCategory) :=
  if useSemanticClustering st then semanticClustering rs
  else Ok (keywordBasedClustering rs).

Definition calculateCategoryScore (txt : string) (category : OpenEndCategory)
  : number :=
  let lowerText := toLowerCase txt in
  let score :=
    forEach (keywords category)
      (fun keyword score =>
         if includes lowerText (toLowerCase keyword)
         then PrimFloat.add score 1 else score)
      0%float in
  if (0 <? length (keywords category))%nat
  then PrimFloat.div score (of_nat (length (keywords category)))
  else 0%float.

(** [arr.map(x => body)] where the body may throw. *)
Fixpoint map_r {A B} (f : A -> result B) (l : list A) : result (list B) :=
  match l with
  | [] => Ok []
  | x :: l' => bind (f x) (fun y => bind (map_r f l') (fun ys => Ok (y :: ys)))
  end.

(** [categories[categories.length - 1]] *)
Definition last_category (cats : list OpenEndCategory) : option OpenEndCategory :=
  nth_error cats (length cats - 1).

Definition assignResponsesToCategories (rs : list Clean)
  (cats : list OpenEndCategory) : result (list OpenEndResponse) :=
  map_r
    (fun response =>
       let '(bestCategory, bestScore) :=
         forEach cats
           (fun category '(bestCategory, bestScore) =>
              let score := calculateCategoryScore (text response) category in
              if PrimFloat.ltb bestScore score then (Some category, score)
              else (bestCategory, bestScore))
           (last_category cats, 0%float) in
       match bestCategory with
       | None => Throw TypeError   (* bestCategory.id of undefined *)
       | Some bestCategory =>
           Ok {| or_id := "response_" ++ Number_toString (of_nat (originalIndex response));
                 or_text := text response;
                 categoryId := oc_id bestCategory;
                 or_confidence := bestScore;
                 rowIndex := originalIndex response |}
       end)
    rs.

Definition codeResponses (rs : list string) (questionCol : string)
  : result OpenEndCoding :=
  let cleanResponses := preprocessResponses rs in
  bind (generateCategories cleanResponses)
    (fun cats =>
       bind (assignResponsesToCategories cleanResponses cats)
         (fun codedResponses =>
            Ok {| questionColumn := questionCol;
                  responses := codedResponses;
                  categories := cats;
                  settings := st |})).

End Coder.

Definition createDefaultCodingSettings : CodingSettings :=
  {| minCategorySize := 1%float;
     maxCategories := 20%float;
     similarityThreshold := 0.5%float;
     useSemanticClustering := true;
     excludeShortResponses := false;
     minResponseLength := 5%float |}.

End OpenEnd.

(* ================================================================== *)
(** * Descriptive statistics and box scores
      ([utils/excelProcessor.ts], [utils/textProcessing.ts]) *)
(* ================================================================== *)

Module Measures.
Import JS Types CrossTab.
Local Open Scope float_scope.

Record StatisticalMeasures : Type := {
  sm_mean : list number;
  sm_median : list number;
  sm_standardDeviation : list number;
  sm_headers : list string
}.

Record ScaleRange : Type := {
  sr_min : number;
  sr_max : number
}.

(** The optional [top3Box] and [bottom3Box] are [undefined] on a short
    scale. *)
Record ScaleCalculations : Type := {
  topBox : list (list number);
  bottomBox : list (list number);
  top2Box : list (list number);
  bottom2Box : list (list number);
  top3Box : option (list (list number));
  bottom3Box : option (list (list number));
  scaleRange : ScaleRange
}.

(** What [calculateRankingBoxes] returns: the five matrices. *)
Record RankingBoxes : Type := {
  rb_rank1 : list (list number);
  rb_rank2 : list (list number);
  rb_rank3 : list (list number);
  rb_rank1Plus2 : list (list number);
  rb_rank1Plus2Plus3 : list (list number)
}.

(** [Math.min(a, b)] and [Math.max(a, b)]: NaN if either is NaN, and -0
    below +0. *)
Definition is_negative_zero (x : number) : bool :=
  PrimFloat.eqb x 0 && PrimFloat.ltb (1 / x) 0.

Definition min2 (a b : number) : number :=
  if PrimFloat.is_nan a then a
  else if PrimFloat.is_nan b then b
  else if PrimFloat.ltb b a then b
  else if PrimFloat.ltb a b then a
  else if is_negative_zero b then b else a.

Definition max2 (a b : number) : number :=
  if PrimFloat.is_nan a then a
  else if PrimFloat.is_nan b then b
  else if PrimFloat.ltb a b then b
  else if PrimFloat.ltb b a then a
  else if is_negative_zero a then b else a.

(** [Math.min(...arr)] and [Math.max(...arr)] *)
Definition Math_min_of (arr : list number) : number :=
  fold_left min2 arr infinity.
Definition Math_max_of (arr : list number) : number :=
  fold_left max2 arr neg_infinity.

(** [targetValues.includes(value)]: equal as numbers, NaN found by NaN. *)
Definition includes_number (targetValues : list number) (value : number)
  : bool :=
  existsb (fun t => PrimFloat.eqb t value
                    || (PrimFloat.is_nan t && PrimFloat.is_nan value))
          targetValues.

(** [values.reduce((sum, val) => sum + val, 0)] *)
Definition sum_of (values : list number) : number :=
  fold_left (fun sum val => sum + val) values 0.

Definition calculateMean (values : list number) : number :=
  if (length values =? 0)%nat then 0
  else sum_of values / of_nat (length values).

Definition calculateMedian (values : list number) : number :=
  if (length values =? 0)%nat then 0
  else
    let sorted :=
      sort_by (fun a b => negb (PrimFloat.ltb 0 (a - b))) values in
    let mid := (length sorted / 2)%nat in
    if (length sorted mod 2 =? 0)%nat
    then (nth (mid - 1) sorted undefined_number
          + nth mid sorted undefined_number) / 2
    else nth mid sorted undefined_number.

Section WithRuntime.

(** [Number(s)] of a cell's text and [Math.pow], which ECMAScript leaves to
    the implementation. *)
Variable Number : string -> number.
Variable Math_pow : number -> number -> number.

(** [Number(row[tableVar])]: a cell that holds a string or a number is
    read through its text; a missing cell is [undefined], which is NaN. *)
Definition number_cell (row : Row) (col : string) : number :=
  match obj_get row col with
  | Some v => Number v
  | None => nan
  end.

Definition calculateStandardDeviation (values : list number) : number :=
  if (length values =? 0)%nat then 0
  else
    let mean := calculateMean values in
    let squaredDiffs := map (fun val => Math_pow (val - mean) 2) values in
    let avgSquaredDiff := sum_of squaredDiffs / of_nat (length values) in
    Math_sqrt avgSquaredDiff.

Definition calculateStatisticalMeasures (dataMap : list Row)
  (tableVar : string) (bannerVars : list string)
  (bannerValuesByVar : obj (list string)) : StatisticalMeasures :=
  let headers :=
    forEach_banner bannerVars bannerValuesByVar
      (fun bannerVar bannerVal headers => push headers bannerVal)
      ["Total"%string] in
  let totalValues :=
    filter (fun val => negb (PrimFloat.is_nan val))
           (map (fun row => number_cell row tableVar) dataMap) in
  let mean := push [] (calculateMean totalValues) in
  let median := push [] (calculateMedian totalValues) in
  let standardDeviation := push [] (calculateStandardDeviation totalValues) in
  let '(mean, median, standardDeviation) :=
    forEach_banner bannerVars bannerValuesByVar
      (fun bannerVar bannerVal '(mean, median, standardDeviation) =>
         let values :=
           filter (fun val => negb (PrimFloat.is_nan val))
             (map (fun row => number_cell row tableVar)
                (filter (fun row => (cell_text row bannerVar =? bannerVal)%string)
                        dataMap)) in
         (push mean (calculateMean values),
          push median (calculateMedian values),
          push standardDeviation (calculateStandardDeviation values)))
      (mean, median, standardDeviation) in
  {| sm_mean := mean;
     sm_median := median;
     sm_standardDeviation := standardDeviation;
     sm_headers := headers |}.

(** [detectScaleRange] of [textProcessing.ts]; a value is a raw cell,
    [None] for [undefined]. *)
Definition detectScaleRange (values : list (option string))
  : option ScaleRange :=
  let numericValues :=
    filter (fun v => negb (PrimFloat.is_nan v))
      (map (fun v => match v with Some s => Number s | None => nan end)
           values) in
  if (length numericValues =? 0)%nat then None
  else
    let min := Math_min_of numericValues in
    let max := Math_max_of numericValues in
    let range := max - min in
    let integerCount :=
      length (filter TypeDetector.Number_isInteger numericValues) in
    let integerRatio := of_nat integerCount / of_nat (length numericValues) in
    if PrimFloat.leb range 15 && PrimFloat.leb 1 range
       && PrimFloat.leb 0.8 integerRatio
       && PrimFloat.leb 0 min && PrimFloat.leb max 20
    then Some {| sr_min := min; sr_max := max |}
    else None.

(** [dataMap.map(row => row[tableVar]).filter(v => v !== '' && v != null)],
    the values [createRegularCrossTab] hands to [detectScaleRange]. *)
Definition scale_values (dataMap : list Row) (tableVar : string)
  : list (option string) :=
  filter (fun v => match v with
                   | Some s => negb (s =? "")%string
                   | None => false
                   end)
         (map (fun row => obj_get row tableVar) dataMap).

Definition calculateBoxCount (dataMap : list Row) (tableVar : string)
  (bannerVars : list string) (bannerValuesByVar : obj (list string))
  (colIndex : nat) (targetValues : list number) : number :=
  if (colIndex =? 0)%nat then
    count (fun row =>
             let value := number_cell row tableVar in
             negb (PrimFloat.is_nan value)
             && includes_number targetValues value)
          dataMap
  else
    (* the nested loops, returning at [currentIndex === colIndex] *)
    let '(_, found) :=
      forEach_banner bannerVars bannerValuesByVar
        (fun bannerVar bannerVal '(currentIndex, found) =>
           match found with
           | Some _ => (currentIndex, found)
           | None =>
               if (currentIndex =? colIndex)%nat then
                 (currentIndex,
                  Some (count (fun row =>
                                 let value := number_cell row tableVar in
                                 let bannerValue := cell_text row bannerVar in
                                 negb (PrimFloat.is_nan value)
                                 && includes_number targetValues value
                                 && (bannerValue =? bannerVal)%string)
                              dataMap))
               else (S currentIndex, None)
           end)
        (1%nat, None) in
    match found with Some n => n | None => 0 end.

Definition calculateEnhancedScaleBoxes (dataMap : list Row)
  (tableVar : string) (bannerVars : list string)
  (bannerValuesByVar : obj (list string)) (scaleRange : ScaleRange)
  (baseValues : list number) : ScaleCalculations :=
  let min := sr_min scaleRange in
  let max := sr_max scaleRange in
  let scaleLength := max - min + 1 in
  let box := calculateBoxCount dataMap tableVar bannerVars bannerValuesByVar in
  let '(top3Box, bottom3Box) :=
    if PrimFloat.leb 6 scaleLength then (Some [], Some []) else (None, None) in
  let '(topBox, bottomBox, top2Box, bottom2Box, top3Box, bottom3Box) :=
    for_range (length baseValues)
      (fun colIndex '(topBox, bottomBox, top2Box, bottom2Box,
                      top3Box, bottom3Box) =>
         let topBoxCount := box colIndex [max] in
         let bottomBoxCount := box colIndex [min] in
         let top2BoxCount := box colIndex [max - 1; max] in
         let bottom2BoxCount := box colIndex [min; min + 1] in
         let base := nth colIndex baseValues undefined_number in
         let topBoxPct := percent_of topBoxCount base in
         let bottomBoxPct := percent_of bottomBoxCount base in
         let top2BoxPct := percent_of top2BoxCount base in
         let bottom2BoxPct := percent_of bottom2BoxCount base in
         let '(top3Box, bottom3Box) :=
           match top3Box, bottom3Box with
           | Some t3, Some b3 =>
               if PrimFloat.leb 6 scaleLength then
                 let top3BoxCount := box colIndex [max - 2; max - 1; max] in
                 let bottom3BoxCount :=
                   box colIndex [min; min + 1; min + 2] in
                 let top3BoxPct := percent_of top3BoxCount base in
                 let bottom3BoxPct := percent_of bottom3BoxCount base in
                 (Some (push t3 [top3BoxPct]), Some (push b3 [bottom3BoxPct]))
               else (top3Box, bottom3Box)
           | _, _ => (top3Box, bottom3Box)
           end in
         (push topBox [topBoxPct], push bottomBox [bottomBoxPct],
          push top2Box [top2BoxPct], push bottom2Box [bottom2BoxPct],
          top3Box, bottom3Box))
      ([], [], [], [], top3Box, bottom3Box) in
  {| topBox := topBox;
     bottomBox := bottomBox;
     top2Box := top2Box;
     bottom2Box := bottom2Box;
     top3Box := top3Box;
     bottom3Box := bottom3Box;
     scaleRange := scaleRange |}.

Definition calculateRankingBoxes (dataMap : list Row) (tableVar : string)
  (bannerVars : list string) (bannerValuesByVar : obj (list string))
  (baseValues : list number) : RankingBoxes :=
  let box := calculateBoxCount dataMap tableVar bannerVars bannerValuesByVar in
  let '(rank1, rank2, rank3, rank1Plus2, rank1Plus2Plus3) :=
    for_range (length baseValues)
      (fun colIndex '(rank1, rank2, rank3, rank1Plus2, rank1Plus2Plus3) =>
         let rank1Count := box colIndex [1] in
         let rank2Count := box colIndex [2] in
         let rank3Count := box colIndex [3] in
         let rank1Plus2Count := box colIndex [1; 2] in
         let rank1Plus2Plus3Count := box colIndex [1; 2; 3] in
         let base := nth colIndex baseValues undefined_number in
         let rank1Pct := percent_of rank1Count base in
         let rank2Pct := percent_of rank2Count base in
         let rank3Pct := percent_of rank3Count base in
         let rank1Plus2Pct := percent_of rank1Plus2Count base in
         let rank1Plus2Plus3Pct := percent_of rank1Plus2Plus3Count base in
         (push rank1 [rank1Pct], push rank2 [rank2Pct], push rank3 [rank3Pct],
          push rank1Plus2 [rank1Plus2Pct],
          push rank1Plus2Plus3 [rank1Plus2Plus3Pct]))
      ([], [], [], [], []) in
  {| rb_rank1 := rank1;
     rb_rank2 := rank2;
     rb_rank3 := rank3;
     rb_rank1Plus2 := rank1Plus2;
     rb_rank1Plus2Plus3 := rank1Plus2Plus3 |}.

End WithRuntime.

End Measures.

(* ================================================================== *)
(** * The types of all columns ([utils/questionTypeDetection.ts]) *)
(* ================================================================== *)

Module AutoDetect.
Import JS Types TypeDetector.

Section WithRuntime.

Variable Number : string -> number.
Variable Date_year : string -> option Z.

(** [Object.values(multiSelectGroups).some(group => group.includes(header))] *)
Definition isInMultiSelectGroup (multiSelectGroups : obj (list string))
  (header : string) : bool :=
  existsb (fun group => existsb (String.eqb header) group)
          (obj_values multiSelectGroups).

(** A cell of [dataRows] is read as by [analyzeQuestionType], through
    [String(v || '')]; a row shorter than the header row has [undefined]
    there. *)
Definition autoDetectQuestionTypes (headers : list string)
  (dataRows : list (list string)) (multiSelectGroups : obj (list string))
  : obj QuestionType :=
  forEachi headers
    (fun header index questionTypes =>
       if negb (isInMultiSelectGroup multiSelectGroups header) then
         let columnData := map (fun row => nth index row ""%string) dataRows in
         let analysis :=
           analyzeQuestionType Number Date_year header columnData
                               default_sampleSize in
         obj_set questionTypes header (qta_type analysis)
       else questionTypes)
    [].

End WithRuntime.

End AutoDetect.

(* ================================================================== *)
(** * The vocabulary of the properties *)
(* ================================================================== *)

Module StatsSpec.
Import JS Stats.
Local Open Scope string_scope.

(** The flag that the inner loop pushes for column [colIndex]. *)
Definition cell_flag (Math_exp : number -> number) (row baseValues : list number)
  (alpha : number) (colIndex : nat) : string :=
  if (colIndex =? 0)%nat then ""
  else
    let testResult :=
      zTestForProportions Math_exp
        (nth colIndex row undefined_number)
        (nth colIndex baseValues undefined_number)
        (nth 0 row undefined_number)
        (nth 0 baseValues undefined_number) alpha in
    if isSignificant testResult then
      match comparisonType testResult with
      | higher => "*"
      | _ => lower_flag
      end
    else "".

End StatsSpec.

Module CrossTabSpec.
Import JS Types Stats CrossTab.

(** The number of banner columns after [Total]. *)
Definition banner_width (bannerVars : list string)
  (bannerValuesByVar : obj (list string)) : nat :=
  length (flat_map (banner_values bannerValuesByVar) bannerVars).

(** The banner columns, from left to right. *)
Definition banner_columns (bannerVars : list string)
  (byVar : obj (list string)) : list (string * string) :=
  flat_map (fun bannerVar => map (pair bannerVar) (banner_values byVar bannerVar))
           bannerVars.

(** The dictionary has an entry for every banner variable. *)
Definition banner_defined (bannerVars : list string)
  (byVar : obj (list string)) : bool :=
  forallb (fun bannerVar =>
             match obj_get byVar bannerVar with
             | Some _ => true
             | None => false
             end)
          bannerVars.

(** The shape of a [CrossTabResult]: one base per header, as many rows in
    every matrix and as many labels as count rows, every row as long as the
    header row. *)
Definition well_shaped (r : CrossTabResult) : Prop :=
  let w := length (result_headers r) in
  length (baseValues r) = w
  /\ length (percentage r) = length (absolute r)
  /\ length (significanceFlags r) = length (absolute r)
  /\ length (rowLabels r) = length (absolute r)
  /\ Forall (fun row => length row = w) (absolute r)
  /\ Forall (fun row => length row = w) (percentage r)
  /\ Forall (fun row => length row = w) (significanceFlags r).

(** The loop invariant of the row-building loops: as many percentage rows
    and labels as count rows, all rows [w] wide. *)
Definition rows3_ok (w : nat)
  (s : list (list number) * list (list string) * list string) : Prop :=
  let '(absolute, percentage, rowLabels) := s in
  length percentage = length absolute
  /\ length rowLabels = length absolute
  /\ Forall (fun row => length row = w) absolute
  /\ Forall (fun row => length row = w) percentage.

Definition rows2_ok (w : nat)
  (s : list (list number) * list (list string)) : Prop :=
  let '(absolute, percentage) := s in
  length percentage = length absolute
  /\ Forall (fun row => length row = w) absolute
  /\ Forall (fun row => length row = w) percentage.

(** Every row of the five ranking views has one cell per base. *)
Definition views_ok (n : nat)
  (s : list (list number) * list (list number) * list (list number)
       * list (list number) * list (list number)) : Prop :=
  let '(r1, r2, r3, r12, r123) := s in
  Forall (fun row => length row = n) r1
  /\ Forall (fun row => length row = n) r2
  /\ Forall (fun row => length row = n) r3
  /\ Forall (fun row => length row = n) r12
  /\ Forall (fun row => length row = n) r123.

Definition cells_ok (k : nat)
  (s : list number * list number * list number * list number * list number)
  : Prop :=
  let '(a1, a2, a3, a12, a123) := s in
  length a1 = k /\ length a2 = k /\ length a3 = k /\ length a12 = k
  /\ length a123 = k.

(** A table variable that names a custom variable and no multi-select
    group (the multi-select test comes first in the dispatch). *)
Definition names_custom_variable (config : CrossTabConfig) (tableVar : string)
  : bool :=
  arr_includes (obj_keys (customVariables config)) tableVar
  && negb (arr_includes (obj_keys (multiSelectGroups config)) tableVar).

(** The configuration without the table variables that name custom
    variables. *)
Definition without_custom_variables (config : CrossTabConfig)
  : CrossTabConfig :=
  {| tableVariables :=
       filter (fun v => negb (names_custom_variable config v))
              (tableVariables config);
     bannerVariables := bannerVariables config;
     multiSelectGroups := multiSelectGroups config;
     questionTypes := questionTypes config;
     tableNames := tableNames config;
     filters := filters config;
     customVariables := customVariables config |}.

End CrossTabSpec.

Module RegexSpec.
Import JS Regex.

(** Every character of the string satisfies [p]. *)
Fixpoint all_chars (p : ascii -> bool) (s : string) : bool :=
  match s with
  | EmptyString => true
  | String c s' => p c && all_chars p s'
  end.

(** Every non-empty suffix of the string satisfies [p]. *)
Fixpoint all_suffixes (p : string -> bool) (s : string) : bool :=
  match s with
  | EmptyString => true
  | String _ s' => p s && all_suffixes p s'
  end.

End RegexSpec.

Module RankingSpec.
Import JS Regex Types Ranking RegexSpec.
Local Open Scope string_scope.

(** The header of the column of rank [rank] and option [label]. *)
Definition rank_column (root rank label : string) : string :=
  root ++ "_Rank" ++ rank ++ "_" ++ label.

Definition no_underscore (c : ascii) : bool := negb (is_underscore c).

(** The text starts like a rank marker, as the patterns of the detection
    read one: the letter R or r followed by a digit or by [an]. *)
Definition marks_rank (s : string) : bool :=
  match s with
  | String c (String d s') =>
      is_Rr c
      && (is_digit d
          || (Ascii.eqb "a" d
              && match s' with
                 | String e _ => Ascii.eqb "n" e
                 | EmptyString => false
                 end))
  | _ => false
  end.

(** A question root: not empty, on one line, trimmed, and without a rank
    marker of its own (it may hold underscores and the letter R). *)
Definition root_ok (root : string) : bool :=
  negb (is_empty_string root)
  && all_chars is_dot root
  && all_suffixes (fun t => negb (marks_rank t)) root
  && String.eqb (trim root) root.

(** An option label: not empty, on one line, without underscore, and
    trimmed. *)
Definition label_ok (label : string) : bool :=
  negb (is_empty_string label)
  && all_chars (fun c => is_dot c && no_underscore c) label
  && String.eqb (trim label) label.

(** The rank suffixes of the battery. *)
Definition is_rank (rank : string) : Prop := rank = "1" \/ rank = "2".

(** The six columns, in ascending order. *)
Definition battery_columns (root o1 o2 o3 : string) : list string :=
  [rank_column root "1" o1; rank_column root "1" o2; rank_column root "1" o3;
   rank_column root "2" o1; rank_column root "2" o2; rank_column root "2" o3].

(** What the detection returns for the battery: the [_Rank1] columns are
    taken for the leading group, the [_Rank2] columns are the first rank. *)
Definition battery_structure (root o1 o2 o3 : string)
  : RankQuestionStructure :=
  {| questionName := root;
     options := [o1; o2; o3];
     maxRanks := 1;
     columnMapping :=
       {| rank1Columns := [rank_column root "2" o1; rank_column root "2" o2;
                           rank_column root "2" o3];
          rank2Columns := [];
          rank3Columns := [] |} |}.

(** A battery whose options are not listed in ascending order. *)
Definition scenarioC_headers : list string :=
  ["Q5_Rank1_Price"; "Q5_Rank1_Quality"; "Q5_Rank1_Brand";
   "Q5_Rank2_Price"; "Q5_Rank2_Quality"; "Q5_Rank2_Brand"].

Definition scenarioC_types : obj QuestionType :=
  map (fun h => (h, ranking)) scenarioC_headers.

(** A battery on a question text, its options not in ascending order. *)
Definition satisfaction_root : string := "Q5. How satisfied are you?".

Definition satisfaction_headers : list string :=
  [rank_column satisfaction_root "1" "Neutral";
   rank_column satisfaction_root "1" "Very Satisfied";
   rank_column satisfaction_root "1" "Dissatisfied";
   rank_column satisfaction_root "2" "Neutral";
   rank_column satisfaction_root "2" "Very Satisfied";
   rank_column satisfaction_root "2" "Dissatisfied"].

Definition satisfaction_types : obj QuestionType :=
  map (fun h => (h, ranking)) satisfaction_headers.

(** The detection as specified: one structure with two ranks and the
    options in header order. *)
Definition battery_as_specified : Prop :=
  forall root o1 o2 o3 questionTypes,
    let headers :=
      [rank_column root "1" o1; rank_column root "1" o2;
       rank_column root "1" o3; rank_column root "2" o1;
       rank_column root "2" o2; rank_column root "2" o3] in
    root_ok root = true ->
    label_ok o1 = true -> label_ok o2 = true -> label_ok o3 = true ->
    NoDup [o1; o2; o3] ->
    (forall h, In h headers -> obj_get questionTypes h = Some ranking) ->
    exists s,
      detectRankQuestionStructure headers questionTypes = [s]
      /\ questionName s = root
      /\ maxRanks s = 2
      /\ options s = [o1; o2; o3].

End RankingSpec.

Module TypeDetectorSpec.
Import JS Types TypeDetector.

(** The sampled cells: [cleanValues] of [analyzeQuestionType]. *)
Definition cleanValues (values : list string) (sampleSize : nat) : list string :=
  firstn sampleSize
    (filter (fun v => negb (v =? "")%string && negb (v =? "null")%string
                      && negb (v =? "undefined")%string
                      && negb (v =? "N/A")%string && negb (v =? "n/a")%string)
            (map trim values)).

(** The two comparisons of the date stage against their whole-number
    readings. *)
Definition sixty_agrees (n dm : nat) : bool :=
  Bool.eqb (PrimFloat.ltb (of_nat n * 0.6)%float (of_nat dm)) (3 * n <? 5 * dm).

Definition seventy_agrees (n u : nat) : bool :=
  Bool.eqb (PrimFloat.ltb 0.7%float (of_nat u / of_nat n)%float) (7 * n <? 10 * u).

(** Three of five sampled cells are dates, under a header with two date
    keywords. *)
Definition sixty_header : string := "Start date".
Definition sixty_values : list string :=
  ["2024-01-15"; "2024-02-20"; "2024-03-05"; "pending"; "unknown"]%string.

(** What every JavaScript runtime answers on the two words and on the five
    cells: the words are no dates, no cell is a number. *)
Definition reads_sixty_values (Number : string -> number)
  (Date_year : string -> option Z) : Prop :=
  Date_year "pending"%string = None /\ Date_year "unknown"%string = None
  /\ Forall (fun v => Number v = nan) sixty_values.

(** The rule with the threshold [at least 60%], on the default sample. *)
Definition date_rule_at_least_sixty (Number : string -> number)
  (Date_year : string -> option Z) : Prop :=
  forall header values,
    let clean := cleanValues values default_sampleSize in
    let n := length clean in
    let dm := length (filter (is_date_match Date_year) clean) in
    let u := length (dedupe clean) in
    let kw := has_keyword dateKeywords (toLowerCase header) in
    n <> 0 ->
    3 * n <= 5 * dm ->
    kw = true \/ 7 * n < 10 * u ->
    let a := analyzeQuestionType Number Date_year header values
               default_sampleSize in
    qta_type a = date /\ confidence a = (if kw then 0.95 else 0.8)%float.

(** A runtime that reads no cell as a number and no cell as a date. *)
Definition Number_nan : string -> number := fun _ => nan.
Definition Date_invalid : string -> option Z := fun _ => None.

(** Four of five sampled cells are dates. *)
Definition above_sixty_values : list string :=
  ["2024-01-15"; "2024-02-20"; "2024-03-05"; "12/31/2023"; "pending"]%string.

End TypeDetectorSpec.

Module OpenEndSpec.
Import JS OpenEnd.

(** A batch coded with the keyword strategy. *)
Definition sample_settings : CodingSettings :=
  {| minCategorySize := 1%float;
     maxCategories := 20%float;
     similarityThreshold := 0.5%float;
     useSemanticClustering := false;
     excludeShortResponses := false;
     minResponseLength := 5%float |}.

Definition sample_responses : list string :=
  ["The price is good"; "good price and cheap"; "staff was rude, service slow";
   "service slow"; "null"; " "; "whatever else"]%string.

(** Settings under which no category of a single response is kept. *)
Definition strict_settings : CodingSettings :=
  {| minCategorySize := 3%float;
     maxCategories := 20%float;
     similarityThreshold := 0.5%float;
     useSemanticClustering := false;
     excludeShortResponses := false;
     minResponseLength := 5%float |}.

(** The keyword strategy never calls [Math.log]. *)
Definition Math_log_unused : number -> number := fun _ => nan.

End OpenEndSpec.

(* ================================================================== *)
(** * Scenarios *)
(* ================================================================== *)

Module Scenarios.
Import JS Types Stats CrossTab.
Local Open Scope string_scope.

(** A [Number] for configurations without numeric filters, where it is
    never called. *)
Definition Number_unused : string -> number := fun _ => nan.

(** Scenario A: 60 Male / 40 Female; North has 30 Male / 10 Female, South
    has 30 Male / 30 Female. *)
Definition scenarioA : ExcelData :=
  {| headers := ["Gender"; "Region"];
     rows := repeat ["Male"; "North"] 30 ++ repeat ["Female"; "North"] 10
             ++ repeat ["Male"; "South"] 30 ++ repeat ["Female"; "South"] 30;
     fileName := "scenarioA.xlsx" |}.

Definition scenarioA_dataMap : list Row :=
  build_dataMap (headers scenarioA) (rows scenarioA).

Definition scenarioA_config : CrossTabConfig :=
  {| tableVariables := ["Gender"];
     bannerVariables := ["Region"];
     multiSelectGroups := [];
     questionTypes := [("Gender", binary)];
     tableNames := [];
     filters := [];
     customVariables := [] |}.

(** Scenario A as the specification expects it: Male row first, no Total
    row, and a lower flag on the South/Male cell.  [arrow] is the text of
    that flag. *)
Definition scenarioA_as_specified (Math_exp : number -> number)
  (arrow : string) : Prop :=
  exists r,
    createRegularCrossTab Math_exp scenarioA_dataMap "Gender" ["Region"]
      binary (headers scenarioA) "Gender" = Some r
    /\ result_headers r = ["Total"; "North"; "South"]
    /\ absolute r = [[60; 30; 30]; [40; 10; 30]]%float
    /\ percentage r = [["60%"; "75%"; "50%"]; ["40%"; "25%"; "50%"]]
    /\ nth 2 (nth 0 (significanceFlags r) []) "" = arrow.

(** One respondent without a region, one region without a respondent who
    answered: the base of the North column is zero. *)
Definition zero_base_dataMap : list Row :=
  build_dataMap ["Gender"; "Region"] [["Male"; ""]; [""; "North"]].

(** Zero bases as the specification expects them: every cell of a column
    whose base is zero shows 0%. *)
Definition zero_base_shows_zero (r : CrossTabResult) : Prop :=
  forall i j,
    i < length (percentage r) ->
    j < length (baseValues r) ->
    PrimFloat.eqb (nth j (baseValues r) undefined_number) 0 = true ->
    nth j (nth i (percentage r) []) "" = "0%".

(** A simple [is_empty] filter on one column with a filled and a blank
    cell. *)
Definition is_empty_data : ExcelData :=
  {| headers := ["Q1"]; rows := [["x"]; [""]]; fileName := "f.xlsx" |}.

Definition is_empty_filter (op : FilterOperator) : obj FilterConfig :=
  [("filter_1", {| column := "Q1"; operator := op; value := "";
                   secondValue := None |})].

(** A table variable that names a custom variable. *)
Definition custom_config : CrossTabConfig :=
  {| tableVariables := ["Segment"];
     bannerVariables := ["Region"];
     multiSelectGroups := [];
     questionTypes := [("Gender", binary)];
     tableNames := [];
     filters := [];
     customVariables :=
       [("Segment", {| cv_id := "Segment"; cv_name := "Segment";
                       cv_type := recode; sourceColumns := ["Gender"] |})] |}.

(** A multi-select battery over a dataset without rows. *)
Definition no_rows : ExcelData :=
  {| headers := ["Apps - A"; "Apps - B"]; rows := []; fileName := "e.xlsx" |}.

Definition battery_config : CrossTabConfig :=
  {| tableVariables := ["Apps"];
     bannerVariables := [];
     multiSelectGroups := [("Apps", ["Apps - A"; "Apps - B"])];
     questionTypes := [];
     tableNames := [];
     filters := [];
     customVariables := [] |}.

End Scenarios.

(* ================================================================== *)
(** * The vocabulary of the further properties *)
(* ================================================================== *)

Module CrossTabVocabulary.
Import JS Types Stats Text CrossTab.

(** The banner columns, read off the data: every banner variable with each
    of its sorted distinct values. *)
Definition data_banner_columns (bannerVars : list string) (dataMap : list Row)
  : list (string * string) :=
  flat_map (fun bannerVar =>
              map (pair bannerVar) (distinct_values dataMap bannerVar))
           bannerVars.

(** The row of counts of the rows that satisfy [p]: in all, then per banner
    column. *)
Definition counts_of (p : Row -> bool) (bannerVars : list string)
  (dataMap : list Row) : list number :=
  count p dataMap
  :: map (fun '(bannerVar, bannerVal) =>
            count (fun row => p row
                              && String.eqb (cell_text row bannerVar) bannerVal)
                  dataMap)
         (data_banner_columns bannerVars dataMap).

(** The blocks of [createBannerStructure] for the banner variables [l],
    the first one starting at column [idx]. *)
Fixpoint blocks_from (dataMap : list Row) (idx : nat) (l : list string)
  : list BannerStructure :=
  match l with
  | [] => []
  | bannerVar :: l' =>
      let bannerValues := distinct_values dataMap bannerVar in
      {| question := extractQuestionFromHeader bannerVar;
         answers := bannerValues;
         startIndex := idx;
         endIndex := idx + length bannerValues - 1 |}
      :: blocks_from dataMap (idx + length bannerValues) l'
  end.

(** The names of the themes of [extractThemesWithResponses], in the order
    of their creation. *)
Definition theme_names : list string :=
  (map fst themeKeywords ++ ["Other"%string])%list.

(** The responses counted so far, over all themes. *)
Definition counts_total (themes : obj ThemeData) : nat :=
  list_sum (map (fun kv => td_count (snd kv)) themes).

(** The rows of one banner column. *)
Definition group_rows (dataMap : list Row) (bannerVar bannerVal : string)
  : list Row :=
  filter (fun row => String.eqb (cell_text row bannerVar) bannerVal) dataMap.

(** The rows that carry a response. *)
Definition answered_rows (dataMap : list Row) (tableVar : string) : list Row :=
  filter (fun row => non_blank (cell_text row tableVar)) dataMap.

(** Three respondents, two of them with a comment. *)
Definition comments : list string :=
  ["good price"; ""; "slow service"]%string.

Definition comments_dataMap : list Row :=
  build_dataMap ["Comment"; "Region"]%string
    [["good price"; "North"]; [""; "South"]; ["slow service"; "North"]]%string.

Definition comments_banner : obj (list string) :=
  [("Region", ["North"; "South"])]%string.

End CrossTabVocabulary.

Module RankingVocabulary.
Import JS Types Ranking CrossTab.

(** The columns that a structure maps, over its three ranks. *)
Definition mapped_columns_of (s : RankQuestionStructure) : list string :=
  (rank1Columns (columnMapping s) ++ rank2Columns (columnMapping s)
   ++ rank3Columns (columnMapping s))%list.

(** Four respondents; two of them gave option A a rank. *)
Definition ranked_dataMap : list Row :=
  build_dataMap ["Q1_Rank1_A"; "Region"]%string
    [["1"; "North"]; ["0"; "North"]; ["2"; "South"]; [""; "South"]]%string.

Definition ranked_banner : obj (list string) :=
  [("Region", ["North"; "South"])]%string.

Definition ranked_structure : RankQuestionStructure :=
  {| questionName := "Q1";
     options := ["A"];
     maxRanks := 1;
     columnMapping :=
       {| rank1Columns := ["Q1_Rank1_A"];
          rank2Columns := [];
          rank3Columns := [] |} |}%string.

End RankingVocabulary.

Module TypeDetectorVocabulary.
Import JS Types TypeDetector.

(** The texts that [analyzeQuestionType] does not sample. *)
Definition unusable_values : list string :=
  [""; "null"; "undefined"; "N/A"; "n/a"]%string.

(** The confidences that [analyzeQuestionType] can return. *)
Definition confidence_levels : list number :=
  [0.1; 0.95; 0.8; 0.9; 0.75; 0.85; 0.7; 0.6; 0.4]%float.

End TypeDetectorVocabulary.

Module OpenEndVocabulary.
Import JS OpenEnd.

(** The test of [preprocessResponses] on a trimmed response. *)
Definition kept (st : CodingSettings) (t : string) : bool :=
  if is_empty_string t || (t =? "null")%string || (t =? "undefined")%string
  then false
  else if excludeShortResponses st
          && PrimFloat.ltb (of_nat (String.length t)) (minResponseLength st)
  then false
  else true.

(** Settings that ask for one category and merge what is closer than
    0.9. *)
Definition merging_settings : CodingSettings :=
  {| minCategorySize := 1%float;
     maxCategories := 1%float;
     similarityThreshold := 0.9%float;
     useSemanticClustering := true;
     excludeShortResponses := false;
     minResponseLength := 5%float |}.

(** Three responses, the first two on the same term, with their rows. *)
Definition price_1 : Clean := {| text := "good price"; originalIndex := 0 |}.
Definition price_2 : Clean := {| text := "fair price"; originalIndex := 1 |}.
Definition staff_1 : Clean := {| text := "slow staff"; originalIndex := 3 |}.

Definition term_rows : list (list number) :=
  [[1; 0]; [1; 0]; [0; 1]]%float.

End OpenEndVocabulary.

Module MeasuresVocabulary.
Import JS Types CrossTab CrossTabSpec CrossTabVocabulary Measures.

Section WithRuntime.

Variable Number : string -> number.

(** The cells of a column that read as numbers, over some rows. *)
Definition numeric_cells (rws : list Row) (tableVar : string) : list number :=
  filter (fun val => negb (PrimFloat.is_nan val))
         (map (fun row => number_cell Number row tableVar) rws).

(** A row whose cell is one of the target values. *)
Definition box_hit (tableVar : string) (targetValues : list number)
  (row : Row) : bool :=
  negb (PrimFloat.is_nan (number_cell Number row tableVar))
  && includes_number targetValues (number_cell Number row tableVar).

(** A cell of a box matrix: the share of the rows counted for
    [targetValues] in the base of the column. *)
Definition box_cell dataMap tableVar bannerVars byVar baseValues
  (targetValues : list number) (colIndex : nat) : list number :=
  [percent_of
     (calculateBoxCount Number dataMap tableVar bannerVars byVar colIndex
                        targetValues)
     (nth colIndex baseValues undefined_number)].

End WithRuntime.

(** A box matrix: [n] rows of one cell. *)
Definition one_cell_rows (n : nat) (m : list (list number)) : Prop :=
  length m = n /\ Forall (fun row => length row = 1) m.

(** [Number] on the texts of the examples: the empty text is 0, a run of
    decimal digits is its value, and a word is NaN. *)
Definition Number_decimal (s : string) : number :=
  if is_empty_string s then 0%float
  else if forallb is_digit (list_ascii_of_string s) then of_Z (digits_value s)
  else nan.

(** Five respondents, four of them with a score on a five-point scale. *)
Definition scale_dataMap : list Row :=
  build_dataMap ["Score"; "Region"]%string
    [["5"; "North"]; ["4"; "North"]; ["1"; "South"]; ["n/a"; "West"];
     ["5"; "East"]]%string.

(** Its banner: the regions. *)
Definition scale_banner : obj (list string) :=
  [("Region", ["East"; "North"; "South"; "West"])]%string.

(** [Math.pow] on the exponent that [calculateStandardDeviation] uses:
    the square. *)
Definition Math_pow_square (x y : number) : number :=
  if PrimFloat.eqb y 2 then PrimFloat.mul x x else nan.

End MeasuresVocabulary.

(* ================================================================== *)
(** * Facts about loops and arrays *)
(* ================================================================== *)

Module LoopFacts.
Import JS.

Lemma forEach_nil {A St} (body : A -> St -> St) (init : St) :
  forEach [] body init = init.
Proof. reflexivity. Qed.

Lemma forEach_cons {A St} (body : A -> St -> St) x l (init : St) :
  forEach (x :: l) body init = forEach l body (body x init).
Proof. reflexivity. Qed.

Lemma forEach_app {A St} (body : A -> St -> St) l1 l2 (init : St) :
  forEach (l1 ++ l2) body init = forEach l2 body (forEach l1 body init).
Proof. unfold forEach. apply fold_left_app. Qed.

(** A property kept by the body holds after the loop. *)
Lemma forEach_invariant {A St} (P : St -> Prop) (body : A -> St -> St) l :
  forall init,
    P init ->
    (forall x s, In x l -> P s -> P (body x s)) ->
    P (forEach l body init).
Proof.
  induction l as [|x l IH]; intros init Hinit Hstep.
  - exact Hinit.
  - rewrite forEach_cons. apply IH.
    + apply Hstep; [now left | exact Hinit].
    + intros y s Hy. apply Hstep. now right.
Qed.

(** A measure that every turn increases by one counts the turns. *)
Lemma forEach_measure {A St} (mu : St -> nat) (body : A -> St -> St) l :
  (forall x s, mu (body x s) = S (mu s)) ->
  forall init, mu (forEach l body init) = mu init + length l.
Proof.
  intros Hstep. induction l as [|x l IH]; intros init.
  - simpl. now rewrite Nat.add_0_r.
  - rewrite forEach_cons, IH, Hstep. simpl. lia.
Qed.

Lemma forEach_push_map {A B} (f : A -> B) l init :
  forEach l (fun x acc => push acc (f x)) init = init ++ map f l.
Proof.
  revert init. induction l as [|x l IH]; intros init.
  - simpl. now rewrite app_nil_r.
  - rewrite forEach_cons, IH. unfold push. simpl. now rewrite <- app_assoc.
Qed.

Lemma for_range_push_map {B} (f : nat -> B) n init :
  for_range n (fun i acc => push acc (f i)) init = init ++ map f (seq 0 n).
Proof. unfold for_range. apply (forEach_push_map f (seq 0 n) init). Qed.

Lemma for_range_ext {St} (f g : nat -> St -> St) n init :
  (forall i s, i < n -> f i s = g i s) ->
  for_range n f init = for_range n g init.
Proof.
  unfold for_range. intros H.
  assert (G : forall l s, (forall i, In i l -> i < n) ->
            fold_left (fun s i => f i s) l s = fold_left (fun s i => g i s) l s).
  { induction l as [|i l IH]; intros s Hl; simpl; [reflexivity|].
    rewrite H by (apply Hl; now left). apply IH. intros j Hj. apply Hl. now right. }
  apply G. intros i Hi. apply in_seq in Hi. lia.
Qed.

Lemma forEachi_eq {A St} (body : A -> nat -> St -> St) l :
  forall i init,
    fold_left (fun '(i, s) x => (S i, body x i s)) l (i, init)
    = (i + length l,
       snd (fold_left (fun '(i, s) x => (S i, body x i s)) l (i, init))).
Proof.
  induction l as [|x l IH]; intros i init; simpl.
  - now rewrite Nat.add_0_r.
  - rewrite IH. simpl. f_equal. lia.
Qed.

Lemma forEachi_invariant {A St} (P : nat -> St -> Prop)
  (body : A -> nat -> St -> St) l init :
  P 0 init ->
  (forall x i s, In x l -> P i s -> P (S i) (body x i s)) ->
  P (length l) (forEachi l body init).
Proof.
  unfold forEachi. intros H0 Hstep.
  assert (G : forall l' i s, (forall x, In x l' -> In x l) -> P i s ->
     P (i + length l')
       (snd (fold_left (fun '(i, s) x => (S i, body x i s)) l' (i, s)))).
  { induction l' as [|x l' IH]; intros i s Hin Hp; simpl.
    - now rewrite Nat.add_0_r.
    - replace (i + S (length l')) with (S i + length l') by lia.
      apply IH.
      + intros y Hy. apply Hin. now right.
      + apply Hstep; [apply Hin; now left | exact Hp]. }
  apply (G l 0 init); auto.
Qed.

Lemma push_length {A} (l : list A) x : length (push l x) = S (length l).
Proof. unfold push. rewrite length_app. simpl. lia. Qed.

Lemma Forall_push {A} (P : A -> Prop) l x :
  Forall P l -> P x -> Forall P (push l x).
Proof. intros Hl Hx. unfold push. apply Forall_app. split; auto. Qed.

End LoopFacts.

(* ================================================================== *)
(** * Facts about the significance tester *)
(* ================================================================== *)

Module StatsFacts.
Import JS Stats StatsSpec LoopFacts.
Local Open Scope string_scope.

Lemma flag_column_push Math_exp row baseValues alpha colIndex flagRow :
  flag_column Math_exp row baseValues alpha colIndex flagRow
  = push flagRow (cell_flag Math_exp row baseValues alpha colIndex).
Proof.
  unfold flag_column, cell_flag.
  destruct (colIndex =? 0)%nat; [reflexivity|].
  cbv zeta.
  destruct (isSignificant _); reflexivity.
Qed.

Lemma map_seq_nth {A B} (F : A -> B) (d : A) (l : list A) :
  map (fun i => F (nth i l d)) (seq 0 (length l)) = map F l.
Proof.
  induction l as [|a l IH]; [reflexivity|].
  cbn [length seq map nth]. f_equal.
  rewrite <- seq_shift, map_map. exact IH.
Qed.

(** The two nested loops compute one flag per cell. *)
Lemma performSignificanceTests_map Math_exp absoluteData baseValues alpha :
  performSignificanceTests Math_exp absoluteData baseValues alpha
  = map (fun row =>
           map (cell_flag Math_exp row baseValues alpha) (seq 0 (length row)))
        absoluteData.
Proof.
  unfold performSignificanceTests.
  rewrite for_range_ext
    with (g := fun rowIndex flags =>
                 push flags
                   ((fun row => map (cell_flag Math_exp row baseValues alpha)
                                    (seq 0 (length row)))
                      (nth rowIndex absoluteData []))).
  - rewrite for_range_push_map. cbn [app].
    apply (map_seq_nth
             (fun row => map (cell_flag Math_exp row baseValues alpha)
                             (seq 0 (length row)))).
  - intros i s _. cbv zeta. f_equal.
    rewrite for_range_ext
      with (g := fun c acc =>
                   push acc (cell_flag Math_exp (nth i absoluteData [])
                                       baseValues alpha c)).
    + now rewrite for_range_push_map.
    + intros c acc _. apply flag_column_push.
Qed.

Lemma performSignificanceTests_length Math_exp absoluteData baseValues alpha :
  length (performSignificanceTests Math_exp absoluteData baseValues alpha)
  = length absoluteData.
Proof. rewrite performSignificanceTests_map. apply length_map. Qed.

Lemma performSignificanceTests_rows Math_exp absoluteData baseValues alpha n :
  Forall (fun row => length row = n) absoluteData ->
  Forall (fun row => length row = n)
         (performSignificanceTests Math_exp absoluteData baseValues alpha).
Proof.
  rewrite performSignificanceTests_map. intros H.
  apply Forall_map. eapply Forall_impl; [|exact H].
  intros row Hrow. cbn beta. now rewrite length_map, length_seq.
Qed.

(** The flag of cell [(r, c)]. *)
Lemma performSignificanceTests_cell Math_exp absoluteData baseValues alpha r c :
  r < length absoluteData ->
  c < length (nth r absoluteData []) ->
  nth c (nth r (performSignificanceTests Math_exp absoluteData baseValues alpha) []) ""
  = cell_flag Math_exp (nth r absoluteData []) baseValues alpha c.
Proof.
  intros Hr Hc. rewrite performSignificanceTests_map.
  set (F := fun row => map (cell_flag Math_exp row baseValues alpha)
                           (seq 0 (length row))).
  replace (nth r (map F absoluteData) []) with (F (nth r absoluteData [])).
  - unfold F.
    rewrite (nth_indep _ "" (cell_flag Math_exp (nth r absoluteData []) baseValues alpha 0))
      by (now rewrite length_map, length_seq).
    rewrite (map_nth (cell_flag Math_exp (nth r absoluteData []) baseValues alpha)).
    now rewrite seq_nth.
  - rewrite (nth_indep _ [] (F [])) by now rewrite length_map.
    symmetry. apply map_nth.
Qed.

Lemma lower_flag_not_down_arrow : lower_flag <> down_arrow.
Proof. discriminate. Qed.

(** No cell ever holds the downwards arrow. *)
Lemma cell_flag_not_down_arrow Math_exp row baseValues alpha c :
  cell_flag Math_exp row baseValues alpha c <> down_arrow.
Proof.
  unfold cell_flag. destruct (c =? 0)%nat; [discriminate|].
  cbv zeta. destruct (isSignificant _); [|discriminate].
  destruct (comparisonType _); discriminate.
Qed.

(** ** Zero denominators in the z-test *)

Lemma zTest_zero_total Math_exp count1 total1 count2 total2 alpha :
  PrimFloat.eqb total1 0 = true \/ PrimFloat.eqb total2 0 = true ->
  zTestForProportions Math_exp count1 total1 count2 total2 alpha
  = not_significant.
Proof.
  intros H. unfold zTestForProportions.
  destruct H as [H|H]; rewrite H; [reflexivity|].
  now rewrite orb_true_r.
Qed.

Lemma zTest_zero_se Math_exp count1 total1 count2 total2 alpha :
  PrimFloat.eqb (standard_error count1 total1 count2 total2) 0 = true ->
  zTestForProportions Math_exp count1 total1 count2 total2 alpha
  = not_significant.
Proof.
  intros H. unfold zTestForProportions.
  destruct (PrimFloat.eqb total1 0 || PrimFloat.eqb total2 0); [reflexivity|].
  cbv zeta. unfold standard_error in H. cbv zeta in H. now rewrite H.
Qed.

End StatsFacts.

(* ================================================================== *)
(** * Facts about the cross-tabulation engine *)
(* ================================================================== *)

Module CrossTabFacts.
Import JS Types Stats CrossTab StatsSpec CrossTabSpec LoopFacts StatsFacts.

(** ** Dictionaries *)

Lemma obj_get_set {V} (o : obj V) k x k' :
  obj_get (obj_set o k x) k' = if String.eqb k' k then Some x else obj_get o k'.
Proof.
  induction o as [|[k0 v0] o IH]; cbn [obj_set obj_get].
  - reflexivity.
  - destruct (String.eqb_spec k k0) as [->|Hk]; cbn [obj_get].
    + destruct (String.eqb_spec k' k0); reflexivity.
    + rewrite IH. destruct (String.eqb_spec k' k0) as [->|Hk'].
      * destruct (String.eqb_spec k0 k); [congruence | reflexivity].
      * reflexivity.
Qed.

(** ** Banner columns *)

Lemma forEach_banner_measure {St} (mu : St -> nat) bannerVars byVar
  (body : string -> string -> St -> St) :
  (forall bannerVar bannerVal s, mu (body bannerVar bannerVal s) = S (mu s)) ->
  forall init,
    mu (forEach_banner bannerVars byVar body init)
    = mu init + banner_width bannerVars byVar.
Proof.
  intros Hstep. unfold forEach_banner, banner_width.
  induction bannerVars as [|v vars IH]; intros init.
  - simpl. now rewrite Nat.add_0_r.
  - rewrite forEach_cons, IH.
    rewrite (forEach_measure mu (body v) _ (Hstep v)).
    cbn [flat_map]. rewrite length_app. lia.
Qed.

Lemma count_row_length bannerVars byVar total banner_count :
  length (count_row bannerVars byVar total banner_count)
  = S (banner_width bannerVars byVar).
Proof.
  unfold count_row.
  rewrite (forEach_banner_measure (@length number)).
  - reflexivity.
  - intros. apply push_length.
Qed.

Lemma percent_row_length bannerVars byVar baseValues absRow totalCount totalBase :
  length (percent_row bannerVars byVar baseValues absRow totalCount totalBase)
  = S (banner_width bannerVars byVar).
Proof.
  unfold percent_row. cbv zeta.
  rewrite (forEach_banner_measure (fun s : list string * nat => length (fst s))).
  - reflexivity.
  - intros bv bval [pctRow colIndex]. cbn [fst]. apply push_length.
Qed.

(** The banner loop of [banner_headers]: the headers are [Total] followed by
    the values of each banner variable, and the dictionary maps each banner
    variable to its values. *)
Lemma banner_headers_loop dataMap l :
  forall hs o,
    exists o',
      forEach l
        (fun bannerVar '(allBannerHeaders, bannerValuesByVar) =>
           (forEach (distinct_values dataMap bannerVar)
                    (fun val hs => push hs val) allBannerHeaders,
            obj_set bannerValuesByVar bannerVar
                    (distinct_values dataMap bannerVar)))
        (hs, o)
      = (hs ++ flat_map (distinct_values dataMap) l, o')
      /\ forall v, obj_get o' v
                   = if arr_includes l v then Some (distinct_values dataMap v)
                     else obj_get o v.
Proof.
  induction l as [|x l IH]; intros hs o.
  - exists o. split; [simpl; now rewrite app_nil_r | reflexivity].
  - rewrite forEach_cons.
    rewrite (forEach_push_map (fun val : string => val)), map_id.
    destruct (IH (hs ++ distinct_values dataMap x)
                 (obj_set o x (distinct_values dataMap x))) as [o' [E Hget]].
    exists o'. split.
    + rewrite E. cbn [flat_map]. now rewrite app_assoc.
    + intros v. rewrite Hget, obj_get_set.
      unfold arr_includes. cbn [existsb].
      destruct (String.eqb_spec v x) as [->|Hv]; cbn [orb].
      * now destruct (existsb (String.eqb x) l).
      * reflexivity.
Qed.

Lemma banner_headers_spec bannerVars dataMap :
  exists byVar,
    banner_headers bannerVars dataMap
    = ("Total"%string :: flat_map (distinct_values dataMap) bannerVars, byVar)
    /\ forall v, In v bannerVars ->
                 banner_values byVar v = distinct_values dataMap v.
Proof.
  unfold banner_headers. cbv zeta.
  destruct (banner_headers_loop dataMap bannerVars ["Total"%string] []) as [o' [E Hget]].
  exists o'. split; [exact E|].
  intros v Hv. unfold banner_values. rewrite Hget.
  replace (arr_includes bannerVars v) with true; [reflexivity|].
  symmetry. unfold arr_includes. apply existsb_exists.
  exists v. split; [exact Hv | apply String.eqb_refl].
Qed.

(** The dictionary that the engine builds defines every banner
    variable. *)
Lemma banner_headers_defined bannerVars dataMap :
  banner_defined bannerVars (snd (banner_headers bannerVars dataMap)) = true.
Proof.
  destruct (banner_headers_loop dataMap bannerVars ["Total"%string] [])
    as [o' [E Hget]].
  replace (snd (banner_headers bannerVars dataMap)) with o'
    by (symmetry; exact (f_equal snd E)).
  unfold banner_defined. apply forallb_forall.
  intros v Hv. rewrite Hget.
  replace (arr_includes bannerVars v) with true; [reflexivity|].
  symmetry. unfold arr_includes. apply existsb_exists.
  exists v. split; [exact Hv | apply String.eqb_refl].
Qed.

Lemma flat_map_length_ext {A B} (f g : A -> list B) l :
  (forall x, In x l -> f x = g x) ->
  length (flat_map f l) = length (flat_map g l).
Proof.
  induction l as [|x l IH]; intros H; [reflexivity|].
  cbn [flat_map]. rewrite !length_app, IH.
  - rewrite H; [reflexivity | now left].
  - intros y Hy. apply H. now right.
Qed.

(** The header row is as wide as every row of counts. *)
Lemma banner_headers_width bannerVars dataMap hs byVar :
  banner_headers bannerVars dataMap = (hs, byVar) ->
  length hs = S (banner_width bannerVars byVar).
Proof.
  intros E. destruct (banner_headers_spec bannerVars dataMap) as [o [E' H]].
  rewrite E in E'. injection E' as -> ->.
  cbn [length]. f_equal. unfold banner_width.
  apply flat_map_length_ext. intros x Hx. symmetry. now apply H.
Qed.

(** ** The shape of a result *)

(** What is needed of the locals when the record is built. *)
Lemma well_shaped_intro Math_exp w hs absolute percentage rowLabels baseValues
  nm dn bq ba qt ve bs :
  length hs = w ->
  length baseValues = w ->
  length percentage = length absolute ->
  length rowLabels = length absolute ->
  Forall (fun row : list number => length row = w) absolute ->
  Forall (fun row : list string => length row = w) percentage ->
  well_shaped
    {| name := nm; displayName := dn; absolute := absolute;
       percentage := percentage; result_headers := hs; rowLabels := rowLabels;
       bannerQuestion := bq; bannerAnswers := ba; questionType := qt;
       baseValues := baseValues; validationErrors := ve;
       significanceFlags :=
         performSignificanceTests Math_exp absolute baseValues default_alpha;
       bannerStructure := bs |}.
Proof.
  intros Hh Hb Hp Hr Ha Hpc. unfold well_shaped. cbn.
  rewrite Hh. repeat split; auto.
  - apply performSignificanceTests_length.
  - now apply performSignificanceTests_rows.
Qed.

Lemma repeat_length_eq {A} (x : A) n : length (filled n x) = n.
Proof. apply repeat_length. Qed.

End CrossTabFacts.

Module ShapeFacts.
Import JS Types Stats CrossTab StatsSpec CrossTabSpec.
Import LoopFacts StatsFacts CrossTabFacts.

Lemma rows3_ok_push w absolute percentage rowLabels absRow pctRow label :
  rows3_ok w (absolute, percentage, rowLabels) ->
  length absRow = w -> length pctRow = w ->
  rows3_ok w (push absolute absRow, push percentage pctRow, push rowLabels label).
Proof.
  intros (H1 & H2 & H3 & H4) Ha Hp. unfold rows3_ok.
  rewrite !push_length. repeat split; auto using Forall_push.
Qed.

Lemma rows2_ok_push w absolute percentage absRow pctRow :
  rows2_ok w (absolute, percentage) ->
  length absRow = w -> length pctRow = w ->
  rows2_ok w (push absolute absRow, push percentage pctRow).
Proof.
  intros (H1 & H3 & H4) Ha Hp. unfold rows2_ok.
  rewrite !push_length. repeat split; auto using Forall_push.
Qed.

(** Turns the equation [El : forEach l body init = v] of a loop into the
    invariant [P v], leaving [P init] and the step to prove. *)
Ltac loop_invariant El P H :=
  match type of El with
  | forEach ?l ?b ?i = _ =>
      assert (H : P (forEach l b i));
      [ apply forEach_invariant | rewrite El in H ]
  end.

Section WithExp.

Variable Math_exp : number -> number.

Lemma createOpenEndedCrossTab_shape dataMap tableVar bannerVars allHeaders
  displayName r :
  createOpenEndedCrossTab Math_exp dataMap tableVar bannerVars allHeaders
    displayName = Some r ->
  well_shaped r.
Proof.
  unfold createOpenEndedCrossTab. cbv zeta.
  destruct (length _ =? 0); [discriminate|].
  destruct (banner_headers bannerVars dataMap) as [hs byVar] eqn:Eb.
  destruct (length _ =? 0); [discriminate|].
  match goal with
  | |- context [forEach ?l ?b ?i] =>
      destruct (forEach l b i) as [[absolute percentage] rowLabels] eqn:El
  end.
  intros H. injection H as <-.
  set (w := S (banner_width bannerVars byVar)).
  loop_invariant El (rows3_ok w) Hinv.
  - unfold rows3_ok, push. cbn [app length].
    repeat split; repeat constructor;
      try apply count_row_length;
      try (rewrite length_map; apply count_row_length);
      try (unfold filled; rewrite repeat_length; apply count_row_length).
  - intros th [[a p] l] _ Hs. apply rows3_ok_push; auto.
    + apply count_row_length.
    + apply percent_row_length.
  - destruct Hinv as (H1 & H2 & H3 & H4).
    apply well_shaped_intro with (w := w); auto.
    + now apply banner_headers_width with (dataMap := dataMap).
    + apply count_row_length.
Qed.

Lemma createRegularCrossTab_shape dataMap tableVar bannerVars qt allHeaders
  displayName r :
  createRegularCrossTab Math_exp dataMap tableVar bannerVars qt allHeaders
    displayName = Some r ->
  well_shaped r.
Proof.
  unfold createRegularCrossTab.
  destruct (QuestionType_eqb qt open_ended);
    [apply createOpenEndedCrossTab_shape|].
  cbv zeta.
  destruct (length _ =? 0); [discriminate|].
  destruct (banner_headers bannerVars dataMap) as [hs byVar] eqn:Eb.
  match goal with
  | |- context [forEach ?l ?b ?i] =>
      assert (Hlen : length (fst (forEach l b i)) = length l)
        by (rewrite (forEach_measure
                       (fun s : list (list number) * list (list string) =>
                          length (fst s)));
            [reflexivity | intros x [a p]; cbn [fst]; apply push_length]);
      destruct (forEach l b i) as [absolute percentage] eqn:El
  end.
  cbn [fst] in Hlen.
  intros H. injection H as <-.
  set (w := S (banner_width bannerVars byVar)).
  loop_invariant El (rows2_ok w) Hinv.
  - unfold rows2_ok. repeat split; constructor.
  - intros tv [a p] _ Hs. apply rows2_ok_push; auto.
    + apply count_row_length.
    + apply percent_row_length.
  - destruct Hinv as (H1 & H3 & H4).
    apply well_shaped_intro with (w := w).
    + now apply banner_headers_width with (dataMap := dataMap).
    + apply count_row_length.
    + rewrite !push_length. now f_equal.
    + rewrite length_app, push_length, Hlen. cbn [length]. lia.
    + apply Forall_push; [exact H3 | apply count_row_length].
    + apply Forall_push; [exact H4|].
      rewrite length_map. apply count_row_length.
Qed.

Lemma for_range_invariant {St} (P : nat -> St -> Prop)
  (body : nat -> St -> St) n init :
  P 0 init ->
  (forall i s, i < n -> P i s -> P (S i) (body i s)) ->
  P n (for_range n body init).
Proof.
  intros H0 Hstep. unfold for_range.
  assert (G : forall k i s, i + k <= n -> P i s ->
            P (i + k) (fold_left (fun s i => body i s) (seq i k) s)).
  { induction k as [|k IH]; intros i s Hik Hp; cbn [seq fold_left].
    - now rewrite Nat.add_0_r.
    - replace (i + S k) with (S i + k) by lia.
      apply IH; [lia|]. apply Hstep; [lia | exact Hp]. }
  apply (G n 0 init); auto.
Qed.

Lemma createRankingCrossTab_views dataMap rankStructure bannerVars byVar
  baseValues :
  let rc := createRankingCrossTab dataMap rankStructure bannerVars byVar
              baseValues in
  Forall (fun '(_, data) =>
            Forall (fun row : list number => length row = length baseValues) data)
         (rankingTypes rc).
Proof.
  unfold createRankingCrossTab. cbv zeta.
  match goal with
  | |- context [forEachi ?l ?b ?i] =>
      pose proof (@forEachi_invariant _ _
                    (fun (_ : nat) s => views_ok (length baseValues) s) b l i) as Hinv;
      destruct (forEachi l b i) as [[[[r1 r2] r3] r12] r123]
  end.
  assert (Hv : views_ok (length baseValues) (r1, r2, r3, r12, r123)).
  { apply Hinv.
    - unfold views_ok. repeat split; constructor.
    - intros opt i [[[[v1 v2] v3] v12] v123] _ (H1 & H2 & H3 & H4 & H5).
      cbv beta iota zeta.
      match goal with
      | |- context [for_range ?n ?b ?i0] =>
          pose proof (@for_range_invariant _ (fun k s => cells_ok k s) b n i0) as Hc;
          destruct (for_range n b i0) as [[[[a1 a2] a3] a12] a123]
      end.
      assert (Hk : cells_ok (length baseValues) (a1, a2, a3, a12, a123)).
      { apply Hc.
        - unfold cells_ok. repeat split; reflexivity.
        - intros k [[[[b1 b2] b3] b12] b123] _ (G1 & G2 & G3 & G4 & G5).
          unfold cells_ok. rewrite !push_length. repeat split; congruence. }
      destruct Hk as (K1 & K2 & K3 & K4 & K5).
      unfold views_ok. repeat split; apply Forall_push; auto. }
  destruct Hv as (H1 & H2 & H3 & H4 & H5).
  unfold rankingTypes. cbn.
  repeat constructor; assumption.
Qed.

Lemma createRankQuestionCrossTab_shape dataMap questionName bannerVars
  rankStructure allHeaders displayName r :
  createRankQuestionCrossTab Math_exp dataMap questionName bannerVars
    rankStructure allHeaders displayName = Some r ->
  well_shaped r.
Proof.
  unfold createRankQuestionCrossTab. cbv zeta.
  destruct (banner_headers bannerVars dataMap) as [hs byVar] eqn:Eb.
  match goal with
  | |- context [createRankingCrossTab ?d ?rs ?bv ?bw ?base] =>
      pose proof (createRankingCrossTab_views d rs bv bw base) as Hviews;
      cbv zeta in Hviews;
      set (rc := createRankingCrossTab d rs bv bw base) in *;
      set (baseValues := base) in *
  end.
  match goal with
  | |- context [forEach ?l ?b ?i] =>
      destruct (forEach l b i) as [[absolute percentage] rowLabels] eqn:El
  end.
  intros H. injection H as <-.
  set (w := S (banner_width bannerVars byVar)).
  assert (Hw : length baseValues = w) by apply count_row_length.
  loop_invariant El (rows3_ok w) Hinv.
  - unfold rows3_ok. repeat split; constructor.
  - intros [label data] [[a p] l] Hin Hs.
    rewrite Forall_forall in Hviews. specialize (Hviews _ Hin).
    cbn beta iota in Hviews.
    destruct (0 <? length data); [|exact Hs].
    cbv zeta.
    match goal with
    | |- rows3_ok w (forEachi ?l0 ?b0 ?i0) =>
        apply (@forEachi_invariant _ _ (fun (_ : nat) s => rows3_ok w s) b0 l0 i0)
    end.
    + apply rows3_ok_push; auto; unfold filled; now rewrite repeat_length.
    + intros row i [[a' p'] l'] Hrow Hs'.
      rewrite Forall_forall in Hviews. specialize (Hviews _ Hrow).
      apply rows3_ok_push; auto.
      * match goal with
        | |- length (forEachi ?l1 ?b1 ?i1) = _ =>
            pose proof (@forEachi_invariant _ _
                          (fun k (s : list number) => length s = k) b1 l1 i1) as Hl
        end.
        rewrite Hl; [congruence | reflexivity |].
        intros x k s _ Hk. rewrite push_length. congruence.
      * rewrite length_map. congruence.
  - destruct Hinv as (H1 & H2 & H3 & H4).
    apply well_shaped_intro with (w := w); auto.
    now apply banner_headers_width with (dataMap := dataMap).
Qed.

(** A property kept by every turn that does not throw holds when the loop
    ends without throwing. *)
Lemma forEachi_r_invariant {A St} (P : St -> Prop)
  (body : A -> nat -> St -> result St) l init s :
  P init ->
  (forall x i s0 s1, In x l -> P s0 -> body x i s0 = Ok s1 -> P s1) ->
  forEachi_r l body init = Ok s ->
  P s.
Proof.
  unfold forEachi_r. intros H0 Hstep.
  assert (G : forall l' acc,
            (forall x, In x l' -> In x l) ->
            (forall i s0, acc = Ok (i, s0) -> P s0) ->
            forall i s0,
              fold_left
                (fun acc x =>
                   bind acc (fun '(i, s) =>
                               bind (body x i s) (fun s' => Ok (S i, s'))))
                l' acc = Ok (i, s0) -> P s0).
  { induction l' as [|x l' IH]; intros acc Hin Hacc i s0; cbn [fold_left].
    - apply Hacc.
    - apply IH.
      + intros y Hy. apply Hin. now right.
      + intros j s1. destruct acc as [[k s2]|e]; cbn [bind]; [|discriminate].
        destruct (body x k s2) as [s3|e] eqn:Eb; cbn [bind]; [|discriminate].
        intros E. injection E as <- <-.
        apply (Hstep x k s2 s3); [apply Hin; now left | | exact Eb].
        now apply (Hacc k s2). }
  destruct (fold_left _ l (Ok (0, init))) as [[i s0]|e] eqn:E; cbn [bind];
    [|discriminate].
  intros E'. injection E' as <-.
  apply (G l (Ok (0, init))) with (i := i); auto.
  intros j s1 E1. now injection E1 as <- <-.
Qed.

Lemma createMultiSelectCrossTab_shape dataMap groupName bannerVars
  multiSelectCols allHeaders displayName r :
  createMultiSelectCrossTab Math_exp dataMap groupName bannerVars
    multiSelectCols allHeaders displayName = Ok (Some r) ->
  well_shaped r.
Proof.
  unfold createMultiSelectCrossTab. cbv zeta.
  destruct (banner_headers bannerVars dataMap) as [hs byVar] eqn:Eb.
  match goal with
  | |- context [forEachi_r ?l ?b ?i] =>
      destruct (forEachi_r l b i) as [[[absolute percentage] rowLabels]|e] eqn:El;
      [ pose proof (@forEachi_r_invariant _ _
                      (rows3_ok (S (banner_width bannerVars byVar))) b l i
                      (absolute, percentage, rowLabels)) as Hinv
      | discriminate ]
  end.
  cbn [bind]. intros H. injection H as <-.
  set (w := S (banner_width bannerVars byVar)) in *.
  assert (Hs : rows3_ok w (absolute, percentage, rowLabels)).
  { eapply Hinv; [| |exact El].
    - unfold rows3_ok. repeat split; constructor.
    - intros col i [[a p] l] s1 _ Hs0.
      destruct (nth_error dataMap 0); [|discriminate].
      destruct (negb _).
      + intros E. now injection E as <-.
      + intros E. injection E as <-. apply rows3_ok_push; auto.
        * apply count_row_length.
        * apply percent_row_length. }
  destruct Hs as (H1 & H2 & H3 & H4).
  apply well_shaped_intro with (w := w).
  - now apply banner_headers_width with (dataMap := dataMap).
  - apply count_row_length.
  - rewrite !push_length. now f_equal.
  - rewrite !push_length. now f_equal.
  - apply Forall_push; [exact H3 | apply count_row_length].
  - apply Forall_push; [exact H4|].
    rewrite length_map. apply count_row_length.
Qed.

End WithExp.

End ShapeFacts.

Module GenerateFacts.
Import JS Types Stats CrossTab StatsSpec CrossTabSpec.
Import LoopFacts StatsFacts CrossTabFacts ShapeFacts.

Lemma forEach_r_cons {A St} (body : A -> St -> result St) x l init :
  forEach_r (x :: l) body init
  = match body x init with
    | Ok s => forEach_r l body s
    | Throw e => Throw e
    end.
Proof.
  unfold forEach_r. cbn [fold_left bind].
  destruct (body x init) as [s|e]; [reflexivity|].
  induction l as [|y l IH]; [reflexivity | exact IH].
Qed.

Lemma forEach_r_invariant {A St} (P : St -> Prop)
  (body : A -> St -> result St) l :
  (forall x s0 s1, In x l -> P s0 -> body x s0 = Ok s1 -> P s1) ->
  forall init s, P init -> forEach_r l body init = Ok s -> P s.
Proof.
  induction l as [|x l IH]; intros Hstep init s Hinit.
  - cbn. intros E. now injection E as <-.
  - rewrite forEach_r_cons. destruct (body x init) as [s1|e] eqn:E; [|discriminate].
    apply IH.
    + intros y s0 s2 Hy. apply Hstep. now right.
    + apply (Hstep x init s1); auto. now left.
Qed.

(** Turns that return their state unchanged can be left out. *)
Lemma forEach_r_skip {A St} (body : A -> St -> result St) (keep : A -> bool) l :
  (forall x s, keep x = false -> body x s = Ok s) ->
  forall init, forEach_r l body init = forEach_r (filter keep l) body init.
Proof.
  intros Hskip. induction l as [|x l IH]; intros init; [reflexivity|].
  cbn [filter]. destruct (keep x) eqn:Ek.
  - rewrite !forEach_r_cons. destruct (body x init); [apply IH | reflexivity].
  - rewrite forEach_r_cons, Hskip by exact Ek. apply IH.
Qed.

Lemma Forall_push_result (P : CrossTabResult -> Prop) results r :
  Forall P results ->
  (forall r', r = Some r' -> P r') ->
  Forall P (push_result results r).
Proof.
  intros Hr Hp. destruct r as [r'|]; cbn [push_result]; [|exact Hr].
  apply Forall_push; auto.
Qed.

Section WithRuntime.

Variable Math_exp : number -> number.
Variable Number : string -> number.

Lemma table_step_shape data config dataMap ranks tableVar results results' :
  Forall well_shaped results ->
  table_step Math_exp data config dataMap ranks tableVar results = Ok results' ->
  Forall well_shaped results'.
Proof.
  intros Hres. unfold table_step. cbv zeta.
  destruct (arr_includes (obj_keys (multiSelectGroups config)) tableVar).
  { destruct (obj_get (multiSelectGroups config) tableVar) as [cols|].
    - destruct (0 <? length cols).
      + destruct (createMultiSelectCrossTab _ _ _ _ _ _ _) as [r|e] eqn:E;
          cbn [bind]; [|discriminate].
        intros H. injection H as <-. apply Forall_push_result; auto.
        intros r' ->. eapply createMultiSelectCrossTab_shape; eauto.
      + intros H. now injection H as <-.
    - intros H. now injection H as <-. }
  destruct (arr_includes (obj_keys (customVariables config)) tableVar).
  { intros H. injection H as <-. exact Hres. }
  destruct (existsb _ ranks).
  { destruct (find _ ranks) as [rs|].
    - intros H. injection H as <-. apply Forall_push_result; auto.
      intros r'. apply createRankQuestionCrossTab_shape.
    - intros H. now injection H as <-. }
  destruct (arr_includes (headers data) tableVar).
  - intros H. injection H as <-. apply Forall_push_result; auto.
    intros r'. apply createRegularCrossTab_shape.
  - intros H. now injection H as <-.
Qed.

(** ** Custom variables *)

Lemma table_step_custom data config dataMap ranks tableVar results :
  names_custom_variable config tableVar = true ->
  table_step Math_exp data config dataMap ranks tableVar results = Ok results.
Proof.
  unfold names_custom_variable, table_step. cbv zeta.
  intros H. apply andb_true_iff in H as [Hc Hm].
  apply negb_true_iff in Hm. now rewrite Hm, Hc.
Qed.

(** ** A battery with no data row *)

Lemma fold_bind_throw {A St} (f : A -> St -> result St) l e :
  fold_left (fun acc x => bind acc (f x)) l (Throw e) = Throw e.
Proof. induction l as [|x l IH]; [reflexivity | exact IH]. Qed.

Lemma createMultiSelectCrossTab_no_row groupName bannerVars multiSelectCols
  allHeaders displayName :
  multiSelectCols <> [] ->
  createMultiSelectCrossTab Math_exp [] groupName bannerVars multiSelectCols
    allHeaders displayName = Throw TypeError.
Proof.
  intros Hne. destruct multiSelectCols as [|col cols]; [congruence|].
  unfold createMultiSelectCrossTab. cbv zeta.
  destruct (banner_headers bannerVars []) as [hs byVar].
  unfold forEachi_r. cbn [fold_left nth_error bind].
  now rewrite fold_bind_throw.
Qed.

Lemma forEachi_r_total {A St} (body : A -> nat -> St -> result St) l :
  (forall x i s, exists s', body x i s = Ok s') ->
  forall init, exists s, forEachi_r l body init = Ok s.
Proof.
  intros Hok. unfold forEachi_r.
  assert (G : forall l i s, exists j s',
             fold_left
               (fun acc x =>
                  bind acc (fun '(i, s) =>
                              bind (body x i s) (fun s' => Ok (S i, s'))))
               l (Ok (i, s)) = Ok (j, s')).
  { clear l. induction l as [|x l IH]; intros i s; cbn [fold_left bind].
    - now exists i, s.
    - destruct (Hok x i s) as [s' ->]. cbn [bind]. apply IH. }
  intros init. destruct (G l 0 init) as (j & s' & ->). cbn [bind]. now exists s'.
Qed.

Lemma createMultiSelectCrossTab_some_row dataMap groupName bannerVars
  multiSelectCols allHeaders displayName :
  dataMap <> [] ->
  exists r,
    createMultiSelectCrossTab Math_exp dataMap groupName bannerVars
      multiSelectCols allHeaders displayName = Ok (Some r).
Proof.
  intros Hne. destruct dataMap as [|firstRow rest]; [congruence|].
  unfold createMultiSelectCrossTab. cbv zeta.
  destruct (banner_headers bannerVars (firstRow :: rest)) as [hs byVar].
  match goal with
  | |- context [forEachi_r ?l ?b ?i] =>
      destruct (@forEachi_r_total _ _ b l) with (init := i) as [[[a p] rl] ->]
  end.
  - intros col i [[a p] rl]. cbn [nth_error].
    destruct (negb _); eexists; reflexivity.
  - cbn [bind]. eexists. reflexivity.
Qed.

(** With no data row a step ends normally or throws the TypeError. *)
Lemma table_step_no_row data config ranks tableVar results :
  (exists results',
     table_step Math_exp data config [] ranks tableVar results = Ok results')
  \/ table_step Math_exp data config [] ranks tableVar results = Throw TypeError.
Proof.
  unfold table_step. cbv zeta.
  destruct (arr_includes (obj_keys (multiSelectGroups config)) tableVar).
  { destruct (obj_get (multiSelectGroups config) tableVar) as [cols|];
      [|left; eexists; reflexivity].
    destruct (0 <? length cols) eqn:El; [|left; eexists; reflexivity].
    right. rewrite createMultiSelectCrossTab_no_row; [reflexivity|].
    intros ->. discriminate. }
  destruct (arr_includes (obj_keys (customVariables config)) tableVar);
    [left; eexists; reflexivity|].
  destruct (existsb _ ranks).
  { destruct (find _ ranks); left; eexists; reflexivity. }
  destruct (arr_includes (headers data) tableVar); left; eexists; reflexivity.
Qed.

Lemma In_insert_by {A} (le : A -> A -> bool) x y l :
  In y (insert_by le x l) <-> y = x \/ In y l.
Proof.
  induction l as [|z l IH]; cbn [insert_by].
  - cbn. intuition.
  - destruct (le x z); cbn [In]; [intuition|]. rewrite IH. intuition.
Qed.

Lemma In_sort_by {A} (le : A -> A -> bool) y l :
  In y (sort_by le l) <-> In y l.
Proof.
  unfold sort_by. induction l as [|x l IH]; cbn [fold_right]; [reflexivity|].
  rewrite In_insert_by, IH. cbn. intuition.
Qed.

Lemma In_own_entries {V} (o : obj V) kv : In kv (own_entries o) <-> In kv o.
Proof.
  unfold own_entries. rewrite in_app_iff, In_sort_by, !filter_In.
  destruct (array_index (fst kv)); intuition congruence.
Qed.

Lemma obj_get_In {V} (o : obj V) k v : obj_get o k = Some v -> In (k, v) o.
Proof.
  induction o as [|[k' v'] o IH]; cbn [obj_get]; [discriminate|].
  destruct (String.eqb_spec k k') as [->|Hk].
  - intros E. injection E as <-. now left.
  - intros E. right. auto.
Qed.

Lemma obj_get_keys {V} (o : obj V) k v :
  obj_get o k = Some v -> arr_includes (obj_keys o) k = true.
Proof.
  intros H. apply obj_get_In, In_own_entries in H.
  unfold arr_includes, obj_keys. apply existsb_exists.
  exists k. split; [|apply String.eqb_refl].
  apply in_map_iff. now exists (k, v).
Qed.

Lemma table_step_battery_no_row data config ranks tableVar cols results :
  obj_get (multiSelectGroups config) tableVar = Some cols ->
  cols <> [] ->
  table_step Math_exp data config [] ranks tableVar results = Throw TypeError.
Proof.
  intros Hget Hne. unfold table_step. cbv zeta.
  rewrite (obj_get_keys _ _ Hget), Hget.
  destruct cols as [|c cols]; [congruence|]. cbn [length Nat.ltb Nat.leb].
  rewrite createMultiSelectCrossTab_no_row by discriminate. reflexivity.
Qed.

Lemma forEach_r_throws data config ranks tableVar l :
  In tableVar l ->
  (forall results,
     table_step Math_exp data config [] ranks tableVar results = Throw TypeError) ->
  forall init,
    forEach_r l (table_step Math_exp data config [] ranks) init = Throw TypeError.
Proof.
  intros Hin Hthrow. induction l as [|x l IH]; [contradiction|].
  intros init. rewrite forEach_r_cons.
  destruct (table_step_no_row data config ranks x init) as [[s E]|E]; rewrite E.
  - destruct Hin as [->|Hin]; [|now apply IH].
    rewrite Hthrow in E. discriminate.
  - reflexivity.
Qed.

Lemma applyFilters_no_row data flts :
  rows data = [] -> rows (applyFilters Number data flts) = [].
Proof.
  intros H. unfold applyFilters.
  destruct (length (obj_keys flts) =? 0); [exact H|].
  cbn [rows]. now rewrite H.
Qed.

Lemma generateCrossTabs_battery_no_row data config tableVar cols :
  rows data = [] ->
  In tableVar (tableVariables config) ->
  obj_get (multiSelectGroups config) tableVar = Some cols ->
  cols <> [] ->
  generateCrossTabs Math_exp Number data config = Throw TypeError.
Proof.
  intros Hrows Hin Hget Hne. unfold generateCrossTabs. cbv zeta.
  rewrite applyFilters_no_row by exact Hrows.
  unfold build_dataMap. cbn [map].
  apply forEach_r_throws with (tableVar := tableVar); auto.
  intros results. now apply table_step_battery_no_row with (cols := cols).
Qed.

End WithRuntime.

End GenerateFacts.

Module PercentFacts.
Import JS Types Stats CrossTab StatsSpec CrossTabSpec.
Import LoopFacts StatsFacts CrossTabFacts.

(** [base === 0] excludes [base > 0]. *)
Lemma zero_not_positive (base : number) :
  PrimFloat.eqb base 0 = true -> PrimFloat.ltb 0 base = false.
Proof.
  rewrite FloatAxioms.eqb_spec, FloatAxioms.ltb_spec.
  change (Prim2SF 0) with (S754_zero false).
  destruct (Prim2SF base) as [s| s | | s m e]; try destruct s; cbn; congruence.
Qed.

Lemma percent_of_zero_base cnt base :
  PrimFloat.eqb base 0 = true -> percent_of cnt base = 0%float.
Proof. intros H. unfold percent_of. now rewrite (zero_not_positive H). Qed.

Lemma percent_label_zero : percent_label 0%float = "0%"%string.
Proof. reflexivity. Qed.

Lemma banner_columns_length bannerVars byVar :
  length (banner_columns bannerVars byVar) = banner_width bannerVars byVar.
Proof.
  unfold banner_columns, banner_width.
  induction bannerVars as [|v vars IH]; [reflexivity|].
  cbn [flat_map]. now rewrite !length_app, length_map, IH.
Qed.

(** The nested banner loops are one loop over the banner columns. *)
Lemma forEach_banner_columns {St} bannerVars byVar
  (body : string -> string -> St -> St) init :
  forEach_banner bannerVars byVar body init
  = forEach (banner_columns bannerVars byVar)
            (fun '(bannerVar, bannerVal) => body bannerVar bannerVal) init.
Proof.
  unfold forEach_banner, banner_columns. revert init.
  induction bannerVars as [|v vars IH]; intros init; [reflexivity|].
  rewrite forEach_cons, IH. cbn [flat_map]. rewrite forEach_app. f_equal.
  generalize (banner_values byVar v) as vals. clear.
  intros vals. revert init.
  induction vals as [|x vals IH]; intros init; [reflexivity|].
  cbn [map]. rewrite !forEach_cons. apply IH.
Qed.

Lemma forEach_ext {A St} (f g : A -> St -> St) l :
  (forall x s, f x s = g x s) ->
  forall init, forEach l f init = forEach l g init.
Proof.
  intros H. induction l as [|x l IH]; intros init; [reflexivity|].
  rewrite !forEach_cons, H. apply IH.
Qed.

Lemma count_row_eq bannerVars byVar total banner_count :
  count_row bannerVars byVar total banner_count
  = total :: map (fun '(bannerVar, bannerVal) => banner_count bannerVar bannerVal)
                 (banner_columns bannerVars byVar).
Proof.
  unfold count_row. rewrite forEach_banner_columns.
  rewrite forEach_ext
    with (g := fun c absRow =>
                 push absRow
                   ((fun '(bannerVar, bannerVal) => banner_count bannerVar bannerVal) c))
    by (now intros [bv bval] s).
  now rewrite forEach_push_map.
Qed.

(** The percentage loop reads column [colIndex] of the bases and of the
    counts. *)
Lemma percent_loop {A} (F : nat -> string) (l : list A) :
  forall pctRow colIndex,
    forEach l (fun _ '(pctRow, colIndex) => (push pctRow (F colIndex), S colIndex))
            (pctRow, colIndex)
    = (pctRow ++ map F (seq colIndex (length l)), colIndex + length l).
Proof.
  induction l as [|x l IH]; intros pctRow colIndex.
  - cbn. now rewrite app_nil_r, Nat.add_0_r.
  - rewrite forEach_cons, IH. unfold push. cbn [length seq map].
    rewrite <- app_assoc. cbn [app]. f_equal. lia.
Qed.

Lemma percent_row_eq bannerVars byVar baseValues absRow totalCount totalBase :
  percent_row bannerVars byVar baseValues absRow totalCount totalBase
  = percent_label (percent_of totalCount totalBase)
    :: map (fun colIndex =>
              percent_label
                (percent_of (nth colIndex absRow undefined_number)
                            (nth colIndex baseValues undefined_number)))
           (seq 1 (banner_width bannerVars byVar)).
Proof.
  unfold percent_row. cbv zeta. rewrite forEach_banner_columns.
  rewrite forEach_ext
    with (g := fun (_ : string * string) '(pctRow, colIndex) =>
                 (push pctRow
                    (percent_label
                       (percent_of (nth colIndex absRow undefined_number)
                                   (nth colIndex baseValues undefined_number))),
                  S colIndex))
    by (now intros [bv bval] [p c]).
  rewrite (percent_loop
             (fun colIndex =>
                percent_label
                  (percent_of (nth colIndex absRow undefined_number)
                              (nth colIndex baseValues undefined_number)))).
  cbn [fst]. now rewrite banner_columns_length.
Qed.

(** A cell of [pctRow] whose base is zero shows "0%". *)
Lemma percent_row_zero_base bannerVars byVar total banner_base absRow
  totalCount j :
  let baseValues := count_row bannerVars byVar total banner_base in
  j < length baseValues ->
  PrimFloat.eqb (nth j baseValues undefined_number) 0 = true ->
  nth j (percent_row bannerVars byVar baseValues absRow totalCount total) ""%string
  = "0%"%string.
Proof.
  intros baseValues Hj Hz. rewrite percent_row_eq.
  match goal with |- nth _ (_ :: map ?f _) _ = _ => set (F := f) end.
  unfold baseValues in Hj. rewrite count_row_length in Hj.
  destruct j as [|j].
  - cbn [nth]. unfold baseValues in Hz. rewrite count_row_eq in Hz.
    cbn [nth] in Hz. now rewrite percent_of_zero_base.
  - cbn [nth].
    rewrite nth_indep with (d' := F 0) by (rewrite length_map, length_seq; lia).
    rewrite (map_nth F), seq_nth by lia.
    unfold F. cbn [Nat.add]. now rewrite percent_of_zero_base.
Qed.

Section WithExp.

Variable Math_exp : number -> number.

(** The two matrices built by the category loop of
    [createRegularCrossTab]. *)
Lemma pair_loop_map {A B C} (fa : A -> B) (fp : A -> C) l :
  forall a p,
    forEach l (fun x '(a, p) => (push a (fa x), push p (fp x))) (a, p)
    = (a ++ map fa l, p ++ map fp l).
Proof.
  induction l as [|x l IH]; intros a p.
  - cbn. now rewrite !app_nil_r.
  - rewrite forEach_cons, IH. unfold push. cbn [map].
    now rewrite <- !app_assoc.
Qed.

Lemma createRegularCrossTab_zero_base dataMap tableVar bannerVars qt allHeaders
  displayName r i j :
  QuestionType_eqb qt open_ended = false ->
  createRegularCrossTab Math_exp dataMap tableVar bannerVars qt allHeaders
    displayName = Some r ->
  S i < length (rowLabels r) ->
  j < length (baseValues r) ->
  PrimFloat.eqb (nth j (baseValues r) undefined_number) 0 = true ->
  nth j (nth i (percentage r) []) ""%string = "0%"%string.
Proof.
  intros Hqt. unfold createRegularCrossTab. rewrite Hqt. cbv zeta.
  destruct (length _ =? 0); [discriminate|].
  destruct (banner_headers bannerVars dataMap) as [hs byVar] eqn:Eb.
  rewrite pair_loop_map
    with (fa := fun tableVal =>
                  count_row bannerVars byVar
                    (count (fun row => String.eqb (cell_text row tableVar) tableVal) dataMap)
                    (fun bannerVar bannerVal =>
                       count (fun row => String.eqb (cell_text row tableVar) tableVal
                                         && String.eqb (cell_text row bannerVar) bannerVal)
                             dataMap)).
  intros H. injection H as <-. cbn [rowLabels baseValues percentage app].
  rewrite length_app. cbn [length]. intros Hi Hj Hz.
  unfold push. rewrite app_nth1 by (rewrite length_map; lia).
  match goal with
  | |- nth j (nth i (map ?f ?l) []) _ = _ =>
      rewrite nth_indep with (d' := f ""%string) by (rewrite length_map; lia);
      rewrite (map_nth f)
  end.
  now apply percent_row_zero_base.
Qed.

(** The last row, Total, is [100%] in every column. *)
Lemma createRegularCrossTab_total_row dataMap tableVar bannerVars qt allHeaders
  displayName r :
  QuestionType_eqb qt open_ended = false ->
  createRegularCrossTab Math_exp dataMap tableVar bannerVars qt allHeaders
    displayName = Some r ->
  nth (length (rowLabels r) - 1) (percentage r) []
  = map (fun _ => "100%"%string) (baseValues r).
Proof.
  intros Hqt. unfold createRegularCrossTab. rewrite Hqt. cbv zeta.
  destruct (length _ =? 0); [discriminate|].
  destruct (banner_headers bannerVars dataMap) as [hs byVar] eqn:Eb.
  rewrite pair_loop_map
    with (fa := fun tableVal =>
                  count_row bannerVars byVar
                    (count (fun row => String.eqb (cell_text row tableVar) tableVal) dataMap)
                    (fun bannerVar bannerVal =>
                       count (fun row => String.eqb (cell_text row tableVar) tableVal
                                         && String.eqb (cell_text row bannerVar) bannerVal)
                             dataMap)).
  intros H. injection H as <-. cbn [rowLabels baseValues percentage app].
  rewrite length_app. cbn [length]. unfold push.
  rewrite app_nth2 by (rewrite length_map; lia).
  rewrite length_map.
  replace (_ + 1 - 1 - _) with 0 by lia. reflexivity.
Qed.

End WithExp.

End PercentFacts.

(* ================================================================== *)
(** * Facts about sorting and about the matcher *)
(* ================================================================== *)

Module SortFacts.
Import JS.

Section Sorting.

Variable A : Type.
Variable le : A -> A -> bool.
Hypothesis le_total : forall x y, le x y = true \/ le y x = true.
Hypothesis le_trans : forall x y z, le x y = true -> le y z = true -> le x z = true.
Hypothesis le_antisym : forall x y, le x y = true -> le y x = true -> x = y.

Let R (x y : A) : Prop := le x y = true.

Lemma insert_by_perm x l : Permutation (insert_by le x l) (x :: l).
Proof.
  induction l as [|y l IH]; cbn [insert_by]; [reflexivity|].
  destruct (le x y); [reflexivity|].
  rewrite IH. apply perm_swap.
Qed.

Lemma sort_by_perm l : Permutation (sort_by le l) l.
Proof.
  induction l as [|x l IH]; cbn [sort_by fold_right]; [reflexivity|].
  fold (sort_by le l). rewrite insert_by_perm. now constructor.
Qed.

Lemma insert_by_sorted x l :
  StronglySorted R l -> StronglySorted R (insert_by le x l).
Proof.
  induction 1 as [|y l Hs IH Hy]; cbn [insert_by].
  - repeat constructor.
  - destruct (le x y) eqn:E.
    + constructor; [now constructor|].
      constructor; [exact E|].
      eapply Forall_impl; [|exact Hy]. intros z Hz. eapply le_trans; eauto.
    + constructor; [exact IH|].
      assert (Hyx : R y x) by (destruct (le_total x y); [congruence | assumption]).
      eapply Permutation_Forall; [symmetry; apply insert_by_perm|].
      now constructor.
Qed.

Lemma sort_by_sorted l : StronglySorted R (sort_by le l).
Proof.
  induction l as [|x l IH]; cbn [sort_by fold_right]; [constructor|].
  now apply insert_by_sorted.
Qed.

Lemma sorted_perm_unique l :
  forall l', StronglySorted R l -> StronglySorted R l' -> Permutation l l' ->
             l = l'.
Proof.
  induction l as [|x l IH]; intros l' Hl Hl' Hp.
  - now apply Permutation_nil in Hp.
  - destruct l' as [|y l'];
      [symmetry in Hp; now apply Permutation_nil in Hp|].
    inversion Hl as [|? ? Hsl Hx]; subst.
    inversion Hl' as [|? ? Hsl' Hy]; subst.
    assert (Exy : x = y).
    { assert (Hin1 : In x (y :: l')) by (eapply Permutation_in; [exact Hp | now left]).
      assert (Hin2 : In y (x :: l))
        by (eapply Permutation_in; [symmetry; exact Hp | now left]).
      destruct Hin1 as [->|Hin1]; [reflexivity|].
      destruct Hin2 as [->|Hin2]; [reflexivity|].
      rewrite Forall_forall in Hx, Hy.
      apply le_antisym; [now apply Hx | now apply Hy]. }
    subst y. f_equal. apply IH; auto.
    now apply Permutation_cons_inv in Hp.
Qed.

(** [sort] returns the one ascending arrangement of its argument. *)
Lemma sort_by_unique l l' :
  Permutation l l' -> StronglySorted R l' -> sort_by le l = l'.
Proof.
  intros Hp Hs. apply sorted_perm_unique; [apply sort_by_sorted | exact Hs|].
  rewrite sort_by_perm. exact Hp.
Qed.

End Sorting.

(** ** Code-unit order on strings *)

Lemma ascii_compare_refl c : Ascii.compare c c = Eq.
Proof. unfold Ascii.compare. apply N.compare_refl. Qed.

Lemma string_compare_cons c d s t :
  String.compare (String c s) (String d t)
  = match Ascii.compare c d with
    | Eq => String.compare s t
    | Lt => Lt
    | Gt => Gt
    end.
Proof. reflexivity. Qed.

Lemma string_compare_refl s : String.compare s s = Eq.
Proof.
  induction s as [|c s IH]; [reflexivity|].
  now rewrite string_compare_cons, ascii_compare_refl.
Qed.

Lemma string_compare_prefix p a b :
  String.compare (p ++ a) (p ++ b) = String.compare a b.
Proof.
  induction p as [|c p IH]; [reflexivity|].
  cbn [append]. rewrite string_compare_cons, ascii_compare_refl. exact IH.
Qed.

Lemma string_compare_lt_trans a :
  forall b c, String.compare a b = Lt -> String.compare b c = Lt ->
              String.compare a c = Lt.
Proof.
  induction a as [|x a IH]; intros [|y b] [|z c]; try discriminate; auto.
  rewrite !string_compare_cons. unfold Ascii.compare.
  destruct (N.compare (N_of_ascii x) (N_of_ascii y)) eqn:Exy; try discriminate;
    destruct (N.compare (N_of_ascii y) (N_of_ascii z)) eqn:Eyz;
    try discriminate; intros H1 H2.
  - apply N.compare_eq_iff in Exy, Eyz. rewrite Exy, Eyz, N.compare_refl.
    eapply IH; eauto.
  - apply N.compare_eq_iff in Exy. now rewrite Exy, Eyz.
  - apply N.compare_eq_iff in Eyz. now rewrite <- Eyz, Exy.
  - apply N.compare_lt_iff in Exy. apply N.compare_lt_iff in Eyz.
    replace (N.compare (N_of_ascii x) (N_of_ascii z)) with Lt; [reflexivity|].
    symmetry. apply N.compare_lt_iff. eapply N.lt_trans; eauto.
Qed.

Lemma string_leb_lt_or_eq a b :
  String.leb a b = true <-> String.compare a b = Lt \/ a = b.
Proof.
  unfold String.leb. split.
  - destruct (String.compare a b) eqn:E; try discriminate; auto.
    right. now apply String.compare_eq_iff.
  - intros [->| ->]; [reflexivity|].
    now rewrite string_compare_refl.
Qed.

Lemma string_leb_trans a b c :
  String.leb a b = true -> String.leb b c = true -> String.leb a c = true.
Proof.
  rewrite !string_leb_lt_or_eq. intros [H1| ->] [H2| ->]; auto.
  left. eapply string_compare_lt_trans; eauto.
Qed.

Lemma string_ltb_leb a b : String.ltb a b = true -> String.leb a b = true.
Proof.
  unfold String.ltb, String.leb. now destruct (String.compare a b).
Qed.

Lemma string_ltb_neq a b : String.ltb a b = true -> String.eqb b a = false.
Proof.
  unfold String.ltb. intros H. apply String.eqb_neq. intros ->.
  rewrite string_compare_refl in H. discriminate.
Qed.

Lemma string_ltb_trans a b c :
  String.ltb a b = true -> String.ltb b c = true -> String.ltb a c = true.
Proof.
  unfold String.ltb.
  destruct (String.compare a b) eqn:E1; try discriminate.
  destruct (String.compare b c) eqn:E2; try discriminate.
  intros _ _. now rewrite (string_compare_lt_trans _ _ _ E1 E2).
Qed.

Lemma string_ltb_prefix p a b : String.ltb (p ++ a) (p ++ b) = String.ltb a b.
Proof. unfold String.ltb. now rewrite string_compare_prefix. Qed.

(** [arr.sort()] on strings returns the ascending arrangement. *)
Lemma sort_strings_unique l l' :
  Permutation l l' ->
  StronglySorted (fun a b => String.leb a b = true) l' ->
  sort_strings l = l'.
Proof.
  intros Hp Hs. unfold sort_strings.
  apply sort_by_unique; auto.
  - apply String.leb_total.
  - apply string_leb_trans.
  - apply String.leb_antisym.
Qed.

Lemma strictly_ascending_sorted l :
  Sorted (fun a b => String.ltb a b = true) l ->
  StronglySorted (fun a b => String.leb a b = true) l.
Proof.
  intros H. apply Sorted_StronglySorted.
  - intros a b c. apply string_leb_trans.
  - induction H as [|x l Hs IH Hx]; constructor; auto.
    destruct Hx; constructor. now apply string_ltb_leb.
Qed.

End SortFacts.

Module RegexFacts.
Import JS Regex RegexSpec.
Local Open Scope string_scope.

Lemma all_chars_impl (p q : ascii -> bool) s :
  (forall c, p c = true -> q c = true) ->
  all_chars p s = true -> all_chars q s = true.
Proof.
  intros Hpq. induction s as [|c s IH]; cbn [all_chars]; [auto|].
  rewrite !andb_true_iff. intros [Hc Hs]. auto.
Qed.

Lemma substring_all s : substring 0 (String.length s) s = s.
Proof.
  induction s as [|c s IH]; [reflexivity|].
  cbn [String.length substring]. now rewrite IH.
Qed.

Lemma substring_prefix a b : substring 0 (String.length a) (a ++ b) = a.
Proof.
  induction a as [|c a IH].
  - cbn. now destruct b.
  - cbn [String.length append substring]. now rewrite IH.
Qed.

Section Matcher.

Variable R : Type.

(** A greedy star runs to the end of a text of [p]-characters when the
    continuation accepts there. *)
Lemma star_greedy_all (p : ascii -> bool) caps (k : cont R) s :
  forall pos x,
    all_chars p s = true ->
    k (pos + String.length s) EmptyString caps = Some x ->
    star_greedy p caps k pos s = Some x.
Proof.
  induction s as [|c s IH]; intros pos x; cbn [all_chars String.length star_greedy].
  - rewrite Nat.add_0_r. auto.
  - rewrite andb_true_iff. intros [Hc Hs] Hk. rewrite Hc.
    rewrite (IH (S pos) x Hs); [reflexivity|].
    now rewrite Nat.add_succ_comm.
Qed.

(** A lazy star steps over the positions at which the continuation
    fails. *)
Lemma star_lazy_skip (p : ascii -> bool) caps (k : cont R) pre rest :
  forall pos,
    all_chars p pre = true ->
    (forall pre1 c t pos',
        pre = pre1 ++ String c t -> k pos' (String c (t ++ rest)) caps = None) ->
    star_lazy p caps k pos (pre ++ rest)
    = star_lazy p caps k (pos + String.length pre) rest.
Proof.
  intros pos Hp Hk. revert pos.
  induction pre as [|c pre IH]; intros pos.
  - cbn [append String.length]. now rewrite Nat.add_0_r.
  - cbn [all_chars] in Hp. apply andb_true_iff in Hp. destruct Hp as [Hc Hp].
    cbn [append String.length star_lazy].
    rewrite (Hk "" c pre pos eq_refl), Hc.
    rewrite IH; [now rewrite Nat.add_succ_comm | exact Hp |].
    intros pre1 c' t pos' E. apply (Hk (String c pre1)). now rewrite E.
Qed.

End Matcher.

(** The search steps over the positions at which no match starts. *)
Lemma search_skip (r : re) pre rest :
  forall pos,
    (forall pre1 c t pos',
        pre = pre1 ++ String c t ->
        m r pos' (String c (t ++ rest)) [] (fun _ _ caps => Some caps) = None) ->
    search r pos (pre ++ rest) = search r (pos + String.length pre) rest.
Proof.
  intros pos Hk. revert pos.
  induction pre as [|c pre IH]; intros pos.
  - cbn [append String.length]. now rewrite Nat.add_0_r.
  - cbn [append String.length search].
    rewrite (Hk "" c pre pos eq_refl).
    rewrite IH; [now rewrite Nat.add_succ_comm|].
    intros pre1 c' t pos' E. apply (Hk (String c pre1)). now rewrite E.
Qed.

Lemma all_suffixes_app p a b :
  all_suffixes p (a ++ b) = true -> all_suffixes p b = true.
Proof.
  induction a as [|c a IH]; [auto|].
  cbn [append all_suffixes]. rewrite andb_true_iff. intros [_ H]. auto.
Qed.

End RegexFacts.

(* ================================================================== *)
(** * Ranking batteries *)
(* ================================================================== *)

Module RankingFacts.
Import JS Regex Types Ranking RegexSpec RankingSpec.
Import LoopFacts SortFacts RegexFacts.
Local Open Scope string_scope.

Lemma underscore_spec c : Ascii.eqb "_" c = is_underscore c.
Proof. destruct c as [[] [] [] [] [] [] [] []]; reflexivity. Qed.

Lemma root_ok_inv root :
  root_ok root = true ->
  root <> "" /\ all_chars is_dot root = true
  /\ all_suffixes (fun t => negb (marks_rank t)) root = true
  /\ trim root = root.
Proof.
  unfold root_ok. rewrite !andb_true_iff. intros [[[Hne Hc] Hs] Ht].
  repeat split; auto.
  - intros ->. discriminate.
  - now apply String.eqb_eq.
Qed.

(** A suffix of a root does not start like a rank marker. *)
Lemma suffix_unmarked root pre1 c t :
  all_suffixes (fun t => negb (marks_rank t)) root = true ->
  root = pre1 ++ String c t ->
  marks_rank (String c t) = false.
Proof.
  intros H E. rewrite E in H. apply all_suffixes_app in H.
  cbn [all_suffixes] in H. apply andb_true_iff in H.
  destruct H as [H _]. now apply negb_true_iff in H.
Qed.

Lemma label_ok_inv label :
  label_ok label = true ->
  label <> "" /\ all_chars is_dot label = true
  /\ all_chars no_underscore label = true /\ trim label = label.
Proof.
  unfold label_ok. rewrite !andb_true_iff. intros [[Hne Hc] Ht].
  repeat split.
  - intros ->. discriminate.
  - revert Hc. apply all_chars_impl. intros c.
    rewrite !andb_true_iff. tauto.
  - revert Hc. apply all_chars_impl. intros c.
    rewrite !andb_true_iff. tauto.
  - now apply String.eqb_eq.
Qed.

(** ** The three patterns on a column header *)

(** Evaluation of the tests on the characters that are known. *)
Ltac eval_char_tests :=
  repeat match goal with
    | |- context [?p (Ascii ?a ?b ?c ?d ?e ?f ?g ?h)] =>
        let t := constr:(p (Ascii a b c d e f g h)) in
        match type of t with
        | bool =>
            let v := eval vm_compute in t in
            match v with
            | true => change t with true
            | false => change t with false
            end
        end
    end.

Ltac run_matcher :=
  repeat (progress (cbn [m seq_re plus lazy_plus chr star_greedy star_lazy
                         search append]; eval_char_tests)).

(** No match of the rank pattern or of the option pattern starts inside
    a root: the text that follows the root starts with an underscore. *)
Lemma rank_pattern_fails R (k : cont R) c t rest pos caps :
  marks_rank (String c t) = false ->
  m rank_pattern pos (String c (t ++ String "_" rest)) caps k = None.
Proof.
  intros H. unfold rank_pattern. cbn [m seq_re plus chr].
  destruct (is_Rr c) eqn:Ec; [|reflexivity].
  destruct t as [|d t].
  - cbn [append]. eval_char_tests. reflexivity.
  - cbn [marks_rank] in H. rewrite Ec in H. cbn [andb] in H.
    apply orb_false_iff in H. destruct H as [Hd Ha].
    cbn [append]. rewrite Hd.
    destruct (Ascii.eqb "a" d); [|reflexivity].
    cbn [andb] in Ha.
    destruct t as [|e t].
    + cbn [append]. eval_char_tests. reflexivity.
    + cbn [append]. rewrite Ha. reflexivity.
Qed.

Lemma option_pattern_fails R (k : cont R) c t rest pos caps :
  marks_rank (String c t) = false ->
  m option_pattern pos (String c (t ++ String "_" rest)) caps k = None.
Proof.
  intros H. unfold option_pattern. cbn [m seq_re plus chr].
  destruct (is_Rr c) eqn:Ec; [|reflexivity].
  destruct t as [|d t].
  - cbn [append]. eval_char_tests. reflexivity.
  - cbn [marks_rank] in H. rewrite Ec in H. cbn [andb] in H.
    apply orb_false_iff in H. destruct H as [Hd Ha].
    cbn [append]. rewrite Hd.
    destruct (Ascii.eqb "a" d); [|reflexivity].
    cbn [andb] in Ha.
    destruct t as [|e t].
    + cbn [append]. eval_char_tests. reflexivity.
    + cbn [append]. rewrite Ha. reflexivity.
Qed.

Lemma first_pattern_root root rank label :
  root_ok root = true -> is_rank rank ->
  exec root_pattern_1 (rank_column root rank label)
  = Some [(1, root)].
Proof.
  intros Hr Hk. apply root_ok_inv in Hr.
  destruct Hr as (Hne & Hdot & Hfree & _).
  destruct root as [|c root]; [congruence|].
  cbn [all_chars] in Hdot. apply andb_true_iff in Hdot.
  destruct Hdot as [Hc Hdot].
  cbn [all_suffixes] in Hfree. apply andb_true_iff in Hfree.
  destruct Hfree as [_ Hfree].
  unfold exec, rank_column.
  cbn [append search].
  unfold root_pattern_1. cbn [seq_re m Nat.eqb lazy_plus]. rewrite Hc.
  cbn [m].
  rewrite star_lazy_skip; auto.
  2:{ (* after an underscore of the root comes no rank marker *)
      intros pre1 c' t pos' E. cbn [m chr].
      destruct (Ascii.eqb "_" c'); [|reflexivity].
      rewrite E in Hfree. apply all_suffixes_app in Hfree.
      cbn [all_suffixes] in Hfree. apply andb_true_iff in Hfree.
      destruct Hfree as [_ Hfree].
      destruct t as [|d t]; [cbn [append]; eval_char_tests; reflexivity|].
      cbn [all_suffixes] in Hfree. apply andb_true_iff in Hfree.
      destruct Hfree as [Hd _]. apply negb_true_iff in Hd.
      cbn [append]. destruct (is_Rr d) eqn:Ed; [|reflexivity].
      destruct t as [|e t]; [cbn [append]; eval_char_tests; reflexivity|].
      cbn [marks_rank] in Hd. rewrite Ed in Hd. cbn [andb] in Hd.
      apply orb_false_iff in Hd. destruct Hd as [_ Ha].
      cbn [append]. destruct (Ascii.eqb "a" e); [|reflexivity].
      cbn [andb] in Ha.
      destruct t as [|f t]; [cbn [append]; eval_char_tests; reflexivity|].
      cbn [append]. rewrite Ha. reflexivity. }
  destruct Hk as [-> | ->]; cbn; rewrite !substring_prefix;
    vm_compute; reflexivity.
Qed.

Lemma extractRankQuestionRoot_column root rank label :
  root_ok root = true -> is_rank rank ->
  extractRankQuestionRoot (rank_column root rank label) = root.
Proof.
  intros Hr Hk. unfold extractRankQuestionRoot, root_patterns.
  cbn [first_root]. rewrite first_pattern_root by assumption.
  cbn [group Nat.eqb]. apply root_ok_inv in Hr. now destruct Hr as (_ & _ & _ & ->).
Qed.

Lemma rank_pattern_column root rank label :
  root_ok root = true -> is_rank rank ->
  exec rank_pattern (rank_column root rank label) = Some [(1, rank)].
Proof.
  intros Hr Hk. apply root_ok_inv in Hr.
  destruct Hr as (_ & _ & Hfree & _).
  unfold exec, rank_column.
  rewrite search_skip.
  2:{ intros pre1 c t pos' E. apply rank_pattern_fails.
      eapply suffix_unmarked; eassumption. }
  generalize (0 + String.length root). intros pos.
  destruct Hk as [-> | ->];
    cbv -[Nat.sub substring];
    match goal with
    | |- context [?a - ?b] => replace (a - b) with 1 by lia
    end; reflexivity.
Qed.

Lemma option_pattern_column root rank label :
  root_ok root = true -> is_rank rank -> label_ok label = true ->
  exec option_pattern (rank_column root rank label) = Some [(1, label)].
Proof.
  intros Hr Hk Hl. apply root_ok_inv in Hr. apply label_ok_inv in Hl.
  destruct Hr as (_ & _ & Hfree & _).
  destruct Hl as (Hne & Hdot & _ & _).
  unfold exec, rank_column.
  rewrite search_skip.
  2:{ intros pre1 c t pos' E. apply option_pattern_fails.
      eapply suffix_unmarked; eassumption. }
  generalize (0 + String.length root). intros pos.
  destruct label as [|c label]; [congruence|].
  cbn [all_chars] in Hdot. apply andb_true_iff in Hdot. destruct Hdot as [Hc Hdot].
  destruct Hk as [-> | ->]; unfold option_pattern; run_matcher;
    rewrite Hc;
    (erewrite star_greedy_all; [| exact Hdot | cbv beta iota; reflexivity]);
    cbv beta iota;
    match goal with
    | |- context [?a - ?b] =>
        replace (a - b) with (String.length (String c label))
          by (cbn [String.length]; lia)
    end;
    now rewrite substring_all.
Qed.

Lemma drop_while_end_id (p : ascii -> bool) s :
  all_chars (fun c => negb (p c)) s = true -> drop_while_end p s = s.
Proof.
  induction s as [|c s IH]; [reflexivity|].
  cbn [all_chars drop_while_end]. rewrite andb_true_iff. intros [Hc Hs].
  rewrite (IH Hs). destruct s; [|reflexivity].
  now destruct (p c).
Qed.

Lemma clean_option_label label :
  label_ok label = true -> clean_option label = label.
Proof.
  intros Hl. apply label_ok_inv in Hl. destruct Hl as (_ & _ & Hus & Ht).
  unfold clean_option.
  assert (E1 : drop_while is_underscore label = label).
  { destruct label as [|c l]; [reflexivity|].
    cbn [all_chars] in Hus. apply andb_true_iff in Hus.
    destruct Hus as [Hc _]. unfold no_underscore in Hc.
    cbn [drop_while]. now destruct (is_underscore c). }
  rewrite E1, drop_while_end_id by exact Hus.
  assert (E2 : map_chars (fun c => if is_underscore c then " "%char else c) label
               = label).
  { clear E1 Ht. induction label as [|c l IH]; [reflexivity|].
    cbn [all_chars] in Hus. apply andb_true_iff in Hus.
    destruct Hus as [Hc Hl]. unfold no_underscore in Hc.
    cbn [map_chars]. rewrite (IH Hl). now destruct (is_underscore c). }
  now rewrite E2.
Qed.

Lemma label_not_empty label :
  label_ok label = true -> is_empty_string label = false.
Proof.
  intros Hl. apply label_ok_inv in Hl. destruct Hl as (Hne & _).
  now destruct label.
Qed.

(** ** The steps of the detection on a battery of two ranks *)

Lemma extractOptions_columns root rank o1 o2 o3 :
  root_ok root = true -> is_rank rank ->
  label_ok o1 = true -> label_ok o2 = true -> label_ok o3 = true ->
  String.ltb o1 o2 = true -> String.ltb o2 o3 = true ->
  extractOptionsFromRankGroup
    [rank_column root rank o1; rank_column root rank o2;
     rank_column root rank o3]
  = [o1; o2; o3].
Proof.
  intros Hr Hk H1 H2 H3 L12 L23.
  pose proof (string_ltb_trans _ _ _ L12 L23) as L13.
  unfold extractOptionsFromRankGroup, forEach. cbn [fold_left].
  rewrite !option_pattern_column by assumption.
  cbn [group Nat.eqb]. rewrite !clean_option_label by assumption.
  rewrite !label_not_empty by assumption.
  unfold push. cbn [arr_includes existsb negb andb app].
  rewrite (string_ltb_neq _ _ L12). cbn [orb negb app existsb].
  rewrite (string_ltb_neq _ _ L13), (string_ltb_neq _ _ L23).
  reflexivity.
Qed.

Lemma groupColumnsByRank_two (a b c d e f : string) :
  exec rank_pattern a = Some [(1, "1")] ->
  exec rank_pattern b = Some [(1, "1")] ->
  exec rank_pattern c = Some [(1, "1")] ->
  exec rank_pattern d = Some [(1, "2")] ->
  exec rank_pattern e = Some [(1, "2")] ->
  exec rank_pattern f = Some [(1, "2")] ->
  groupColumnsByRank [a; b; c; d; e; f]
  = [sort_strings [a; b; c]; sort_strings [d; e; f]].
Proof.
  intros Ha Hb Hc Hd He Hf.
  unfold groupColumnsByRank, forEach. cbn [fold_left].
  rewrite Ha, Hb, Hc, Hd, He, Hf.
  vm_compute. reflexivity.
Qed.

Lemma columns_ascending root o1 o2 o3 :
  String.ltb o1 o2 = true -> String.ltb o2 o3 = true ->
  Sorted (fun a b => String.ltb a b = true)
    [rank_column root "1" o1; rank_column root "1" o2; rank_column root "1" o3;
     rank_column root "2" o1; rank_column root "2" o2; rank_column root "2" o3].
Proof.
  intros L12 L23. unfold rank_column.
  repeat (constructor; [|first [constructor | idtac]]);
    try (now constructor);
    rewrite string_ltb_prefix;
    first [ exact (eq_trans (string_ltb_prefix "_Rank1_" _ _) L12)
          | exact (eq_trans (string_ltb_prefix "_Rank1_" _ _) L23)
          | exact (eq_trans (string_ltb_prefix "_Rank2_" _ _) L12)
          | exact (eq_trans (string_ltb_prefix "_Rank2_" _ _) L23)
          | reflexivity ].
Qed.

Lemma Sorted_tail3 {A} (R : A -> A -> Prop) a b c l :
  Sorted R (a :: b :: c :: l) -> Sorted R l.
Proof.
  intros H. do 3 (apply Sorted_inv in H; destruct H as [H _]). exact H.
Qed.

Lemma Sorted_head3 {A} (R : A -> A -> Prop) a b c l :
  Sorted R (a :: b :: c :: l) -> Sorted R [a; b; c].
Proof.
  intros H.
  apply Sorted_inv in H. destruct H as [H Hab].
  apply Sorted_inv in H. destruct H as [H Hbc].
  apply HdRel_inv in Hab. apply HdRel_inv in Hbc.
  repeat constructor; assumption.
Qed.

Lemma sort_strings_ascending l :
  Sorted (fun a b => String.ltb a b = true) l -> sort_strings l = l.
Proof.
  intros H. apply sort_strings_unique; [reflexivity|].
  now apply strictly_ascending_sorted.
Qed.

Section Battery.

Variables root o1 o2 o3 : string.
Hypothesis root_is_ok : root_ok root = true.
Hypothesis o1_ok : label_ok o1 = true.
Hypothesis o2_ok : label_ok o2 = true.
Hypothesis o3_ok : label_ok o3 = true.
Hypothesis o1_o2 : String.ltb o1 o2 = true.
Hypothesis o2_o3 : String.ltb o2 o3 = true.

Lemma battery_column_root h :
  In h (battery_columns root o1 o2 o3) -> extractRankQuestionRoot h = root.
Proof.
  intros [<-|[<-|[<-|[<-|[<-|[<-|[]]]]]]];
    apply extractRankQuestionRoot_column; auto; first [now left | now right].
Qed.

Lemma analyzeRankStructure_battery rankColumns allHeaders :
  Permutation rankColumns (battery_columns root o1 o2 o3) ->
  analyzeRankStructure root rankColumns allHeaders = Some (battery_structure root o1 o2 o3).
Proof.
  intros Hp. unfold analyzeRankStructure. cbv zeta.
  pose proof (@columns_ascending root o1 o2 o3 o1_o2 o2_o3) as Hs.
  rewrite (sort_strings_unique Hp (strictly_ascending_sorted Hs)).
  unfold battery_columns.
  rewrite groupColumnsByRank_two;
    try (apply rank_pattern_column; auto; first [now left | now right]).
  rewrite (sort_strings_ascending (Sorted_head3 Hs)).
  rewrite (sort_strings_ascending (Sorted_tail3 Hs)).
  cbn [length Nat.ltb Nat.leb nth].
  rewrite extractOptions_columns by first [assumption | now left].
  reflexivity.
Qed.

End Battery.

Lemma own_entries_singleton {V} k (v : V) : own_entries [(k, v)] = [(k, v)].
Proof.
  unfold own_entries. cbn [filter fst].
  destruct (array_index k); reflexivity.
Qed.

Lemma group_by_root root hs :
  forall acc,
    Forall (fun h => extractRankQuestionRoot h = root) hs ->
    forEach hs
      (fun header questionGroups =>
         group_push questionGroups (extractRankQuestionRoot header) header)
      [(root, acc)]
    = [(root, (acc ++ hs)%list)].
Proof.
  induction hs as [|h hs IH]; intros acc Hf.
  - rewrite forEach_nil. now rewrite app_nil_r.
  - apply Forall_cons_iff in Hf. destruct Hf as [Hh Hf'].
    rewrite forEach_cons, Hh.
    unfold group_push at 2. cbn [obj_get obj_set].
    rewrite String.eqb_refl. rewrite (IH _ Hf'). unfold push.
    now rewrite <- app_assoc.
Qed.

Lemma filter_all {A} (f : A -> bool) l :
  (forall x, In x l -> f x = true) -> filter f l = l.
Proof.
  induction l as [|x l IH]; intros H; [reflexivity|].
  cbn [filter]. rewrite (H x (or_introl eq_refl)).
  f_equal. apply IH. intros y Hy. apply H. now right.
Qed.

End RankingFacts.

(* ================================================================== *)
(** * The claims about the cross-tabulation engine *)
(* ================================================================== *)

Module CrossTabClaims.
Import JS Types Stats CrossTab StatsSpec CrossTabSpec.
Import LoopFacts StatsFacts CrossTabFacts ShapeFacts GenerateFacts PercentFacts.
Import Scenarios.

(** C2. Every [CrossTabResult] returned by [generateCrossTabs] is well
    shaped: the base vector is as long as the header row; [percentage],
    [significanceFlags] and [rowLabels] have as many rows as [absolute]; and
    every row of [absolute], [percentage] and [significanceFlags] is as long
    as the header row. *)
Theorem generateCrossTabs_shape :
  forall (Math_exp : number -> number) (Number : string -> number)
         (data : ExcelData) (config : CrossTabConfig)
         (results : list CrossTabResult),
    generateCrossTabs Math_exp Number data config = Ok results ->
    Forall well_shaped results.
Proof.
  intros Math_exp Number data config results.
  unfold generateCrossTabs. cbv zeta.
  (* the invariant of the loop over the table variables *)
  apply forEach_r_invariant with (P := Forall well_shaped).
  - intros x s0 s1 _. apply table_step_shape.
  - constructor.
Qed.

Lemma generateCrossTabs_shape_witness :
  exists results,
    generateCrossTabs Math_exp_ref Number_unused scenarioA scenarioA_config
    = Ok results
    /\ results <> []
    /\ Forall well_shaped results.
Proof.
  eexists. split; [vm_compute; reflexivity|]. split; [discriminate|].
  apply (@generateCrossTabs_shape Math_exp_ref Number_unused scenarioA
           scenarioA_config).
  vm_compute. reflexivity.
Defined.

(** C3 (the code emits another text than the arrow).  No cell of the
    flag matrix ever holds the downwards arrow U+2193; on the matrix
    [[50, 10]] with bases [100, 100] the second cell is significantly lower
    and holds the mis-encoded literal of the source instead. *)
Theorem performSignificanceTests_lower_literal :
  (forall (Math_exp : number -> number) (absoluteData : list (list number))
          (baseValues : list number) (alpha : number),
      Forall (Forall (fun flag => flag <> down_arrow))
             (performSignificanceTests Math_exp absoluteData baseValues alpha))
  /\ performSignificanceTests Math_exp_ref [[50; 10]]%float [100; 100]%float
       default_alpha
     = [[""%string; lower_flag]]
  /\ lower_flag <> down_arrow.
Proof.
  split; [|split; [vm_compute; reflexivity | discriminate]].
  intros. rewrite performSignificanceTests_map.
  apply Forall_map, Forall_forall. intros row _.
  apply Forall_map, Forall_forall. intros c _.
  apply cell_flag_not_down_arrow.
Qed.

(** X1. [performSignificanceTests] returns one flag per cell of the input
    matrix, row by row: the empty text in column 0; elsewhere the asterisk
    when the z-test of the cell against column 0 of its row is significant
    with the higher proportion, the literal of the source when it is
    significant otherwise, and the empty text when it is not significant. *)
Theorem performSignificanceTests_flags :
  forall (Math_exp : number -> number) (absoluteData : list (list number))
         (baseValues : list number) (alpha : number),
    performSignificanceTests Math_exp absoluteData baseValues alpha
    = map (fun row =>
             map (cell_flag Math_exp row baseValues alpha) (seq 0 (length row)))
          absoluteData.
Proof. intros. apply performSignificanceTests_map. Qed.

(** C4 (amended).  On Scenario A the categories come in ascending order
    (Female, Male) and are followed by the Total row; the percentages are
    texts with a percent sign; no cell is flagged at alpha = 0.05. *)
Theorem scenarioA_crosstab :
  (forall Math_exp : number -> number,
      exists r,
        createRegularCrossTab Math_exp scenarioA_dataMap "Gender" ["Region"%string]
          binary (headers scenarioA) "Gender" = Some r
        /\ result_headers r = ["Total"; "North"; "South"]%string
        /\ rowLabels r = ["Female"; "Male"; "Total"]%string
        /\ baseValues r = [100; 40; 60]%float
        /\ absolute r = [[40; 10; 30]; [60; 30; 30]; [100; 40; 60]]%float
        /\ percentage r = [["40%"; "25%"; "50%"]; ["60%"; "75%"; "50%"];
                           ["100%"; "100%"; "100%"]]%string)
  /\ (exists r,
        createRegularCrossTab Math_exp_ref scenarioA_dataMap "Gender"
          ["Region"%string] binary (headers scenarioA) "Gender" = Some r
        /\ significanceFlags r
           = [[""; ""; ""]; [""; ""; ""]; [""; ""; ""]]%string).
Proof.
  split.
  - intros Math_exp. vm_compute. eexists. split; [reflexivity|].
    cbn. repeat split; reflexivity.
  - vm_compute. eexists. split; reflexivity.
Qed.

(** C4, as stated, fails: the matrix has the Female row first and a Total
    row, and the South/Male cell carries no flag, neither the arrow nor the
    literal of the source. *)
Lemma scenarioA_not_as_specified :
  ~ scenarioA_as_specified Math_exp_ref down_arrow
  /\ ~ scenarioA_as_specified Math_exp_ref lower_flag.
Proof.
  split; intros (r & Hr & _ & Habs & _); vm_compute in Hr;
    injection Hr as <-; cbn in Habs; discriminate.
Qed.

(** The flags of Scenario A do not depend on the last digits of
    [Math.exp]: they are the same with an exponential that is 10% smaller
    or larger. *)
Lemma scenarioA_flags_insensitive :
  forall scale,
    In scale [0.9; 1.1]%float ->
    exists r,
      createRegularCrossTab (fun x => PrimFloat.mul scale (Math_exp_ref x))
        scenarioA_dataMap "Gender" ["Region"%string] binary
        (headers scenarioA) "Gender" = Some r
      /\ significanceFlags r
         = [[""; ""; ""]; [""; ""; ""]; [""; ""; ""]]%string.
Proof.
  intros scale [<-|[<-|[]]]; vm_compute; eexists; split; reflexivity.
Qed.

(** C5 (the code never evaluates the operator).  In [applyFilters] the
    operators [is_empty] and [is_not_empty] fall to the default branch:
    the filter holds for every row, and no row is excluded. *)
Theorem applyFilters_is_empty_keeps_all :
  forall Number : string -> number,
    (forall data row flt,
        filter_passes Number data row
          {| column := column flt; operator := is_empty; value := value flt;
             secondValue := secondValue flt |} = true
        /\ filter_passes Number data row
             {| column := column flt; operator := is_not_empty;
                value := value flt; secondValue := secondValue flt |} = true)
    /\ applyFilters Number is_empty_data (is_empty_filter is_empty)
       = is_empty_data
    /\ applyFilters Number is_empty_data (is_empty_filter is_not_empty)
       = is_empty_data.
Proof.
  intros Number. split; [|split; reflexivity].
  intros data row flt. unfold filter_passes. cbn [column operator].
  destruct (index_of (headers data) (column flt)); split; reflexivity.
Qed.

(** C6 (amended).  A table variable that names a custom variable (and no
    multi-select group) is skipped: generation behaves as if it had not been
    selected, with neither a result nor a failure for it. *)
Theorem custom_variables_skipped :
  forall (Math_exp : number -> number) (Number : string -> number)
         (data : ExcelData) (config : CrossTabConfig),
    generateCrossTabs Math_exp Number data config
    = generateCrossTabs Math_exp Number data (without_custom_variables config).
Proof.
  intros Math_exp Number data config.
  unfold generateCrossTabs. cbv zeta.
  change (filters (without_custom_variables config)) with (filters config).
  change (questionTypes (without_custom_variables config))
    with (questionTypes config).
  change (tableVariables (without_custom_variables config))
    with (filter (fun v => negb (names_custom_variable config v))
                 (tableVariables config)).
  rewrite forEach_r_skip
    with (keep := fun v => negb (names_custom_variable config v)).
  - reflexivity.
  - intros x s Hx. apply negb_false_iff in Hx. now apply table_step_custom.
Qed.

(** C6, as stated, fails: with the custom variable [Segment] selected,
    generation ends normally with an empty result list. *)
Lemma custom_variable_not_signalled :
  generateCrossTabs Math_exp_ref Number_unused scenarioA custom_config = Ok []
  /\ ~ (exists e,
           generateCrossTabs Math_exp_ref Number_unused scenarioA custom_config
           = Throw e).
Proof.
  assert (E : generateCrossTabs Math_exp_ref Number_unused scenarioA custom_config
              = Ok []) by (vm_compute; reflexivity).
  split; [exact E|]. intros [e He]. rewrite E in He. discriminate.
Qed.

(** C7 (amended).  Zero denominators are resolved where they occur: the
    percentage expression yields 0 for a zero base, so every cell of a
    category row of a regular cross-tab whose column base is zero shows 0%;
    the last row, Total, shows 100% in every column, whatever the base;
    and the z-test returns not-significant with p = 1 and z = 0 when a
    total is zero or the pooled standard error is zero. *)
Theorem zero_denominators_resolved :
  forall Math_exp : number -> number,
    (forall cnt base,
        PrimFloat.eqb base 0 = true -> percent_of cnt base = 0%float)
    /\ (forall dataMap tableVar bannerVars qt allHeaders displayName r i j,
           QuestionType_eqb qt open_ended = false ->
           createRegularCrossTab Math_exp dataMap tableVar bannerVars qt
             allHeaders displayName = Some r ->
           S i < length (rowLabels r) ->
           j < length (baseValues r) ->
           PrimFloat.eqb (nth j (baseValues r) undefined_number) 0 = true ->
           nth j (nth i (percentage r) []) ""%string = "0%"%string)
    /\ (forall dataMap tableVar bannerVars qt allHeaders displayName r,
           QuestionType_eqb qt open_ended = false ->
           createRegularCrossTab Math_exp dataMap tableVar bannerVars qt
             allHeaders displayName = Some r ->
           nth (length (rowLabels r) - 1) (percentage r) []
           = map (fun _ => "100%"%string) (baseValues r))
    /\ (forall count1 total1 count2 total2 alpha,
           PrimFloat.eqb total1 0 = true \/ PrimFloat.eqb total2 0 = true
           \/ PrimFloat.eqb (standard_error count1 total1 count2 total2) 0 = true ->
           zTestForProportions Math_exp count1 total1 count2 total2 alpha
           = {| isSignificant := false; pValue := 1%float; zScore := 0%float;
                comparisonType := none |}).
Proof.
  intros Math_exp. split; [|split; [|split]].
  - intros. now apply percent_of_zero_base.
  - intros. eapply createRegularCrossTab_zero_base; eauto.
  - intros. eapply createRegularCrossTab_total_row; eauto.
  - intros c1 t1 c2 t2 alpha [H|[H|H]].
    + apply zTest_zero_total. now left.
    + apply zTest_zero_total. now right.
    + now apply zTest_zero_se.
Qed.

Lemma zero_denominators_resolved_witness :
  percent_of 3%float 0%float = 0%float
  /\ (exists r,
        createRegularCrossTab Math_exp_ref zero_base_dataMap "Gender"
          ["Region"%string] single_choice ["Gender"; "Region"]%string "Gender"
        = Some r
        /\ baseValues r = [1; 0]%float
        /\ nth 1 (nth 0 (percentage r) []) ""%string = "0%"%string
        /\ nth (length (rowLabels r) - 1) (percentage r) []
           = map (fun _ => "100%"%string) (baseValues r))
  /\ zTestForProportions Math_exp_ref 5%float 0%float 3%float 10%float default_alpha
    = not_significant
  /\ zTestForProportions Math_exp_ref 10%float 10%float 10%float 10%float
      default_alpha = not_significant.
Proof.
  destruct (zero_denominators_resolved Math_exp_ref) as (Hp & Hc & Ht & Hz).
  split; [apply Hp; reflexivity|].
  split.
  - eexists. split; [vm_compute; reflexivity|]. split; [reflexivity|].
    split.
    + eapply (Hc zero_base_dataMap "Gender"%string ["Region"%string]
                 single_choice ["Gender"; "Region"]%string "Gender"%string _ 0 1).
      * reflexivity.
      * vm_compute. reflexivity.
      * cbn. lia.
      * cbn. lia.
      * reflexivity.
    + eapply (Ht zero_base_dataMap "Gender"%string ["Region"%string]
                 single_choice ["Gender"; "Region"]%string "Gender"%string).
      * reflexivity.
      * vm_compute. reflexivity.
  - split; apply Hz.
    + left. reflexivity.
    + right. right. vm_compute. reflexivity.
Defined.

(** C7, as stated, fails: in the table of a column without a respondent
    the Total row shows 100% over the base 0, not 0%. *)
Lemma zero_base_total_row_not_zero :
  exists r,
    createRegularCrossTab Math_exp_ref zero_base_dataMap "Gender"
      ["Region"%string] single_choice ["Gender"; "Region"]%string "Gender"
    = Some r
    /\ baseValues r = [1; 0]%float
    /\ percentage r = [["100%"; "0%"]; ["100%"; "100%"]]%string
    /\ ~ zero_base_shows_zero r.
Proof.
  eexists. split; [vm_compute; reflexivity|].
  split; [reflexivity|]. split; [reflexivity|].
  intros H. specialize (H 1 1). cbn in H.
  assert (E : "100%"%string = "0%"%string)
    by (apply H; [lia | lia | reflexivity]).
  discriminate E.
Qed.

(** C10. [createMultiSelectCrossTab] reads [dataMap[0]] for every battery
    column: with no data row and a non-empty column list it throws a
    TypeError, so [generateCrossTabs] produces neither a result nor a
    validation warning; with at least one data row it returns a result. *)
Theorem multiSelect_needs_a_row :
  forall (Math_exp : number -> number) (Number : string -> number),
    (forall groupName bannerVars multiSelectCols allHeaders displayName,
        multiSelectCols <> [] ->
        createMultiSelectCrossTab Math_exp [] groupName bannerVars
          multiSelectCols allHeaders displayName = Throw TypeError)
    /\ (forall dataMap groupName bannerVars multiSelectCols allHeaders
               displayName,
           dataMap <> [] ->
           exists r,
             createMultiSelectCrossTab Math_exp dataMap groupName bannerVars
               multiSelectCols allHeaders displayName = Ok (Some r))
    /\ (forall data config tableVar cols,
           rows data = [] ->
           In tableVar (tableVariables config) ->
           obj_get (multiSelectGroups config) tableVar = Some cols ->
           cols <> [] ->
           generateCrossTabs Math_exp Number data config = Throw TypeError).
Proof.
  intros Math_exp Number. split; [|split].
  - intros. now apply createMultiSelectCrossTab_no_row.
  - intros. now apply createMultiSelectCrossTab_some_row.
  - intros. eapply generateCrossTabs_battery_no_row; eauto.
Qed.

Lemma multiSelect_needs_a_row_witness :
  createMultiSelectCrossTab Math_exp_ref [] "Apps" [] ["Apps - A"; "Apps - B"]%string
    (headers no_rows) "Apps" = Throw TypeError
  /\ (exists r,
        createMultiSelectCrossTab Math_exp_ref scenarioA_dataMap "G" []
          ["Gender"]%string (headers scenarioA) "G" = Ok (Some r))
  /\ generateCrossTabs Math_exp_ref Number_unused no_rows battery_config
     = Throw TypeError.
Proof.
  destruct (multiSelect_needs_a_row Math_exp_ref Number_unused) as (H1 & H2 & H3).
  split; [apply H1; discriminate|].
  split; [apply H2; discriminate|].
  apply (H3 no_rows battery_config "Apps"%string ["Apps - A"; "Apps - B"]%string).
  - reflexivity.
  - now left.
  - reflexivity.
  - discriminate.
Defined.

End CrossTabClaims.

(* ================================================================== *)
(** * The claim about ranking batteries *)
(* ================================================================== *)

Module RankingClaims.
Import JS Regex Types Ranking RegexSpec RankingSpec.
Import LoopFacts SortFacts RegexFacts RankingFacts.
Local Open Scope string_scope.

Lemma perm_rotate3 {A} (a b c : A) l l' :
  Permutation l l' -> Permutation (a :: b :: c :: l) (c :: a :: b :: l').
Proof.
  intros H. symmetry. apply (Permutation_cons_app [a; b] l c).
  cbn [app]. do 2 apply perm_skip. now symmetry.
Qed.




End RankingClaims.

(* ================================================================== *)
(** * The date stage of the type detector *)
(* ================================================================== *)

Module TypeDetectorClaims.
Import JS Types TypeDetector TypeDetectorSpec LoopFacts.

Lemma cleanValues_length values sampleSize :
  length (cleanValues values sampleSize) <= sampleSize.
Proof. unfold cleanValues. rewrite length_firstn. lia. Qed.

Lemma filter_length_le {A} (f : A -> bool) l : length (filter f l) <= length l.
Proof.
  induction l as [|x l IH]; cbn [filter length]; [lia|].
  destruct (f x); cbn [length]; lia.
Qed.

Lemma dedupe_length_le l : length (dedupe l) <= length l.
Proof.
  unfold dedupe.
  enough (H : forall seen,
             length (forEach l (fun x seen => if arr_includes seen x then seen
                                              else push seen x) seen)
             <= length seen + length l) by (specialize (H []); exact H).
  induction l as [|x l IH]; intros seen.
  - rewrite forEach_nil. cbn [length]. lia.
  - rewrite forEach_cons. etransitivity; [apply IH|].
    destruct (arr_includes seen x); [|rewrite push_length]; cbn [length]; lia.
Qed.

(** ** The two float comparisons on samples of at most 100 cells *)

Lemma sixty_table :
  forallb (fun n => forallb (sixty_agrees n) (seq 0 101)) (seq 0 101) = true.
Proof. vm_compute. reflexivity. Qed.

Lemma seventy_table :
  forallb (fun n => forallb (seventy_agrees n) (seq 0 101)) (seq 1 100) = true.
Proof. vm_compute. reflexivity. Qed.

Lemma sixty_percent n dm :
  n <= 100 -> dm <= 100 ->
  PrimFloat.ltb (of_nat n * 0.6)%float (of_nat dm) = (3 * n <? 5 * dm).
Proof.
  intros Hn Hd. pose proof sixty_table as T.
  rewrite forallb_forall in T. specialize (T n).
  rewrite forallb_forall in T.
  apply Bool.eqb_prop, T; apply in_seq; lia.
Qed.

Lemma seventy_percent n u :
  1 <= n <= 100 -> u <= 100 ->
  PrimFloat.ltb 0.7%float (of_nat u / of_nat n)%float = (7 * n <? 10 * u).
Proof.
  intros Hn Hu. pose proof seventy_table as T.
  rewrite forallb_forall in T. specialize (T n).
  rewrite forallb_forall in T.
  apply Bool.eqb_prop, T; apply in_seq; lia.
Qed.

Section WithRuntime.

Variable Number : string -> number.
Variable Date_year : string -> option Z.

(** The decision of the date stage, in whole numbers. *)
Lemma date_stage header values sampleSize :
  let clean := cleanValues values sampleSize in
  let n := length clean in
  let dm := length (filter (is_date_match Date_year) clean) in
  let u := length (dedupe clean) in
  let kw := has_keyword dateKeywords (toLowerCase header) in
  sampleSize <= 100 ->
  n <> 0 ->
  (3 * n <? 5 * dm) && (kw || (7 * n <? 10 * u)) = true ->
  let a := analyzeQuestionType Number Date_year header values sampleSize in
  qta_type a = date /\ confidence a = (if kw then 0.95 else 0.8)%float.
Proof.
  intros clean n dm u kw Hs Hn Hc a. subst a.
  unfold analyzeQuestionType. cbv zeta.
  fold (cleanValues values sampleSize). fold clean. fold n.
  destruct (Nat.eqb_spec n 0) as [E|_]; [contradiction|].
  fold dm. fold u. fold kw.
  assert (Hn100 : n <= 100)
    by (etransitivity; [apply cleanValues_length | exact Hs]).
  assert (Hd : dm <= n) by apply filter_length_le.
  assert (Hu : u <= n) by apply dedupe_length_le.
  rewrite sixty_percent by lia. rewrite seventy_percent by lia.
  rewrite Hc. cbn [qta_type confidence]. split; reflexivity.
Qed.

(** X3. The date stage is the only one that answers [date]: on a sample
    of at most 100 cells, a column is not typed [date] unless strictly more
    than 60% of the sampled cells are date matches and the header has a date
    keyword or the unique ratio exceeds 0.7. *)
Lemma date_only_from_stage header values sampleSize :
  let clean := cleanValues values sampleSize in
  let n := length clean in
  let dm := length (filter (is_date_match Date_year) clean) in
  let u := length (dedupe clean) in
  let kw := has_keyword dateKeywords (toLowerCase header) in
  sampleSize <= 100 ->
  (3 * n <? 5 * dm) && (kw || (7 * n <? 10 * u)) = false ->
  qta_type (analyzeQuestionType Number Date_year header values sampleSize)
  <> date.
Proof.
  intros clean n dm u kw Hs Hc.
  unfold analyzeQuestionType. cbv zeta.
  fold (cleanValues values sampleSize). fold clean. fold n.
  destruct (Nat.eqb_spec n 0) as [E|Hn]; [cbn; discriminate|].
  fold dm. fold u. fold kw.
  assert (Hn100 : n <= 100)
    by (etransitivity; [apply cleanValues_length | exact Hs]).
  assert (Hd : dm <= n) by apply filter_length_le.
  assert (Hu : u <= n) by apply dedupe_length_le.
  rewrite sixty_percent by lia. rewrite seventy_percent by lia.
  rewrite Hc.
  repeat match goal with
         | |- qta_type (if ?c then _ else _) <> _ => destruct c
         end; cbn [qta_type]; discriminate.
Qed.

End WithRuntime.

Lemma date_only_from_stage_witness :
  qta_type (analyzeQuestionType Number_nan Date_invalid sixty_header
              sixty_values default_sampleSize) <> date.
Proof.
  apply (@date_only_from_stage Number_nan Date_invalid sixty_header
           sixty_values default_sampleSize).
  - unfold default_sampleSize. lia.
  - vm_compute. reflexivity.
Defined.

(** The result depends on the runtime only through its readings of the
    sampled cells. *)
Lemma analyzeQuestionType_ext Number Number' Date_year Date_year'
      header values sampleSize :
  (forall v, In v (cleanValues values sampleSize) -> Number v = Number' v) ->
  (forall v, In v (cleanValues values sampleSize) ->
             is_date_match Date_year v = is_date_match Date_year' v) ->
  analyzeQuestionType Number Date_year header values sampleSize
  = analyzeQuestionType Number' Date_year' header values sampleSize.
Proof.
  intros HN HD.
  unfold analyzeQuestionType. cbv zeta.
  fold (cleanValues values sampleSize).
  rewrite (filter_ext_in _ _ _ HD).
  rewrite (map_ext_in _ _ _ HN).
  reflexivity.
Qed.

(** ** Exactly sixty per cent *)

Lemma sixty_values_reading Number Date_year :
  reads_sixty_values Number Date_year ->
  analyzeQuestionType Number Date_year sixty_header sixty_values
    default_sampleSize
  = analyzeQuestionType Number_nan Date_invalid sixty_header sixty_values
      default_sampleSize
  /\ filter (is_date_match Date_year) sixty_values
     = ["2024-01-15"; "2024-02-20"; "2024-03-05"]%string.
Proof.
  intros (Hp & Hu & HN). split.
  - apply analyzeQuestionType_ext.
    + intros v Hv. rewrite Forall_forall in HN. now apply HN.
    + intros v Hv. vm_compute in Hv.
      destruct Hv as [<-|[<-|[<-|[<-|[<-|[]]]]]]; unfold is_date_match;
        try rewrite Hp; try rewrite Hu;
        match goal with
        | |- (if ?c then _ else _) = _ =>
            let b := eval vm_compute in c in
            change c with b
        end; reflexivity.
  - unfold sixty_values. cbn [filter]. unfold is_date_match.
    rewrite Hp, Hu.
    repeat match goal with
        | |- context [existsb ?f ?l] =>
            let b := eval vm_compute in (existsb f l) in
            change (existsb f l) with b
        end. reflexivity.
Qed.

(** C8. On a sample of at most 100 cells (the default sample size is 100)
    the column is typed [date], with confidence 0.95 under a date keyword
    and 0.8 otherwise, when strictly more than 60% of the sampled cells are
    date matches and the header has a date keyword or the unique ratio
    exceeds 0.7. *)
Theorem date_detection_above_sixty :
  forall (Number : string -> number) (Date_year : string -> option Z)
         (header : string) (values : list string) (sampleSize : nat),
    let clean := cleanValues values sampleSize in
    let n := length clean in
    let dm := length (filter (is_date_match Date_year) clean) in
    let u := length (dedupe clean) in
    let kw := has_keyword dateKeywords (toLowerCase header) in
    sampleSize <= 100 ->
    3 * n < 5 * dm ->
    kw = true \/ 7 * n < 10 * u ->
    let a := analyzeQuestionType Number Date_year header values sampleSize in
    qta_type a = date /\ confidence a = (if kw then 0.95 else 0.8)%float.
Proof.
  intros Number Date_year header values sampleSize clean n dm u kw Hs Hd Hk.
  apply date_stage; [exact Hs | |].
  - fold clean n. intros E. fold clean dm n in Hd.
    assert (dm <= n) by apply filter_length_le. lia.
  - fold clean n dm u kw.
    apply andb_true_iff. split; [apply Nat.ltb_lt; exact Hd|].
    apply orb_true_iff. destruct Hk as [Hk|Hk]; [now left|right].
    apply Nat.ltb_lt. exact Hk.
Qed.

Lemma date_detection_above_sixty_witness :
  let a := analyzeQuestionType Number_nan Date_invalid "Start date"
             above_sixty_values default_sampleSize in
  qta_type a = date /\ confidence a = 0.95%float.
Proof.
  apply (@date_detection_above_sixty Number_nan Date_invalid
           "Start date"%string above_sixty_values default_sampleSize).
  - unfold default_sampleSize. lia.
  - vm_compute. lia.
  - left. vm_compute. reflexivity.
Defined.

(** C8, the boundary: with exactly 60% of the sampled cells matching, the
    column is not typed [date], whatever the runtime answers elsewhere. *)
Lemma date_detection_at_sixty :
  ~ exists Number Date_year,
      reads_sixty_values Number Date_year
      /\ date_rule_at_least_sixty Number Date_year.
Proof.
  intros (Number & Date_year & Hr & Hrule).
  destruct (sixty_values_reading Hr) as [Ha Hf].
  specialize (Hrule sixty_header sixty_values).
  change (cleanValues sixty_values default_sampleSize) with sixty_values in Hrule.
  cbv zeta in Hrule. rewrite Hf, Ha in Hrule.
  destruct Hrule as [Ht _].
  - cbn. discriminate.
  - cbn. lia.
  - left. vm_compute. reflexivity.
  - vm_compute in Ht. discriminate.
Qed.

(** With exactly 60% the later stages decide: here the default answer. *)
Lemma date_detection_at_sixty_result :
  let a := analyzeQuestionType Number_nan Date_invalid sixty_header
             sixty_values default_sampleSize in
  qta_type a = single_choice /\ confidence a = 0.4%float.
Proof. vm_compute. split; reflexivity. Qed.

End TypeDetectorClaims.

(* ================================================================== *)
(** * The claim about the open-end coder *)
(* ================================================================== *)

Module OpenEndClaims.
Import JS OpenEnd OpenEndSpec LoopFacts.

Lemma map_r_Forall {A B} (Q : B -> Prop) (f : A -> result B) l :
  forall ys,
    map_r f l = Ok ys ->
    (forall x y, In x l -> f x = Ok y -> Q y) ->
    Forall Q ys.
Proof.
  induction l as [|x l IH]; intros ys; cbn [map_r].
  - intros E _. injection E as <-. constructor.
  - destruct (f x) as [y|e] eqn:Ef; cbn [bind]; [|discriminate].
    destruct (map_r f l) as [ys'|e] eqn:El; cbn [bind]; [|discriminate].
    intros E Hq. injection E as <-. constructor.
    + apply (Hq x y); [now left | exact Ef].
    + apply IH; [reflexivity|]. intros x' y' Hx'. apply Hq. now right.
Qed.

Lemma last_category_In cats c : last_category cats = Some c -> In c cats.
Proof. unfold last_category. apply nth_error_In. Qed.

(** The category kept by the scoring loop is one of the list. *)
Lemma best_category_In (txt : string) cats best score :
  forEach cats
    (fun category '(bestCategory, bestScore) =>
       let score := calculateCategoryScore txt category in
       if PrimFloat.ltb bestScore score then (Some category, score)
       else (bestCategory, bestScore))
    (last_category cats, 0%float) = (Some best, score) ->
  In best cats.
Proof.
  intros E.
  match type of E with
  | forEach ?l ?b ?i = _ =>
      assert (H : (fun s : option OpenEndCategory * number =>
                     forall c, fst s = Some c -> In c cats) (forEach l b i))
  end.
  { apply forEach_invariant.
    - cbn [fst]. intros c. apply last_category_In.
    - intros category [b s] Hin Hs. cbv zeta.
      destruct (PrimFloat.ltb s _); cbn [fst].
      + intros c Ec. now injection Ec as <-.
      + exact Hs. }
  rewrite E in H. now apply H.
Qed.

Section WithSettings.

Variable st : CodingSettings.
Variable Math_log : number -> number.

Lemma assignResponsesToCategories_listed rs cats coded :
  assignResponsesToCategories rs cats = Ok coded ->
  Forall (fun r => In (categoryId r) (map oc_id cats)) coded.
Proof.
  unfold assignResponsesToCategories. intros E.
  eapply map_r_Forall; [exact E|].
  intros response r _. cbv beta.
  destruct (forEach cats _ _) as [[best|] score] eqn:Eloop; [|discriminate].
  intros Er. injection Er as <-. cbn [categoryId].
  apply in_map. eapply best_category_In. exact Eloop.
Qed.

(** ** The clustering loop does not run out of fuel *)

Lemma set_at_length {A} i (v : A) l : length (set_at i v l) = length l.
Proof.
  revert i. induction l as [|x l IH]; intros [|i]; cbn [set_at length]; auto.
Qed.

Lemma remove_at_length {A} j (l : list A) :
  j < length l -> S (length (remove_at j l)) = length l.
Proof.
  intros Hj. unfold remove_at. rewrite length_app, length_firstn, length_skipn. lia.
Qed.

Lemma clustering_loop_fuel tfidfMatrix allResponses fuel :
  forall clusters,
    length clusters <= fuel ->
    exists r,
      clustering_loop st fuel clusters tfidfMatrix allResponses = Some r
      /\ forall e, r = Throw e -> e = TypeError.
Proof.
  induction fuel as [|fuel IH]; intros clusters Hlen.
  - destruct clusters; [|cbn in Hlen; lia].
    cbn [clustering_loop].
    destruct (PrimFloat.ltb _ _); [|eexists; split; [reflexivity | discriminate]].
    destruct (closest_pair _ _ _) as [minDistance [i j]].
    destruct (PrimFloat.ltb _ _); [eexists; split; [reflexivity | discriminate]|].
    destruct i; cbn [nth_error]; eexists; split;
      try reflexivity; intros e E; now injection E as <-.
  - cbn [clustering_loop].
    destruct (PrimFloat.ltb _ _); [|eexists; split; [reflexivity | discriminate]].
    destruct (closest_pair _ _ _) as [minDistance [i j]].
    destruct (PrimFloat.ltb _ _); [eexists; split; [reflexivity | discriminate]|].
    destruct (nth_error clusters i) as [ci|];
      [|eexists; split; [reflexivity | intros e E; now injection E as <-]].
    destruct (nth_error clusters j) as [cj|] eqn:Ej;
      [|eexists; split; [reflexivity | intros e E; now injection E as <-]].
    apply IH.
    assert (Hj : j < length clusters) by (apply nth_error_Some; congruence).
    pose proof (@remove_at_length _ j (set_at i (ci ++ cj) clusters)) as Hr.
    rewrite set_at_length in Hr. specialize (Hr Hj). lia.
Qed.

(** [hierarchicalClustering] terminates: it returns the clusters or
    throws the TypeError of a missing cluster; every merge shortens the
    cluster list, so the loop body runs at most once per response. *)
Lemma hierarchicalClustering_total tfidfMatrix rs :
  (exists clusters, hierarchicalClustering st tfidfMatrix rs = Ok clusters)
  \/ hierarchicalClustering st tfidfMatrix rs = Throw TypeError.
Proof.
  unfold hierarchicalClustering. cbv zeta.
  destruct (@clustering_loop_fuel tfidfMatrix rs (length (map (fun r => [r]) rs))
              (map (fun r => [r]) rs) (le_n _)) as (r & -> & Hr).
  destruct r as [clusters|e]; cbn [bind].
  - left. eexists. reflexivity.
  - right. now rewrite (Hr e eq_refl).
Qed.

End WithSettings.

(** C9. Every coded response of an output of [codeResponses] carries the
    id of a category of the returned category list. *)
Theorem codeResponses_category_listed :
  forall (st : CodingSettings) (Math_log : number -> number)
         (rs : list string) (questionCol : string) (out : OpenEndCoding),
    codeResponses st Math_log rs questionCol = Ok out ->
    Forall (fun r => In (categoryId r) (map oc_id (categories out)))
           (responses out).
Proof.
  intros st Math_log rs questionCol out. unfold codeResponses. cbv zeta.
  destruct (generateCategories st Math_log _) as [cats|e]; cbn [bind];
    [|discriminate].
  destruct (assignResponsesToCategories _ cats) as [coded|e] eqn:Ea;
    cbn [bind]; [|discriminate].
  intros E. injection E as <-. cbn [responses categories].
  now apply assignResponsesToCategories_listed with (rs := preprocessResponses st rs).
Qed.

Lemma codeResponses_category_listed_witness :
  exists out,
    codeResponses sample_settings Math_log_unused sample_responses "Q7" = Ok out
    /\ length (responses out) = 5
    /\ Forall (fun r => In (categoryId r) (map oc_id (categories out)))
              (responses out).
Proof.
  eexists. split; [vm_compute; reflexivity|]. split; [reflexivity|].
  apply (@codeResponses_category_listed sample_settings Math_log_unused
           sample_responses "Q7"%string).
  vm_compute. reflexivity.
Defined.

(** An example: [codeResponses] is partial; when every category falls below
    [minCategorySize] the category list is empty, the default category of a
    response is [undefined], and reading its id throws a TypeError. *)
Lemma codeResponses_no_category :
  codeResponses strict_settings Math_log_unused ["whatever else"%string] "Q7"
  = Throw TypeError.
Proof. vm_compute. reflexivity. Qed.

End OpenEndClaims.

(* ================================================================== *)
(** * Further facts about arrays and dictionaries *)
(* ================================================================== *)

Module ArrayFacts.
Import JS LoopFacts SortFacts.

Lemma insert_by_In {A} (le : A -> A -> bool) x y l :
  In y (insert_by le x l) <-> y = x \/ In y l.
Proof.
  induction l as [|z l IH]; cbn [insert_by].
  - cbn. intuition.
  - destruct (le x z); cbn [In]; [intuition|]. rewrite IH. intuition.
Qed.

Lemma sort_by_In {A} (le : A -> A -> bool) y l :
  In y (sort_by le l) <-> In y l.
Proof.
  unfold sort_by. induction l as [|x l IH]; cbn [fold_right]; [reflexivity|].
  rewrite insert_by_In, IH. cbn. intuition.
Qed.

Lemma sort_by_length {A} (le : A -> A -> bool) l :
  length (sort_by le l) = length l.
Proof. apply Permutation_length, sort_by_perm. Qed.

Lemma own_entries_In {V} (o : obj V) kv : In kv (own_entries o) <-> In kv o.
Proof.
  unfold own_entries. rewrite in_app_iff, sort_by_In, !filter_In.
  destruct (array_index (fst kv)); intuition congruence.
Qed.

Lemma obj_get_member {V} (o : obj V) k v : obj_get o k = Some v -> In (k, v) o.
Proof.
  induction o as [|[k' v'] o IH]; cbn [obj_get]; [discriminate|].
  destruct (String.eqb_spec k k') as [->|Hk].
  - intros E. injection E as <-. now left.
  - intros E. right. auto.
Qed.

Lemma obj_get_of_key {V} (o : obj V) k :
  In k (map fst o) -> exists v, obj_get o k = Some v.
Proof.
  induction o as [|[k' v'] o IH]; cbn [map fst obj_get]; [intros []|].
  destruct (String.eqb_spec k k') as [->|Hk]; [eauto|].
  intros [E|H]; [congruence | auto].
Qed.

Lemma obj_get_absent {V} (o : obj V) k :
  ~ In k (map fst o) -> obj_get o k = None.
Proof.
  induction o as [|[k' v'] o IH]; cbn [map fst obj_get]; [reflexivity|].
  intros H. destruct (String.eqb_spec k k') as [->|Hk].
  - exfalso. apply H. now left.
  - apply IH. intros Hin. apply H. now right.
Qed.

Lemma In_obj_set {V} (o : obj V) k v k' v' :
  In (k', v') (obj_set o k v) -> (k' = k /\ v' = v) \/ In (k', v') o.
Proof.
  induction o as [|[k0 v0] o IH]; cbn [obj_set].
  - intros [E|[]]. injection E as <- <-. now left.
  - destruct (String.eqb_spec k k0) as [->|Hk].
    + intros [E|H]; [injection E as <- <-; now left | right; now right].
    + intros [E|H]; [right; now left|].
      destruct (IH H) as [?|?]; [now left | right; now right].
Qed.

Lemma obj_set_present {V} (o : obj V) k v0 v :
  obj_get o k = Some v0 ->
  map fst (obj_set o k v) = map fst o.
Proof.
  induction o as [|[k' v'] o IH]; cbn [obj_get obj_set]; [discriminate|].
  destruct (String.eqb k k'); cbn [map fst]; [reflexivity|].
  intros E. now rewrite IH.
Qed.

Lemma Forall_obj_set {V} (P : string * V -> Prop) (o : obj V) k v :
  Forall P o -> (forall k', P (k', v)) -> Forall P (obj_set o k v).
Proof.
  intros Ho Hv. induction Ho as [|[k' v'] o Hkv Ho IH]; cbn [obj_set].
  - repeat constructor. apply Hv.
  - destruct (String.eqb k k'); constructor; auto.
Qed.

Lemma forallb_pointwise {A} (f g : A -> bool) l :
  (forall x, f x = g x) -> forallb f l = forallb g l.
Proof.
  intros H. induction l as [|x l IH]; [reflexivity|].
  cbn [forallb]. now rewrite H, IH.
Qed.

Lemma filter_idempotent {A} (f : A -> bool) l :
  filter f (filter f l) = filter f l.
Proof.
  induction l as [|x l IH]; [reflexivity|].
  cbn [filter]. destruct (f x) eqn:E; [|exact IH].
  cbn [filter]. now rewrite E, IH.
Qed.

Lemma filter_true {A} (f : A -> bool) l :
  (forall x, In x l -> f x = true) -> filter f l = l.
Proof.
  induction l as [|x l IH]; intros H; [reflexivity|].
  cbn [filter]. rewrite (H x (or_introl eq_refl)).
  f_equal. apply IH. intros y Hy. apply H. now right.
Qed.

Lemma filter_nil {A} (f : A -> bool) l :
  filter f l = [] <-> forall x, In x l -> f x = false.
Proof.
  induction l as [|x l IH]; cbn [filter].
  - split; [intros _ y [] | reflexivity].
  - destruct (f x) eqn:E.
    + split; [discriminate|]. intros H. rewrite (H x (or_introl eq_refl)) in E.
      discriminate.
    + rewrite IH. split.
      * intros H y [<-|Hy]; auto.
      * intros H y Hy. apply H. now right.
Qed.

Lemma filter_length {A} (f : A -> bool) l : length (filter f l) <= length l.
Proof.
  induction l as [|x l IH]; cbn [filter length]; [lia|].
  destruct (f x); cbn [length]; lia.
Qed.

Lemma filter_map_swap {A B} (f : A -> B) (p : B -> bool) l :
  filter p (map f l) = map f (filter (fun x => p (f x)) l).
Proof.
  induction l as [|x l IH]; [reflexivity|].
  cbn [map filter]. destruct (p (f x)); cbn [map]; now rewrite IH.
Qed.

Lemma forEach_length_mono {A B} (body : A -> list B -> list B) l :
  (forall x s, length s <= length (body x s)) ->
  forall init, length init <= length (forEach l body init).
Proof.
  intros H. induction l as [|x l IH]; intros init; [apply le_n|].
  rewrite forEach_cons. etransitivity; [apply H | apply IH].
Qed.

Lemma forEach_length_le {A B} (body : A -> list B -> list B) l :
  (forall x s, length (body x s) <= S (length s)) ->
  forall init, length (forEach l body init) <= length init + length l.
Proof.
  intros H. induction l as [|x l IH]; intros init.
  - rewrite forEach_nil. cbn [length]. lia.
  - rewrite forEach_cons. etransitivity; [apply IH|].
    specialize (H x init). cbn [length]. lia.
Qed.

Lemma forEachi_push_loop {A B} (f : A -> nat -> B) l :
  forall i0 acc,
    snd (fold_left (fun '(i, s) x => (S i, push s (f x i))) l (i0, acc))
    = (acc ++ map (fun p => f (snd p) (fst p)) (combine (seq i0 (length l)) l))%list.
Proof.
  induction l as [|x l IH]; intros i0 acc.
  - cbn. now rewrite app_nil_r.
  - cbn [fold_left length seq combine map fst snd]. rewrite IH.
    unfold push. now rewrite <- app_assoc.
Qed.

Lemma combine_seq_nth {A} (d : A) l :
  forall i0,
    combine (seq i0 (length l)) l
    = map (fun i => (i, nth (i - i0) l d)) (seq i0 (length l)).
Proof.
  induction l as [|x l IH]; intros i0; [reflexivity|].
  cbn [length seq combine map]. rewrite Nat.sub_diag. cbn [nth]. f_equal.
  rewrite IH. apply map_ext_in. intros i Hi. apply in_seq in Hi.
  replace (i - i0) with (S (i - S i0)) by lia. reflexivity.
Qed.

(** [arr.map((x, index) => f(x, index))] *)
Lemma forEachi_push_map {A B} (f : A -> nat -> B) (d : A) l :
  forEachi l (fun x i acc => push acc (f x i)) []
  = map (fun i => f (nth i l d) i) (seq 0 (length l)).
Proof.
  unfold forEachi. rewrite forEachi_push_loop. cbn [app].
  rewrite (combine_seq_nth d), map_map. apply map_ext.
  intros i. cbn [fst snd]. now rewrite Nat.sub_0_r.
Qed.

(** The loop with its index: the body is run on [arr[i]] at turn [i]. *)
Lemma forEachi_invariant_nth {A St} (P : nat -> St -> Prop)
  (body : A -> nat -> St -> St) l init :
  P 0 init ->
  (forall x i s, nth_error l i = Some x -> P i s -> P (S i) (body x i s)) ->
  P (length l) (forEachi l body init).
Proof.
  unfold forEachi. intros H0 Hstep.
  assert (G : forall l' pre s,
             l = (pre ++ l')%list -> P (length pre) s ->
             P (length pre + length l')
               (snd (fold_left (fun '(i, s) x => (S i, body x i s)) l'
                               (length pre, s)))).
  { induction l' as [|x l' IH]; intros pre s El Hp.
    - cbn. now rewrite Nat.add_0_r.
    - cbn [fold_left length].
      replace (length pre + S (length l')) with (length (pre ++ [x]) + length l')
        by (rewrite length_app; cbn; lia).
      replace (S (length pre)) with (length (pre ++ [x]))
        by (rewrite length_app; cbn; lia).
      apply IH.
      + rewrite El, <- app_assoc. reflexivity.
      + rewrite length_app. cbn [length]. rewrite Nat.add_1_r.
        apply Hstep; [|exact Hp].
        rewrite El, nth_error_app2, Nat.sub_diag by lia. reflexivity. }
  apply (G l [] init); auto.
Qed.

Lemma list_sum_insert_by {A} (le : A -> A -> bool) (f : A -> nat) x l :
  list_sum (map f (insert_by le x l)) = f x + list_sum (map f l).
Proof.
  induction l as [|y l IH]; cbn [insert_by]; [reflexivity|].
  destruct (le x y); simpl; [reflexivity|].
  simpl in IH. rewrite IH. lia.
Qed.

Lemma list_sum_sort_by {A} (le : A -> A -> bool) (f : A -> nat) l :
  list_sum (map f (sort_by le l)) = list_sum (map f l).
Proof.
  unfold sort_by. induction l as [|x l IH]; [reflexivity|].
  cbn [fold_right]. rewrite list_sum_insert_by. simpl. now rewrite <- IH.
Qed.

Lemma list_sum_positive {A} (f : A -> nat) l :
  list_sum (map f (filter (fun x => (0 <? f x)%nat) l)) = list_sum (map f l).
Proof.
  induction l as [|x l IH]; [reflexivity|].
  cbn [filter].
  destruct (Nat.ltb_spec 0 (f x)); simpl; simpl in IH; lia.
Qed.

Lemma StronglySorted_weaken {A} (R R' : A -> A -> Prop) l :
  (forall a b, R a b -> R' a b) -> StronglySorted R l -> StronglySorted R' l.
Proof.
  intros H. induction 1 as [|x l Hs IH Hx]; constructor; auto.
  eapply Forall_impl; [|exact Hx]. auto.
Qed.

(** The loop that returns at [currentIndex === colIndex] finds the banner
    column [colIndex - k], counting from [k]. *)
Lemma banner_find_loop {A} (g : string -> string -> A) colIndex l :
  forall k, k <= colIndex ->
  snd (forEach l
         (fun '(bannerVar, bannerVal) '(currentIndex, found) =>
            match found with
            | Some _ => (currentIndex, found)
            | None =>
                if (currentIndex =? colIndex)%nat
                then (currentIndex, Some (g bannerVar bannerVal))
                else (S currentIndex, None)
            end)
         (k, None))
  = option_map (fun '(bannerVar, bannerVal) => g bannerVar bannerVal)
               (nth_error l (colIndex - k)).
Proof.
  assert (Found : forall l k (x : A),
            snd (forEach l
                   (fun '(bannerVar, bannerVal) '(currentIndex, found) =>
                      match found with
                      | Some _ => (currentIndex, found)
                      | None =>
                          if (currentIndex =? colIndex)%nat
                          then (currentIndex, Some (g bannerVar bannerVal))
                          else (S currentIndex, None)
                      end)
                   (k, Some x)) = Some x).
  { clear l. induction l as [|[bv bval] l IH]; intros k x; [reflexivity|].
    rewrite forEach_cons. apply IH. }
  induction l as [|[bv bval] l IH]; intros k Hk.
  - cbn. now destruct (colIndex - k).
  - rewrite forEach_cons.
    destruct (Nat.eqb_spec k colIndex) as [E|NE].
    + subst k. rewrite Found. now rewrite Nat.sub_diag.
    + rewrite IH by lia.
      replace (colIndex - k) with (S (colIndex - S k)) by lia. reflexivity.
Qed.

End ArrayFacts.

(* ================================================================== *)
(** * Further properties of the cross-tabulation engine *)
(* ================================================================== *)

Module CrossTabProperties.
Import JS Types Stats CrossTab StatsSpec CrossTabSpec.
Import LoopFacts StatsFacts CrossTabFacts ShapeFacts GenerateFacts PercentFacts.
Import Scenarios CrossTabVocabulary SortFacts ArrayFacts.

(** ** Filters *)

Lemma filter_passes_headers Number d1 d2 row flt :
  headers d1 = headers d2 ->
  filter_passes Number d1 row flt = filter_passes Number d2 row flt.
Proof. intros E. unfold filter_passes. now rewrite E. Qed.

Lemma index_of_absent l x : ~ In x l -> index_of l x = None.
Proof.
  induction l as [|y l IH]; intros H; [reflexivity|].
  cbn [index_of]. destruct (String.eqb_spec x y) as [->|Hxy].
  - exfalso. apply H. now left.
  - rewrite IH; [reflexivity|]. intros Hin. apply H. now right.
Qed.

(** X5. Filtering is idempotent: applying the same filters to the filtered
    dataset changes nothing. *)
Theorem applyFilters_idempotent :
  forall (Number : string -> number) (data : ExcelData)
         (flts : obj FilterConfig),
    applyFilters Number (applyFilters Number data flts) flts
    = applyFilters Number data flts.
Proof.
  intros Number data flts. unfold applyFilters.
  destruct (length (obj_keys flts) =? 0); [reflexivity|].
  cbn [headers rows fileName]. f_equal.
  set (d' := {| headers := headers data; rows := _; fileName := fileName data |}).
  rewrite (filter_ext (fun row => forallb (filter_passes Number d' row)
                                          (obj_values flts))
                      (fun row => forallb (filter_passes Number data row)
                                          (obj_values flts))).
  - apply filter_idempotent.
  - intros row. apply forallb_pointwise. intros flt.
    now apply filter_passes_headers.
Qed.

(** X6. Filters on columns that are not headers of the dataset exclude no
    row: the dataset comes back unchanged. *)
Theorem applyFilters_unknown_columns :
  forall (Number : string -> number) (data : ExcelData)
         (flts : obj FilterConfig),
    (forall flt, In flt (obj_values flts) -> ~ In (column flt) (headers data)) ->
    applyFilters Number data flts = data.
Proof.
  intros Number data flts H. unfold applyFilters.
  destruct (length (obj_keys flts) =? 0); [reflexivity|].
  rewrite filter_true; [now destruct data|].
  intros row _. apply forallb_forall. intros flt Hflt.
  unfold filter_passes. now rewrite (index_of_absent _ _ (H flt Hflt)).
Qed.

Lemma applyFilters_unknown_columns_witness :
  applyFilters Number_unused is_empty_data
    [("f", {| column := "Q9"; operator := equals; value := "x";
              secondValue := None |})]%string
  = is_empty_data.
Proof.
  apply applyFilters_unknown_columns.
  intros flt [<-|[]]. cbn. intros [H|[]]. discriminate H.
Defined.

(** ** The result list *)

Lemma forEach_r_length {A B} (body : A -> list B -> result (list B)) l :
  (forall x s s', body x s = Ok s' -> length s' <= S (length s)) ->
  forall init s,
    forEach_r l body init = Ok s -> length s <= length init + length l.
Proof.
  intros Hstep. induction l as [|x l IH]; intros init s.
  - cbn. intros E. injection E as <-. lia.
  - rewrite forEach_r_cons. destruct (body x init) as [s1|e] eqn:E1.
    + intros E. apply IH in E. apply Hstep in E1. cbn [length]. lia.
    + discriminate.
Qed.

Lemma push_result_length results r :
  length (push_result results r) <= S (length results).
Proof.
  destruct r; cbn [push_result]; [rewrite push_length|]; lia.
Qed.

(** X7. [generateCrossTabs] returns at most one result per selected table
    variable. *)
Theorem generateCrossTabs_at_most_one_per_variable :
  forall (Math_exp : number -> number) (Number : string -> number)
         (data : ExcelData) (config : CrossTabConfig)
         (results : list CrossTabResult),
    generateCrossTabs Math_exp Number data config = Ok results ->
    length results <= length (tableVariables config).
Proof.
  intros Math_exp Number data config results. unfold generateCrossTabs.
  cbv zeta. intros E.
  apply forEach_r_length in E; [exact E|].
  intros tableVar s s'. unfold table_step. cbv zeta.
  repeat match goal with
         | |- context [if ?c then _ else _] => destruct c
         | |- context [match ?c with Some _ => _ | None => _ end] => destruct c
         | |- bind ?m _ = _ -> _ => destruct m; cbn [bind]
         end;
    try discriminate;
    intros H; injection H as <-;
    first [apply push_result_length | lia].
Qed.

Lemma generateCrossTabs_at_most_one_per_variable_witness :
  exists results,
    generateCrossTabs Math_exp_ref Number_unused scenarioA scenarioA_config
    = Ok results
    /\ length results <= 1.
Proof.
  eexists. split; [vm_compute; reflexivity|].
  apply (@generateCrossTabs_at_most_one_per_variable Math_exp_ref Number_unused
           scenarioA scenarioA_config).
  vm_compute. reflexivity.
Defined.

(** ** The regular cross-tab *)

Lemma banner_columns_of_data bannerVars dataMap hs byVar :
  banner_headers bannerVars dataMap = (hs, byVar) ->
  banner_columns bannerVars byVar = data_banner_columns bannerVars dataMap
  /\ hs = "Total"%string :: map snd (data_banner_columns bannerVars dataMap).
Proof.
  intros E. destruct (banner_headers_spec bannerVars dataMap) as [o [E' H]].
  rewrite E in E'. injection E' as -> ->.
  unfold banner_columns, data_banner_columns. split.
  - clear E. induction bannerVars as [|v vars IH]; [reflexivity|].
    cbn [flat_map]. rewrite H by now left. f_equal.
    apply IH. intros x Hx. apply H. now right.
  - f_equal. clear. induction bannerVars as [|v vars IH]; [reflexivity|].
    cbn [flat_map]. rewrite map_app, map_map. cbn [snd]. rewrite map_id.
    now f_equal.
Qed.

Lemma count_row_counts p bannerVars dataMap hs byVar :
  banner_headers bannerVars dataMap = (hs, byVar) ->
  count_row bannerVars byVar (count p dataMap)
    (fun bannerVar bannerVal =>
       count (fun row => p row && String.eqb (cell_text row bannerVar) bannerVal)
             dataMap)
  = counts_of p bannerVars dataMap.
Proof.
  intros E. rewrite count_row_eq. unfold counts_of.
  now destruct (banner_columns_of_data _ _ E) as [-> _].
Qed.

(** X8. The counts of a regular cross-tab, cell by cell.  For a question
    that is not open-ended and has an answer, the header row is Total
    followed by the values of the banner columns; the row of category
    [v] counts the rows whose answer is [v], in all and per banner column;
    the last row, Total, repeats the bases, which count the rows with an
    answer. *)
Theorem createRegularCrossTab_counts :
  forall (Math_exp : number -> number) (dataMap : list Row)
         (tableVar : string) (bannerVars : list string) (qt : QuestionType)
         (allHeaders : list string) (displayName : string) (r : CrossTabResult),
    QuestionType_eqb qt open_ended = false ->
    createRegularCrossTab Math_exp dataMap tableVar bannerVars qt allHeaders
      displayName = Some r ->
    let answers := distinct_values dataMap tableVar in
    answers <> []
    /\ rowLabels r = (answers ++ ["Total"%string])%list
    /\ result_headers r
       = "Total"%string :: map snd (data_banner_columns bannerVars dataMap)
    /\ baseValues r
       = counts_of (fun row => non_blank (cell_text row tableVar)) bannerVars
                   dataMap
    /\ absolute r
       = (map (fun v => counts_of (fun row => String.eqb (cell_text row tableVar) v)
                                  bannerVars dataMap)
              answers
          ++ [baseValues r])%list.
Proof.
  intros Math_exp dataMap tableVar bannerVars qt allHeaders displayName r Hqt.
  unfold createRegularCrossTab. rewrite Hqt. cbv zeta.
  destruct (length (distinct_values dataMap tableVar) =? 0) eqn:El;
    [discriminate|].
  destruct (banner_headers bannerVars dataMap) as [hs byVar] eqn:Eb.
  rewrite pair_loop_map
    with (fa := fun tableVal =>
                  count_row bannerVars byVar
                    (count (fun row => String.eqb (cell_text row tableVar) tableVal) dataMap)
                    (fun bannerVar bannerVal =>
                       count (fun row => String.eqb (cell_text row tableVar) tableVal
                                         && String.eqb (cell_text row bannerVar) bannerVal)
                             dataMap)).
  intros H. injection H as <-.
  cbn [rowLabels result_headers baseValues absolute app].
  rewrite (count_row_counts (fun row => non_blank (cell_text row tableVar)) _ _ Eb).
  destruct (banner_columns_of_data _ _ Eb) as [_ ->].
  repeat split.
  - intros E0. rewrite E0 in El. discriminate.
  - unfold push. f_equal. apply map_ext. intros v.
    apply (count_row_counts (fun row => String.eqb (cell_text row tableVar) v) _ _ Eb).
Qed.

Lemma createRegularCrossTab_counts_witness :
  exists r,
    createRegularCrossTab Math_exp_ref scenarioA_dataMap "Gender"
      ["Region"%string] binary (headers scenarioA) "Gender" = Some r
    /\ rowLabels r = ["Female"; "Male"; "Total"]%string
    /\ nth 1 (absolute r) [] = [60; 30; 30]%float.
Proof.
  assert (E : exists r,
             createRegularCrossTab Math_exp_ref scenarioA_dataMap "Gender"
               ["Region"%string] binary (headers scenarioA) "Gender" = Some r)
    by (vm_compute; eexists; reflexivity).
  destruct E as [r E]. exists r. split; [exact E|].
  destruct (@createRegularCrossTab_counts Math_exp_ref scenarioA_dataMap
              "Gender"%string ["Region"%string] binary (headers scenarioA)
              "Gender"%string r eq_refl E)
    as (_ & Hl & _ & _ & Ha).
  split; [rewrite Hl | rewrite Ha]; vm_compute; reflexivity.
Defined.

Lemma dedupe_nil l : dedupe l = [] -> l = [].
Proof.
  destruct l as [|x l]; [reflexivity|]. unfold dedupe.
  rewrite forEach_cons. cbn [arr_includes existsb].
  intros E.
  assert (H : length (push [] x)
              <= length (forEach l
                           (fun x seen => if arr_includes seen x then seen
                                          else push seen x)
                           (push [] x))).
  { apply forEach_length_mono. intros y s.
    destruct (arr_includes s y); [apply le_n | rewrite push_length; lia]. }
  rewrite E in H. cbn in H. lia.
Qed.

Lemma sort_strings_nil l : sort_strings l = [] -> l = [].
Proof.
  intros E. apply Permutation_nil. rewrite <- E.
  unfold sort_strings. apply sort_by_perm.
Qed.

Lemma distinct_values_nil dataMap col :
  distinct_values dataMap col = []
  <-> forall row, In row dataMap -> non_blank (cell_text row col) = false.
Proof.
  unfold distinct_values. split.
  - intros E. apply sort_strings_nil, dedupe_nil in E.
    rewrite filter_nil in E. intros row Hrow. apply E.
    apply in_map_iff. now exists row.
  - intros H.
    replace (filter non_blank (map (fun row => cell_text row col) dataMap))
      with (@nil string); [reflexivity|].
    symmetry. apply filter_nil. intros x Hx.
    apply in_map_iff in Hx. destruct Hx as (row & <- & Hrow). now apply H.
Qed.

(** X9. A regular cross-tab is produced exactly when the question has an
    answer: for a question that is not open-ended, the result is [null] if
    and only if no row has a cell in the column that is neither blank nor
    the text null or undefined. *)
Theorem createRegularCrossTab_none :
  forall (Math_exp : number -> number) (dataMap : list Row)
         (tableVar : string) (bannerVars : list string) (qt : QuestionType)
         (allHeaders : list string) (displayName : string),
    QuestionType_eqb qt open_ended = false ->
    (createRegularCrossTab Math_exp dataMap tableVar bannerVars qt allHeaders
       displayName = None
     <-> forall row, In row dataMap -> non_blank (cell_text row tableVar) = false).
Proof.
  intros Math_exp dataMap tableVar bannerVars qt allHeaders displayName Hqt.
  rewrite <- distinct_values_nil.
  unfold createRegularCrossTab. rewrite Hqt. cbv zeta.
  destruct (distinct_values dataMap tableVar) as [|v vs] eqn:Ed.
  - cbn [length Nat.eqb]. split; reflexivity.
  - cbn [length Nat.eqb].
    destruct (banner_headers bannerVars dataMap) as [hs byVar].
    destruct (forEach _ _ _) as [absolute percentage].
    split; discriminate.
Qed.

Lemma createRegularCrossTab_none_witness :
  createRegularCrossTab Math_exp_ref zero_base_dataMap "Age" ["Region"%string]
    single_choice ["Gender"; "Region"]%string "Age" = None.
Proof.
  apply createRegularCrossTab_none; [reflexivity|].
  intros row Hrow. vm_compute in Hrow.
  destruct Hrow as [<-|[<-|[]]]; reflexivity.
Defined.

(** ** The banner structure *)

Lemma createBannerStructure_loop dataMap l :
  forall acc idx,
    fst (forEach l
           (fun bannerVar '(bannerStructure, currentIndex) =>
              let question := Text.extractQuestionFromHeader bannerVar in
              let bannerValues := distinct_values dataMap bannerVar in
              (push bannerStructure
                 {| question := question;
                    answers := bannerValues;
                    startIndex := currentIndex;
                    endIndex := currentIndex + length bannerValues - 1 |},
               currentIndex + length bannerValues))
           (acc, idx))
    = (acc ++ blocks_from dataMap idx l)%list.
Proof.
  induction l as [|v l IH]; intros acc idx.
  - cbn. now rewrite app_nil_r.
  - rewrite forEach_cons. cbv zeta. rewrite IH. unfold push.
    now rewrite <- app_assoc.
Qed.

Lemma blocks_from_tiling dataMap l :
  forall pre idx b,
    length pre = idx -> 1 <= idx ->
    In b (blocks_from dataMap idx l) ->
    firstn (length (answers b))
           (skipn (startIndex b) (pre ++ flat_map (distinct_values dataMap) l))
    = answers b
    /\ endIndex b + 1 = startIndex b + length (answers b).
Proof.
  induction l as [|v l IH]; intros pre idx b Hlen Hidx; [intros []|].
  cbn [blocks_from flat_map]. intros [<-|Hb].
  - cbn [answers startIndex endIndex]. split; [|lia].
    rewrite <- Hlen, skipn_app, skipn_all, Nat.sub_diag. cbn [skipn app].
    rewrite firstn_app, firstn_all, Nat.sub_diag. cbn [firstn].
    apply app_nil_r.
  - rewrite app_assoc.
    apply IH with (idx := idx + length (distinct_values dataMap v)); auto.
    + rewrite length_app. lia.
    + lia.
Qed.

(** X10. The banner structure tiles the header row: the blocks come one per
    banner variable, in order; the headers at the columns [startIndex] to
    [endIndex] of a block are the answers of the block; and [endIndex] is
    one less than [startIndex] plus the number of answers. *)
Theorem createBannerStructure_tiles_headers :
  forall (bannerVars : list string) (dataMap : list Row),
    let blocks := createBannerStructure bannerVars dataMap in
    let hdrs := fst (banner_headers bannerVars dataMap) in
    map question blocks = map Text.extractQuestionFromHeader bannerVars
    /\ hdrs = "Total"%string :: flat_map answers blocks
    /\ Forall (fun b =>
                 firstn (length (answers b)) (skipn (startIndex b) hdrs)
                 = answers b
                 /\ endIndex b + 1 = startIndex b + length (answers b))
              blocks.
Proof.
  intros bannerVars dataMap blocks hdrs.
  assert (Eb : blocks = blocks_from dataMap 1 bannerVars).
  { unfold blocks, createBannerStructure.
    now rewrite createBannerStructure_loop. }
  assert (Eh : hdrs = "Total"%string :: flat_map (distinct_values dataMap) bannerVars).
  { unfold hdrs. destruct (banner_headers_spec bannerVars dataMap) as [o [E _]].
    now rewrite E. }
  assert (Ea : forall idx l,
             flat_map answers (blocks_from dataMap idx l)
             = flat_map (distinct_values dataMap) l).
  { intros idx l. revert idx.
    induction l as [|v l IH]; intros idx; [reflexivity|].
    cbn [blocks_from flat_map answers]. now rewrite IH. }
  assert (Eq : forall idx l,
             map question (blocks_from dataMap idx l)
             = map Text.extractQuestionFromHeader l).
  { intros idx l. revert idx.
    induction l as [|v l IH]; intros idx; [reflexivity|].
    cbn [blocks_from map question]. now rewrite IH. }
  rewrite Eb, Eh. split; [|split].
  - apply Eq.
  - now rewrite Ea.
  - apply Forall_forall. intros b Hb.
    apply (@blocks_from_tiling dataMap bannerVars ["Total"%string] 1 b);
      auto.
Qed.

(** ** Significance flags *)

(** X11. No cell is flagged in a column whose base is zero, and no cell at
    all when the base of the Total column is zero. *)
Theorem performSignificanceTests_zero_base :
  forall (Math_exp : number -> number) (absoluteData : list (list number))
         (baseValues : list number) (alpha : number) (r c : nat),
    r < length absoluteData ->
    c < length (nth r absoluteData []) ->
    PrimFloat.eqb (nth c baseValues undefined_number) 0 = true
    \/ PrimFloat.eqb (nth 0 baseValues undefined_number) 0 = true ->
    nth c (nth r (performSignificanceTests Math_exp absoluteData baseValues alpha) [])
        ""%string
    = ""%string.
Proof.
  intros Math_exp absoluteData baseValues alpha r c Hr Hc Hz.
  rewrite performSignificanceTests_cell by assumption.
  unfold cell_flag. destruct (c =? 0); [reflexivity|].
  cbv zeta. now rewrite zTest_zero_total.
Qed.

Lemma performSignificanceTests_zero_base_witness :
  nth 1 (nth 0 (performSignificanceTests Math_exp_ref [[50; 0]]%float
                  [100; 0]%float default_alpha) []) ""%string
  = ""%string.
Proof.
  apply performSignificanceTests_zero_base.
  - cbn. lia.
  - cbn. lia.
  - left. reflexivity.
Defined.

End CrossTabProperties.

(* ================================================================== *)
(** * Further properties of the ranking batteries *)
(* ================================================================== *)

Module RankingProperties.
Import JS Regex Types Ranking CrossTab CrossTabSpec RankingSpec RankingVocabulary.
Import CrossTabVocabulary PercentFacts.
Import LoopFacts CrossTabFacts ShapeFacts ArrayFacts.
Local Open Scope string_scope.

(** ** What a detected structure looks like *)

(** The values of the groups hold pushed elements only. *)
Lemma group_push_In (groups : obj (list string)) k v k' l' x :
  In (k', l') (group_push groups k v) -> In x l' ->
  (k' = k /\ x = v) \/ (exists l, In (k', l) groups /\ In x l).
Proof.
  unfold group_push. intros H Hx.
  destruct (obj_get groups k) as [l|] eqn:Eg.
  - apply In_obj_set in H. destruct H as [[-> ->]|H].
    + unfold push in Hx. apply in_app_iff in Hx. destruct Hx as [Hx|[<-|[]]].
      * right. exists l. split; [now apply obj_get_member | exact Hx].
      * now left.
    + right. now exists l'.
  - apply In_obj_set in H. destruct H as [[-> ->]|H].
    + destruct Hx as [<-|[]]. now left.
    + right. now exists l'.
Qed.

Lemma groupColumnsByRank_In columns g x :
  In g (groupColumnsByRank columns) -> In x g -> In x columns.
Proof.
  unfold groupColumnsByRank. cbv zeta.
  match goal with |- context [obj_keys ?g] => set (groups := g) end.
  assert (Hinv : forall k l y, In (k, l) groups -> In y l -> In y columns).
  { unfold groups.
    apply (@forEach_invariant _ _
             (fun gs : obj (list string) =>
                forall k l y, In (k, l) gs -> In y l -> In y columns)).
    - intros k l y [].
    - intros column gs Hc Hgs k l y.
      destruct (exec rank_pattern column) as [rankMatch|]; [|apply Hgs].
      intros Hin Hy.
      destruct (group_push_In _ _ _ _ _ _ Hin Hy) as [[_ ->]|(l0 & Hl0 & Hy0)].
      + exact Hc.
      + eapply Hgs; eauto. }
  intros Hg Hx. apply in_map_iff in Hg. destruct Hg as (rank & <- & _).
  unfold sort_strings in Hx. apply sort_by_In in Hx.
  destruct (obj_get groups rank) as [l|] eqn:El; [|destruct Hx].
  eapply Hinv; [apply obj_get_member; exact El | exact Hx].
Qed.

Lemma nth_In_or_nil {A} (l : list (list A)) k x :
  In x (nth k l []) -> In (nth k l []) l.
Proof.
  intros Hx. destruct (Nat.lt_ge_cases k (length l)) as [Hk|Hk].
  - now apply nth_In.
  - rewrite nth_overflow in Hx by exact Hk. destruct Hx.
Qed.

Lemma analyzeRankStructure_inv questionRoot rankColumns allHeaders s :
  analyzeRankStructure questionRoot rankColumns allHeaders = Some s ->
  questionName s = questionRoot
  /\ options s <> []
  /\ 1 <= maxRanks s <= 3
  /\ length (rank1Columns (columnMapping s)) = length (options s)
  /\ length (rank2Columns (columnMapping s))
     = (if 2 <=? maxRanks s then length (options s) else 0)%nat
  /\ length (rank3Columns (columnMapping s))
     = (if 3 <=? maxRanks s then length (options s) else 0)%nat
  /\ (forall col, In col (mapped_columns_of s) -> In col rankColumns).
Proof.
  unfold analyzeRankStructure. cbv zeta.
  set (rg := groupColumnsByRank (sort_strings rankColumns)).
  destruct (length rg <? 2)%nat eqn:E2; [discriminate|].
  apply Nat.ltb_ge in E2.
  set (opts := extractOptionsFromRankGroup (nth 0 rg [])).
  destruct (length opts =? 0)%nat eqn:E0; [discriminate|].
  apply Nat.eqb_neq in E0.
  destruct (forallb _ rg) eqn:Ev; cbn [negb]; [|discriminate].
  rewrite forallb_forall in Ev.
  intros E.
  set (mr := Nat.min 3 (length rg - 1)) in E.
  assert (Hmr : mr = Nat.min 3 (length rg - 1)) by reflexivity.
  clearbody mr. injection E as <-.
  cbn [questionName options maxRanks columnMapping rank1Columns rank2Columns
       rank3Columns].
  assert (Hlen : forall k, length (nth k rg [])
                           = if (k <? length rg)%nat then length opts else 0%nat).
  { intros k. destruct (k <? length rg)%nat eqn:Ek.
    - apply Nat.ltb_lt in Ek. apply Nat.eqb_eq, Ev. now apply nth_In.
    - apply Nat.ltb_ge in Ek. now rewrite nth_overflow. }
  repeat split.
  - intros E. apply E0. now rewrite E.
  - lia.
  - lia.
  - rewrite Hlen. destruct (Nat.ltb_spec 1 (length rg)); [reflexivity | lia].
  - rewrite Hlen.
    destruct (Nat.ltb_spec 2 (length rg));
      destruct (Nat.leb_spec 2 mr); lia || reflexivity.
  - rewrite Hlen.
    destruct (Nat.ltb_spec 3 (length rg));
      destruct (Nat.leb_spec 3 mr); lia || reflexivity.
  - unfold mapped_columns_of.
    cbn [columnMapping rank1Columns rank2Columns rank3Columns].
    intros col Hcol.
    assert (Hg : exists g, In g rg /\ In col g).
    { rewrite !in_app_iff in Hcol.
      destruct Hcol as [H|[H|H]]; eexists; (split; [|exact H]);
        eapply nth_In_or_nil; exact H. }
    destruct Hg as (g & Hg & Hc).
    pose proof (groupColumnsByRank_In _ _ _ Hg Hc) as Hs.
    unfold sort_strings in Hs. now apply sort_by_In in Hs.
Qed.

(** The groups of [detectRankQuestionStructure]: every column is filed
    under its own root. *)
Lemma questionGroups_inv (hs : list string) :
  forall k l y,
    In (k, l)
       (forEach hs
          (fun header questionGroups =>
             group_push questionGroups (extractRankQuestionRoot header) header)
          []) ->
    In y l -> In y hs /\ extractRankQuestionRoot y = k.
Proof.
  apply (@forEach_invariant _ _
           (fun gs : obj (list string) =>
              forall k l y, In (k, l) gs -> In y l ->
                            In y hs /\ extractRankQuestionRoot y = k)).
  - intros k l y [].
  - intros header gs Hh Hgs k l y Hin Hy.
    destruct (group_push_In _ _ _ _ _ _ Hin Hy) as [[-> ->]|(l0 & Hl0 & Hy0)].
    + now split.
    + eapply Hgs; eauto.
Qed.

Lemma QuestionType_eqb_eq a b : QuestionType_eqb a b = true -> a = b.
Proof. destruct a, b; cbn; congruence. Qed.

(** X12. Every detected structure is well formed: it has at least one
    option and between one and three ranks; the first [maxRanks] column
    lists have one column per option and the others are empty. *)
Theorem detected_structures_well_formed :
  forall (headers : list string) (questionTypes : obj QuestionType),
    Forall (fun s =>
              options s <> []
              /\ 1 <= maxRanks s <= 3
              /\ length (rank1Columns (columnMapping s)) = length (options s)
              /\ length (rank2Columns (columnMapping s))
                 = (if 2 <=? maxRanks s then length (options s) else 0)%nat
              /\ length (rank3Columns (columnMapping s))
                 = (if 3 <=? maxRanks s then length (options s) else 0)%nat)
           (detectRankQuestionStructure headers questionTypes).
Proof.
  intros headers questionTypes. unfold detectRankQuestionStructure. cbv zeta.
  apply forEach_invariant; [constructor|].
  intros [questionRoot columns] acc _ Hacc.
  destruct (analyzeRankStructure questionRoot columns headers) as [s|] eqn:Es;
    [|exact Hacc].
  apply Forall_push; [exact Hacc|].
  apply analyzeRankStructure_inv in Es.
  destruct Es as (_ & H1 & H2 & H3 & H4 & H5 & _). auto.
Qed.

(** X13. A detected structure maps only columns of its own question: every
    column of its three rank lists is a header typed as ranking whose
    question root is the name of the structure. *)
Theorem detected_structures_map_ranking_headers :
  forall (headers : list string) (questionTypes : obj QuestionType),
    Forall (fun s =>
              forall col,
                In col (mapped_columns_of s) ->
                In col headers
                /\ obj_get questionTypes col = Some ranking
                /\ extractRankQuestionRoot col = questionName s)
           (detectRankQuestionStructure headers questionTypes).
Proof.
  intros headers questionTypes. unfold detectRankQuestionStructure. cbv zeta.
  match goal with |- context [filter ?f headers] => set (rankingHeaders := filter f headers) end.
  apply forEach_invariant; [constructor|].
  intros [questionRoot columns] acc Hin Hacc.
  destruct (analyzeRankStructure questionRoot columns headers) as [s|] eqn:Es;
    [|exact Hacc].
  apply Forall_push; [exact Hacc|].
  apply analyzeRankStructure_inv in Es.
  destruct Es as (Hn & _ & _ & _ & _ & _ & Hcols).
  intros col Hcol. apply Hcols in Hcol.
  apply (proj1 (own_entries_In _ _)) in Hin.
  destruct (questionGroups_inv _ _ _ _ Hin Hcol) as [Hr Hroot].
  unfold rankingHeaders in Hr. apply filter_In in Hr. destruct Hr as [Hh Ht].
  split; [exact Hh|]. split; [|now rewrite Hn].
  destruct (obj_get questionTypes col) as [t|]; [|discriminate].
  now rewrite (QuestionType_eqb_eq _ _ Ht).
Qed.

(** ** The ranking views *)

(** X14. On a banner that defines every banner variable, the five
    ranking views have one row per option and one cell per base; the
    options and the number of ranks are those of the structure. *)
Theorem createRankingCrossTab_shape :
  forall (dataMap : list Row) (rankStructure : RankQuestionStructure)
         (bannerVars : list string) (byVar : obj (list string))
         (baseValues : list number),
    banner_defined bannerVars byVar = true ->
    let rc := createRankingCrossTab dataMap rankStructure bannerVars byVar
                baseValues in
    rankOptions rc = options rankStructure
    /\ rc_maxRanks rc = maxRanks rankStructure
    /\ Forall (fun '(_, view) =>
                 length view = length (options rankStructure)
                 /\ Forall (fun row : list number =>
                              length row = length baseValues) view)
              (rankingTypes rc).
Proof.
  intros dataMap rankStructure bannerVars byVar baseValues _ rc.
  pose proof (createRankingCrossTab_views dataMap rankStructure bannerVars
                byVar baseValues) as Hw.
  cbv zeta in Hw. fold rc in Hw.
  assert (Hl : Forall (fun '(_, view) =>
                         length (view : list (list number))
                         = length (options rankStructure))
                      (rankingTypes rc)).
  { unfold rc, createRankingCrossTab. cbv zeta.
    match goal with
    | |- context [forEachi ?l ?b ?i] =>
        pose proof (@forEachi_invariant _ _
                      (fun (k : nat)
                           (s : list (list number) * list (list number)
                                * list (list number) * list (list number)
                                * list (list number)) =>
                         let '(r1, r2, r3, r12, r123) := s in
                         length r1 = k /\ length r2 = k /\ length r3 = k
                         /\ length r12 = k /\ length r123 = k) b l i) as Hinv;
        destruct (forEachi l b i) as [[[[r1 r2] r3] r12] r123]
    end.
    destruct Hinv as (H1 & H2 & H3 & H4 & H5).
    - repeat split; reflexivity.
    - intros opt k [[[[v1 v2] v3] v12] v123] _ (G1 & G2 & G3 & G4 & G5).
      cbv beta iota zeta.
      destruct (for_range _ _ _) as [[[[a1 a2] a3] a12] a123].
      rewrite !push_length. repeat split; congruence.
    - unfold rankingTypes. cbn. repeat constructor; assumption. }
  assert (Ho : rankOptions rc = options rankStructure
               /\ rc_maxRanks rc = maxRanks rankStructure).
  { unfold rc, createRankingCrossTab. cbv zeta.
    destruct (forEachi _ _ _) as [[[[r1 r2] r3] r12] r123]. now split. }
  destruct Ho as [Ho Hm].
  split; [exact Ho|]. split; [exact Hm|].
  rewrite Forall_forall in Hw, Hl. apply Forall_forall.
  intros [label view] Hin. split.
  - apply (Hl _ Hin).
  - apply (Hw _ Hin).
Qed.

Lemma createRankingCrossTab_shape_witness :
  let rc := createRankingCrossTab ranked_dataMap ranked_structure
              ["Region"%string] ranked_banner [2; 1; 1]%float in
  rankOptions rc = options ranked_structure
  /\ rc_maxRanks rc = maxRanks ranked_structure
  /\ Forall (fun '(_, view) =>
               length view = length (options ranked_structure)
               /\ Forall (fun row : list number =>
                            length row = length [2; 1; 1]%float) view)
            (rankingTypes rc).
Proof.
  apply (@createRankingCrossTab_shape ranked_dataMap ranked_structure
           ["Region"%string] ranked_banner [2; 1; 1]%float).
  reflexivity.
Defined.


(** ** Counting a rank column *)

(** X15. [calculateRankCount] of a named column, on a banner that defines
    every banner variable: at column 0 the rows that hold a rank, at column
    [j + 1] those of them in the [j]-th banner column, and 0 when the
    banner has no such column. *)
Theorem calculateRankCount_column dataMap columnName bannerVars byVar j :
  is_empty_string columnName = false ->
  banner_defined bannerVars byVar = true ->
  let ranked := fun row => has_rank_value (cell_text row columnName) in
  calculateRankCount dataMap (Some columnName) bannerVars byVar 0
  = count ranked dataMap
  /\ calculateRankCount dataMap (Some columnName) bannerVars byVar (S j)
     = match nth_error (banner_columns bannerVars byVar) j with
       | Some (bannerVar, bannerVal) =>
           count ranked (group_rows dataMap bannerVar bannerVal)
       | None => 0%float
       end.
Proof.
  intros Hc _ ranked. unfold calculateRankCount. rewrite Hc. cbn [Nat.eqb].
  split; [reflexivity|].
  rewrite forEach_banner_columns.
  pose proof (@banner_find_loop number
                (fun bannerVar bannerVal =>
                   count (fun row =>
                            has_rank_value (cell_text row columnName)
                            && String.eqb (cell_text row bannerVar) bannerVal)
                         dataMap)
                (S j) (banner_columns bannerVars byVar) 1 ltac:(lia)) as H.
  match goal with
  | H : snd ?x = _ |- (let '(_, found) := ?y in _) = _ =>
      change y with x; destruct x as [cur found]
  end.
  cbn [snd] in H. subst found.
  replace (S j - 1) with j by lia.
  destruct (nth_error (banner_columns bannerVars byVar) j) as [[bv bval]|];
    [|reflexivity].
  cbn [option_map]. unfold count, group_rows, ranked. f_equal. f_equal.
  induction dataMap as [|row rws IH]; [reflexivity|].
  cbn [filter].
  destruct (String.eqb (cell_text row bv) bval) eqn:E; cbn [filter];
    rewrite ?andb_true_r, ?andb_false_r.
  - destruct (has_rank_value _); [now rewrite IH | exact IH].
  - exact IH.
Qed.

Lemma calculateRankCount_column_witness :
  let ranked := fun row => has_rank_value (cell_text row "Q1_Rank1_A") in
  calculateRankCount ranked_dataMap (Some "Q1_Rank1_A"%string)
    ["Region"%string] ranked_banner 0
  = count ranked ranked_dataMap
  /\ calculateRankCount ranked_dataMap (Some "Q1_Rank1_A"%string)
       ["Region"%string] ranked_banner 2
     = match nth_error (banner_columns ["Region"%string] ranked_banner) 1 with
       | Some (bannerVar, bannerVal) =>
           count ranked (group_rows ranked_dataMap bannerVar bannerVal)
       | None => 0%float
       end.
Proof.
  apply (@calculateRankCount_column ranked_dataMap "Q1_Rank1_A"%string
           ["Region"%string] ranked_banner 1); reflexivity.
Defined.

End RankingProperties.

(* ================================================================== *)
(** * Further properties of the type detector *)
(* ================================================================== *)

Module TypeDetectorProperties.
Import JS Types TypeDetector TypeDetectorSpec TypeDetectorVocabulary.
Import LoopFacts TypeDetectorClaims.

(** [analyzeQuestionType] reads its values through the sampled cells
    only. *)
Lemma analyzeQuestionType_sample Number Date_year header values values'
      sampleSize :
  cleanValues values sampleSize = cleanValues values' sampleSize ->
  analyzeQuestionType Number Date_year header values sampleSize
  = analyzeQuestionType Number Date_year header values' sampleSize.
Proof.
  intros E. unfold analyzeQuestionType. cbv zeta.
  fold (cleanValues values sampleSize). fold (cleanValues values' sampleSize).
  now rewrite E.
Qed.

(** X16. No usable cell, no analysis: when every cell, once trimmed, is
    blank or one of the texts null, undefined, N/A and n/a, the column is
    typed single-choice with confidence 0.1. *)
Theorem analyzeQuestionType_no_data :
  forall (Number : string -> number) (Date_year : string -> option Z)
         (header : string) (values : list string) (sampleSize : nat),
    Forall (fun v => In (trim v) unusable_values) values ->
    analyzeQuestionType Number Date_year header values sampleSize
    = {| qta_type := single_choice; confidence := 0.1%float;
         reasoning := "No valid data found"%string |}.
Proof.
  intros Number Date_year header values sampleSize H.
  rewrite (@analyzeQuestionType_sample Number Date_year header values []
             sampleSize).
  - unfold analyzeQuestionType. cbn [map filter]. now rewrite firstn_nil.
  - unfold cleanValues. cbn [map filter]. rewrite firstn_nil.
    replace (filter _ (map trim values)) with (@nil string);
      [apply firstn_nil|].
    symmetry. induction H as [|v l Hv _ IH]; [reflexivity|].
    cbn [map filter]. rewrite <- IH.
    destruct Hv as [<-|[<-|[<-|[<-|[<-|[]]]]]]; reflexivity.
Qed.

Lemma analyzeQuestionType_no_data_witness :
  analyzeQuestionType Number_nan Date_invalid "Age"
    [" "; "null"; "N/A "; ""]%string default_sampleSize
  = {| qta_type := single_choice; confidence := 0.1%float;
       reasoning := "No valid data found"%string |}.
Proof.
  apply analyzeQuestionType_no_data.
  repeat constructor; vm_compute; tauto.
Defined.

(** X17. Cells after the sample do not count: once [sampleSize] usable
    cells have been read, further values do not change the analysis. *)
Theorem analyzeQuestionType_sample_cap :
  forall (Number : string -> number) (Date_year : string -> option Z)
         (header : string) (values more : list string) (sampleSize : nat),
    sampleSize <= length (cleanValues values sampleSize) ->
    analyzeQuestionType Number Date_year header (values ++ more) sampleSize
    = analyzeQuestionType Number Date_year header values sampleSize.
Proof.
  intros Number Date_year header values more sampleSize H.
  apply analyzeQuestionType_sample.
  unfold cleanValues in *. rewrite map_app, filter_app.
  rewrite length_firstn in H.
  rewrite firstn_app.
  replace (sampleSize - length _) with 0 by lia.
  cbn [firstn]. apply app_nil_r.
Qed.

Lemma analyzeQuestionType_sample_cap_witness :
  analyzeQuestionType Number_nan Date_invalid "Brand"
    (["a"; "b"; ""; "c"]%string ++ ["2024-01-01"; "d"]%string) 3
  = analyzeQuestionType Number_nan Date_invalid "Brand"
      ["a"; "b"; ""; "c"]%string 3.
Proof.
  apply analyzeQuestionType_sample_cap. vm_compute. lia.
Defined.

(** X18. The confidence of an analysis is one of nine levels, so it lies
    between 0.1 and 0.95. *)
Theorem analyzeQuestionType_confidence :
  forall (Number : string -> number) (Date_year : string -> option Z)
         (header : string) (values : list string) (sampleSize : nat),
    let c := confidence (analyzeQuestionType Number Date_year header values
                           sampleSize) in
    In c confidence_levels
    /\ PrimFloat.leb 0.1 c = true /\ PrimFloat.leb c 0.95 = true.
Proof.
  intros Number Date_year header values sampleSize c.
  assert (Hin : In c confidence_levels).
  { unfold c, analyzeQuestionType. cbv zeta.
    repeat match goal with
           | |- In (confidence (if ?b then _ else _)) _ => destruct b
           end;
      cbn [confidence];
      repeat match goal with
             | |- In (if ?b then _ else _) _ => destruct b
             end;
      unfold confidence_levels; cbn [In]; tauto. }
  split; [exact Hin|].
  unfold confidence_levels in Hin. cbn [In] in Hin.
  repeat destruct Hin as [<-|Hin]; try (split; reflexivity).
  destruct Hin.
Qed.

End TypeDetectorProperties.

(* ================================================================== *)
(** * Further properties of the open-end coder *)
(* ================================================================== *)

Module OpenEndProperties.
Import JS OpenEnd OpenEndSpec OpenEndVocabulary.
Import LoopFacts SortFacts ArrayFacts OpenEndClaims.

(** ** Arrays built with their indices *)

Section WithSettings.

Variable st : CodingSettings.
Variable Math_log : number -> number.

(** The kept responses, by the index of their row. *)
Lemma preprocessResponses_rows rs :
  preprocessResponses st rs
  = map (fun i => {| text := trim (nth i rs ""%string); originalIndex := i |})
        (filter (fun i => kept st (trim (nth i rs ""%string)))
                (seq 0 (length rs))).
Proof.
  unfold preprocessResponses.
  rewrite (forEachi_push_map
             (fun t index => {| text := trim t; originalIndex := index |})
             ""%string).
  rewrite filter_map_swap. reflexivity.
Qed.

Lemma map_r_map {A B C} (f : A -> result B) (g : A -> C) (h : B -> C) l :
  (forall x y, f x = Ok y -> h y = g x) ->
  forall ys, map_r f l = Ok ys -> map h ys = map g l.
Proof.
  intros H. induction l as [|x l IH]; intros ys; cbn [map_r].
  - intros E. now injection E as <-.
  - destruct (f x) as [y|e] eqn:Ef; cbn [bind]; [|discriminate].
    destruct (map_r f l) as [ys'|e]; cbn [bind]; [|discriminate].
    intros E. injection E as <-. cbn [map].
    now rewrite (H x y Ef), (IH ys' eq_refl).
Qed.

Lemma assigned_response response cats r :
  (let '(bestCategory, bestScore) :=
     forEach cats
       (fun category '(bestCategory, bestScore) =>
          let score := calculateCategoryScore (text response) category in
          if PrimFloat.ltb bestScore score then (Some category, score)
          else (bestCategory, bestScore))
       (last_category cats, 0%float) in
   match bestCategory with
   | None => Throw TypeError
   | Some bestCategory =>
       Ok {| or_id := "response_"
                      ++ Number_toString (of_nat (originalIndex response));
             or_text := text response;
             categoryId := oc_id bestCategory;
             or_confidence := bestScore;
             rowIndex := originalIndex response |}
   end) = Ok r ->
  rowIndex r = originalIndex response
  /\ or_text r = text response
  /\ or_id r = ("response_" ++ Number_toString (of_nat (rowIndex r)))%string.
Proof.
  destruct (forEach cats _ _) as [[best|] score]; [|discriminate].
  intros E. injection E as <-. cbn. auto.
Qed.

End WithSettings.

(** X19. The coded responses are the kept responses, row by row: their
    row indices are, in ascending order, the indices of the inputs that
    pass the test of the preprocessing; the text of each is the trimmed
    input of its row and its id is made of the row index. *)
Theorem codeResponses_rows :
  forall (st : CodingSettings) (Math_log : number -> number)
         (rs : list string) (questionCol : string) (out : OpenEndCoding),
    codeResponses st Math_log rs questionCol = Ok out ->
    map rowIndex (responses out)
    = filter (fun i => kept st (trim (nth i rs ""%string))) (seq 0 (length rs))
    /\ Forall (fun r =>
                 or_text r = trim (nth (rowIndex r) rs ""%string)
                 /\ or_id r
                    = ("response_" ++ Number_toString (of_nat (rowIndex r)))%string)
              (responses out)
    /\ questionColumn out = questionCol
    /\ settings out = st.
Proof.
  intros st Math_log rs questionCol out. unfold codeResponses. cbv zeta.
  destruct (generateCategories st Math_log _) as [cats|e]; cbn [bind];
    [|discriminate].
  destruct (assignResponsesToCategories _ cats) as [coded|e] eqn:Ea;
    cbn [bind]; [|discriminate].
  intros E. injection E as <-.
  cbn [responses questionColumn settings].
  unfold assignResponsesToCategories in Ea.
  split; [|split; [|split; reflexivity]].
  - rewrite (map_r_map _ originalIndex rowIndex _
               (fun x y H => proj1 (assigned_response x cats H)) Ea).
    rewrite preprocessResponses_rows, map_map. cbn [originalIndex].
    apply map_id.
  - eapply map_r_Forall; [exact Ea|].
    intros x y Hx Hy. cbv beta in Hy.
    apply assigned_response in Hy. destruct Hy as (Hi & Ht & Hid).
    split; [|exact Hid].
    rewrite Ht, Hi. rewrite preprocessResponses_rows in Hx.
    apply in_map_iff in Hx. destruct Hx as (i & <- & _). reflexivity.
Qed.

Lemma codeResponses_rows_witness :
  exists out,
    codeResponses sample_settings Math_log_unused sample_responses "Q7" = Ok out
    /\ map rowIndex (responses out) = [0; 1; 2; 3; 6].
Proof.
  assert (E : exists out,
             codeResponses sample_settings Math_log_unused sample_responses "Q7"
             = Ok out) by (vm_compute; eexists; reflexivity).
  destruct E as [out E]. exists out. split; [exact E|].
  destruct (@codeResponses_rows sample_settings Math_log_unused
              sample_responses "Q7"%string out E) as [H _].
  rewrite H. vm_compute. reflexivity.
Defined.

(** X4. With no category, coding fails: when the category list comes out
    empty and a response is kept, reading the id of the default category
    throws a TypeError. *)
Theorem codeResponses_empty_categories :
  forall (st : CodingSettings) (Math_log : number -> number)
         (rs : list string) (questionCol : string),
    generateCategories st Math_log (preprocessResponses st rs) = Ok [] ->
    preprocessResponses st rs <> [] ->
    codeResponses st Math_log rs questionCol = Throw TypeError.
Proof.
  intros st Math_log rs questionCol Hc Hne. unfold codeResponses. cbv zeta.
  rewrite Hc. cbn [bind].
  destruct (preprocessResponses st rs) as [|x l]; [congruence|].
  reflexivity.
Qed.

Lemma codeResponses_empty_categories_witness :
  codeResponses strict_settings Math_log_unused ["whatever else"%string] "Q7"
  = Throw TypeError.
Proof.
  apply codeResponses_empty_categories.
  - vm_compute. reflexivity.
  - vm_compute. discriminate.
Defined.

(** ** The keyword strategy *)

Lemma identifyThemes_length phrases : length (identifyThemes phrases) <= 8.
Proof.
  unfold identifyThemes. cbv zeta. rewrite sort_by_length.
  etransitivity; [apply forEach_length_le|].
  - intros [[nm kws] descr] s.
    destruct (0 <? length _); [rewrite push_length|]; lia.
  - reflexivity.
Qed.

(** X20. The keyword strategy yields at most nine categories, whatever
    [maxCategories] is; each category shows at most five sample responses,
    no more than it counts, and counts no more responses than were kept. *)
Theorem keywordBasedClustering_bounds :
  forall (st : CodingSettings) (rs : list Clean),
    let cats := keywordBasedClustering st rs in
    length cats <= 9
    /\ Forall (fun c =>
                 length (sampleResponses c) <= 5
                 /\ length (sampleResponses c) <= responseCount c
                 /\ responseCount c <= length rs)
              cats.
Proof.
  intros st rs cats. unfold cats, keywordBasedClustering. cbv zeta.
  set (themes := identifyThemes _).
  match goal with
  | |- context [forEachi themes ?b ?i] =>
      pose proof (@forEachi_invariant _ _
                    (fun k (s : list OpenEndCategory) =>
                       length s <= k
                       /\ Forall (fun c =>
                                    length (sampleResponses c) <= 5
                                    /\ length (sampleResponses c) <= responseCount c
                                    /\ responseCount c <= length rs) s)
                    b themes i) as Hinv;
      set (cs := forEachi themes b i) in *
  end.
  assert (Hsample : forall l : list Clean,
             length (map text (firstn 5 l)) <= 5
             /\ length (map text (firstn 5 l)) <= length l).
  { intros l. rewrite length_map, length_firstn. lia. }
  assert (Hfilter : forall (p : Clean -> bool), length (filter p rs) <= length rs).
  { intros p. apply filter_length. }
  destruct Hinv as [Hlen Hall].
  - split; [cbn; lia | constructor].
  - intros th k s _ [Hl Hs].
    destruct (PrimFloat.leb _ _).
    + rewrite push_length. split; [lia|].
      apply Forall_push; [exact Hs|].
      cbn [sampleResponses responseCount].
      destruct (Hsample (filter (fun r => matchesTheme (text r) (th_keywords th)) rs)).
      repeat split; auto.
    + split; [lia | exact Hs].
  - pose proof (identifyThemes_length (extractKeyPhrases (map text rs))) as H8.
    change (length themes <= 8) in H8.
    destruct (PrimFloat.leb _ _).
    + rewrite push_length. split; [lia|].
      apply Forall_push; [exact Hall|].
      cbn [sampleResponses responseCount].
      match goal with
      | |- context [firstn 5 ?l] => destruct (Hsample l)
      end.
      repeat split; auto.
    + split; [lia | exact Hall].
Qed.


(** ** The clusters *)

Section Clustering.

Variable st : CodingSettings.

(** The pair scan leaves the start values or names two clusters. *)
Lemma closest_pair_indices clusters tfidfMatrix allResponses :
  let '(minDistance, (i, j)) :=
    closest_pair clusters tfidfMatrix allResponses in
  minDistance = infinity \/ i < j < length clusters.
Proof.
  unfold closest_pair.
  set (n := length clusters).
  pose (P := fun (_ : nat) (acc : number * (nat * nat)) =>
               fst acc = infinity \/ fst (snd acc) < snd (snd acc) < n).
  match goal with
  | |- let '(_, _) := ?loop in _ => assert (H : P n loop)
  end.
  { apply (ShapeFacts.for_range_invariant P).
    - now left.
    - intros i acc Hi Hacc.
      apply (ShapeFacts.for_range_invariant P); [exact Hacc|].
      intros dj [d [a b]] Hdj Hs. cbv zeta.
      destruct (PrimFloat.ltb _ d); [|exact Hs].
      right. cbn [fst snd]. lia. }
  unfold P in H.
  destruct (for_range n _ _) as [d [i j]]. exact H.
Qed.

Lemma set_at_app {A} (l1 l2 : list A) x v :
  set_at (length l1) v (l1 ++ x :: l2) = (l1 ++ v :: l2)%list.
Proof.
  induction l1 as [|y l1 IH]; [reflexivity|].
  cbn [length app set_at]. now rewrite IH.
Qed.

Lemma remove_at_app {A} (l1 l2 : list A) x :
  remove_at (length l1) (l1 ++ x :: l2) = (l1 ++ l2)%list.
Proof.
  unfold remove_at.
  rewrite firstn_app, Nat.sub_diag, firstn_all. cbn [firstn].
  rewrite app_nil_r.
  replace (S (length l1)) with (length (l1 ++ [x]))
    by (rewrite length_app; cbn; lia).
  replace (l1 ++ x :: l2)%list with ((l1 ++ [x]) ++ l2)%list
    by (now rewrite <- app_assoc).
  rewrite skipn_app, skipn_all, Nat.sub_diag. reflexivity.
Qed.

(** A merge moves the members of cluster [j] into cluster [i]. *)
Lemma merge_keeps_members (clusters : list (list Clean)) i j ci cj :
  i < j ->
  nth_error clusters i = Some ci -> nth_error clusters j = Some cj ->
  Permutation (concat (remove_at j (set_at i (ci ++ cj)%list clusters)))
              (concat clusters).
Proof.
  intros Hij Hi Hj.
  destruct (nth_error_split _ _ Hi) as (A & R & -> & HA).
  rewrite nth_error_app2 in Hj by lia.
  replace (j - length A) with (S (j - length A - 1)) in Hj by lia.
  cbn [nth_error] in Hj.
  destruct (nth_error_split _ _ Hj) as (B & C & -> & HB).
  subst i. rewrite set_at_app.
  replace j with (length (A ++ (ci ++ cj) :: B))
    by (rewrite length_app; cbn [length]; lia).
  replace (A ++ (ci ++ cj) :: B ++ cj :: C)%list
    with ((A ++ (ci ++ cj) :: B) ++ cj :: C)%list
    by (rewrite <- app_assoc; reflexivity).
  rewrite remove_at_app.
  rewrite !concat_app. cbn [concat]. rewrite !concat_app. cbn [concat].
  rewrite <- !app_assoc.
  apply Permutation_app_head. apply Permutation_app_head.
  apply Permutation_app_swap_app.
Qed.

(** With a threshold below infinity the loop ends with clusters that hold
    the same responses. *)
Lemma clustering_loop_members tfidfMatrix allResponses :
  PrimFloat.ltb (similarityThreshold st) infinity = true ->
  forall fuel clusters,
    length clusters <= fuel ->
    exists clusters',
      clustering_loop st fuel clusters tfidfMatrix allResponses
      = Some (Ok clusters')
      /\ Permutation (concat clusters') (concat clusters)
      /\ length clusters' <= length clusters.
Proof.
  intros Hth.
  assert (Step : forall fuel clusters,
            (forall cs, length cs < length clusters -> length cs <= fuel ->
               exists clusters',
                 clustering_loop st fuel cs tfidfMatrix allResponses
                 = Some (Ok clusters')
                 /\ Permutation (concat clusters') (concat cs)
                 /\ length clusters' <= length cs) ->
            length clusters <= S fuel ->
            exists clusters',
              clustering_loop st (S fuel) clusters tfidfMatrix allResponses
              = Some (Ok clusters')
              /\ Permutation (concat clusters') (concat clusters)
              /\ length clusters' <= length clusters).
  { intros fuel clusters IH Hlen. cbn [clustering_loop].
    destruct (PrimFloat.ltb (maxCategories st) _); [|exists clusters; auto].
    pose proof (closest_pair_indices clusters tfidfMatrix allResponses) as Hp.
    destruct (closest_pair _ _ _) as [minDistance [i j]].
    destruct (PrimFloat.ltb (similarityThreshold st) minDistance) eqn:Eb;
      [exists clusters; auto|].
    cbv beta iota in Hp. destruct Hp as [Hp | Hij];
      [rewrite Hp in Eb; congruence|].
    destruct (nth_error clusters i) as [ci|] eqn:Ei;
      [|apply nth_error_None in Ei; lia].
    destruct (nth_error clusters j) as [cj|] eqn:Ej;
      [|apply nth_error_None in Ej; lia].
    pose proof (@remove_at_length _ j (set_at i (ci ++ cj)%list clusters)) as Hr.
    rewrite set_at_length in Hr. specialize (Hr (proj2 Hij)).
    destruct (IH (remove_at j (set_at i (ci ++ cj)%list clusters)))
      as (cs' & E & Hperm & Hl); [lia | lia |].
    exists cs'. split; [exact E|]. split; [|lia].
    etransitivity; [exact Hperm|].
    apply merge_keeps_members; [lia | exact Ei | exact Ej]. }
  induction fuel as [|fuel IH]; intros clusters Hlen.
  - destruct clusters; [|cbn in Hlen; lia].
    cbn [clustering_loop].
    destruct (PrimFloat.ltb (maxCategories st) _); [|exists []; auto].
    pose proof (closest_pair_indices [] tfidfMatrix allResponses) as Hp.
    destruct (closest_pair _ _ _) as [minDistance [i j]].
    destruct (PrimFloat.ltb (similarityThreshold st) minDistance) eqn:Eb;
      [exists []; auto|].
    cbv beta iota in Hp. destruct Hp as [Hp | Hij];
      [rewrite Hp in Eb; congruence | cbn in Hij; lia].
  - apply Step; [|exact Hlen]. intros cs _ Hcs. now apply IH.
Qed.

Lemma concat_singletons (rs : list Clean) : concat (map (fun r => [r]) rs) = rs.
Proof. induction rs as [|r rs IH]; [reflexivity|]. cbn. now rewrite IH. Qed.

Lemma concat_filter_split {A} (p : list A -> bool) l :
  Permutation (concat (filter p l) ++ concat (filter (fun c => negb (p c)) l))
              (concat l).
Proof.
  induction l as [|c l IH]; [reflexivity|].
  cbn [filter concat]. destruct (p c); cbn [negb concat].
  - rewrite <- app_assoc. now apply Permutation_app_head.
  - etransitivity; [apply Permutation_app_swap_app|].
    now apply Permutation_app_head.
Qed.

End Clustering.

(** The matrix of [semanticClustering] has a row per response. *)
Lemma calculateTFIDF_rows (Math_log : number -> number) documents vocabulary :
  length (calculateTFIDF Math_log documents vocabulary) = length documents.
Proof.
  unfold calculateTFIDF.
  rewrite (forEach_push_map
             (fun doc =>
                forEach vocabulary
                  (fun term tfidfVector =>
                     push tfidfVector
                       (PrimFloat.mul
                          (PrimFloat.div
                             (of_nat (match obj_get (count_words (tokenize doc) [])
                                                    term with
                                      | Some n => n
                                      | None => 0
                                      end))
                             (of_nat (length (tokenize doc))))
                          (Math_log
                             (PrimFloat.div
                                (of_nat (length documents))
                                (of_nat
                                   (length
                                      (filter (fun d =>
                                                 arr_includes (tokenize d) term)
                                              documents)
                                    + 1))))))
                  [])).
  cbn [app]. apply length_map.
Qed.



End OpenEndProperties.

(* ================================================================== *)
(** * Further properties of the text helpers and of the themes *)
(* ================================================================== *)

Module ThemeProperties.
Import JS Types Text CrossTab CrossTabSpec CrossTabVocabulary.
Import LoopFacts SortFacts ArrayFacts CrossTabFacts.
Local Open Scope string_scope.

(** ** Option labels *)

(** X21. [removeSharedPrefix] returns one label per column, and no label
    of a named column is empty. *)
Theorem removeSharedPrefix_labels :
  forall columns : list string,
    Forall2 (fun col label => col <> "" -> label <> "")
            columns (removeSharedPrefix columns).
Proof.
  intros columns.
  assert (Hrefl : Forall2 (fun col label : string => col <> "" -> label <> "")
                          columns columns).
  { induction columns; constructor; auto. }
  unfold removeSharedPrefix.
  destruct (length columns <=? 1)%nat; [exact Hrefl|].
  cbv zeta. destruct (for_range _ _ _) as [commonPrefix stopped].
  destruct (3 <? String.length _)%nat; [|exact Hrefl].
  clear Hrefl. induction columns as [|col l IH]; cbn [map]; constructor.
  - unfold or_else. intros Hcol.
    match goal with
    | |- (if is_empty_string ?c then _ else _) <> _ => destruct c
    end; cbn [is_empty_string]; [exact Hcol | discriminate].
  - exact IH.
Qed.

(** ** Themes of open-ended responses *)

Lemma counts_total_set themes k td td' :
  obj_get themes k = Some td ->
  counts_total (obj_set themes k td') + td_count td
  = counts_total themes + td_count td'.
Proof.
  unfold counts_total.
  induction themes as [|[k' v'] o IH]; cbn [obj_get obj_set]; [discriminate|].
  destruct (String.eqb k k').
  - intros E. injection E as ->. simpl. lia.
  - intros E. simpl. specialize (IH E). lia.
Qed.

(** One response more under the theme [t]. *)
Lemma record_response_counts bannerVars byVar row response t themes td :
  obj_get themes t = Some td ->
  let themes' := record_response bannerVars byVar row response t themes in
  map fst themes' = map fst themes
  /\ counts_total themes' = S (counts_total themes)
  /\ (Forall (fun kv => td_count (snd kv) = length (actualResponses (snd kv)))
             themes ->
      Forall (fun kv => td_count (snd kv) = length (actualResponses (snd kv)))
             themes').
Proof.
  intros Ht themes'. unfold themes', record_response. rewrite Ht.
  split; [eapply obj_set_present; eauto|]. split.
  - match goal with
    | |- counts_total (obj_set _ _ ?x) = _ =>
        pose proof (@counts_total_set themes t td x Ht) as H
    end.
    cbn [td_count] in H. lia.
  - intros Hall. apply Forall_obj_set; [exact Hall|].
    intros k'. cbn [snd td_count actualResponses]. rewrite push_length.
    f_equal.
    assert (Hin : In (t, td) themes) by now apply obj_get_member.
    rewrite Forall_forall in Hall. apply (Hall _ Hin).
Qed.

(** The theme with the most keyword matches is one of the list. *)
Lemma best_theme lowerResponse :
  let '(bestMatch, maxMatches) :=
    forEach themeKeywords
      (fun '(t, keywords) '(bestMatch, maxMatches) =>
         let matches :=
           length (filter (fun keyword => includes lowerResponse keyword)
                          keywords) in
         if (maxMatches <? matches)%nat then (t, matches)
         else (bestMatch, maxMatches))
      ("", 0) in
  (0 <? maxMatches)%nat = true -> In bestMatch (map fst themeKeywords).
Proof.
  match goal with
  | |- context [forEach ?l ?b ?i] =>
      pose proof (@forEach_invariant _ _
                    (fun s : string * nat =>
                       (0 <? snd s)%nat = true -> In (fst s) (map fst l))
                    b l i) as H;
      destruct (forEach l b i) as [bestMatch maxMatches]
  end.
  apply H.
  - cbn. discriminate.
  - intros [t keywords] [bm mm] Hin Hs. cbv zeta.
    destruct (mm <? _)%nat; [|exact Hs].
    intros _. cbn [fst]. apply in_map_iff. now exists (t, keywords).
Qed.

Lemma initial_themes e :
  obj_set
    (forEach (map fst themeKeywords)
       (fun t (themes : obj ThemeData) => obj_set themes t e) [])
    "Other" e
  = map (fun k => (k, e)) theme_names.
Proof. vm_compute. reflexivity. Qed.

Lemma own_entries_names {V} (o : obj V) :
  map fst o = theme_names -> own_entries o = o.
Proof.
  intros Hk.
  assert (Hnone : Forall (fun kv : string * V => array_index (fst kv) = None) o).
  { assert (Hn : Forall (fun k => array_index k = None) (map fst o)).
    { rewrite Hk. repeat constructor. }
    clear Hk. induction o as [|kv o IH]; constructor.
    - now inversion Hn.
    - apply IH. now inversion Hn. }
  unfold own_entries.
  assert (E1 : filter (fun kv => match array_index (fst kv) with
                                 | Some _ => true | None => false end) o = []).
  { clear Hk. induction Hnone as [|kv o Hkv _ IH]; [reflexivity|].
    cbn [filter]. now rewrite Hkv. }
  assert (E2 : filter (fun kv => match array_index (fst kv) with
                                 | Some _ => false | None => true end) o = o).
  { clear Hk E1. induction Hnone as [|kv o Hkv _ IH]; [reflexivity|].
    cbn [filter]. now rewrite Hkv, IH. }
  now rewrite E1, E2.
Qed.

(** The loop over the rows: one response more per answered row. *)
Lemma themes_loop tableVar bannerVars byVar rows :
  forall (th0 : obj ThemeData) k0,
    map fst th0 = theme_names ->
    counts_total th0 = k0 ->
    Forall (fun kv => td_count (snd kv) = length (actualResponses (snd kv))) th0 ->
    let th :=
      forEach rows
        (fun row themes0 =>
           let response := cell_text row tableVar in
           if is_empty_string response || (response =? "null")
              || (response =? "undefined")
           then themes0
           else
             let lowerResponse := toLowerCase response in
             let '(bestMatch, maxMatches) :=
               forEach themeKeywords
                 (fun '(t, keywords) '(bestMatch, maxMatches) =>
                    let matches :=
                      length (filter (fun keyword => includes lowerResponse keyword)
                                     keywords) in
                    if (maxMatches <? matches)%nat then (t, matches)
                    else (bestMatch, maxMatches))
                 ("", 0) in
             if (0 <? maxMatches)%nat
             then record_response bannerVars byVar row response bestMatch themes0
             else record_response bannerVars byVar row response "Other" themes0)
        th0 in
    map fst th = theme_names
    /\ counts_total th = k0 + length (answered_rows rows tableVar)
    /\ Forall (fun kv => td_count (snd kv) = length (actualResponses (snd kv))) th.
Proof.
  unfold answered_rows.
  induction rows as [|row rows IH]; intros th0 k0 Hk Hc Ha.
  - cbn. rewrite Nat.add_0_r. auto.
  - cbv zeta. rewrite forEach_cons. cbn [filter].
    unfold non_blank at 1.
    destruct (cell_text row tableVar) as [|c resp] eqn:Ec.
    + cbn [is_empty_string orb String.eqb negb andb]. now apply IH.
    + cbn [is_empty_string orb].
      destruct (String.eqb_spec (String c resp) "null") as [En|Hn].
      { cbn [orb negb andb]. now apply IH. }
      destruct (String.eqb_spec (String c resp) "undefined") as [Eu|Hu].
      { cbn [orb negb andb]. rewrite andb_false_r. now apply IH. }
      cbn [orb negb andb String.eqb length].
      pose proof (best_theme (toLowerCase (String c resp))) as Hb.
      destruct (forEach themeKeywords _ _) as [bestMatch maxMatches].
      assert (Hkey : exists t td,
                 obj_get th0 t = Some td
                 /\ (if (0 <? maxMatches)%nat
                     then record_response bannerVars byVar row (String c resp)
                            bestMatch th0
                     else record_response bannerVars byVar row (String c resp)
                            "Other" th0)
                    = record_response bannerVars byVar row (String c resp) t th0).
      { destruct (0 <? maxMatches)%nat.
        - destruct (@obj_get_of_key _ th0 bestMatch) as [td Htd].
          + rewrite Hk. unfold theme_names. apply in_or_app. left. now apply Hb.
          + now exists bestMatch, td.
        - destruct (@obj_get_of_key _ th0 "Other") as [td Htd].
          + rewrite Hk. unfold theme_names. apply in_or_app. right. now left.
          + now exists "Other", td. }
      destruct Hkey as (t & td & Htd & ->).
      destruct (record_response_counts bannerVars byVar row (String c resp)
                  t th0 Htd) as (K1 & K2 & K3).
      specialize (IH _ (S k0) (eq_trans K1 Hk)
                     (eq_trans K2 (f_equal S Hc)) (K3 Ha)).
      cbv zeta in IH. destruct IH as (I1 & I2 & I3).
      repeat split; auto. rewrite I2. lia.
Qed.

(** X22. On a banner that defines every banner variable, every answered
    row is counted under exactly one theme: when
    there is a valid response, the counts of the themes add up to the
    number of rows with an answer; every theme returned has at least one
    response and lists as many responses as it counts; the themes come in
    descending order of their counts and bear names of the fixed list. *)
Theorem extractThemesWithResponses_counts :
  forall (responses : list string) (dataMap : list Row) (tableVar : string)
         (bannerVars : list string) (byVar : obj (list string)),
    (exists r, In r responses /\ trim r <> "") ->
    banner_defined bannerVars byVar = true ->
    let themes :=
      extractThemesWithResponses responses dataMap tableVar bannerVars byVar in
    list_sum (map tw_count themes) = length (answered_rows dataMap tableVar)
    /\ Forall (fun t =>
                 0 < tw_count t
                 /\ tw_count t = length (tw_actualResponses t)
                 /\ In (theme t) theme_names)
              themes
    /\ StronglySorted (fun a b => tw_count b <= tw_count a) themes.
Proof.
  intros responses dataMap tableVar bannerVars byVar (r & Hr & Hne) _ themes.
  unfold themes, extractThemesWithResponses. cbv zeta.
  (* there is a valid response *)
  assert (Hvalid : In r (filter (fun r => negb (is_empty_string r)
                                          && (0 <? String.length (trim r))%nat)
                                responses)).
  { apply filter_In. split; [exact Hr|].
    destruct r as [|c r']; [now cbn in Hne|]. cbn [is_empty_string negb andb].
    destruct (trim (String c r')); [congruence | reflexivity]. }
  destruct (filter _ responses) as [|v0 vs] eqn:Ev; [destruct Hvalid|].
  cbn [length Nat.eqb]. clear Ev Hvalid.
  rewrite initial_themes.
  set (e := empty_theme bannerVars byVar).
  (* the loop over the rows *)
  pose proof (@themes_loop tableVar bannerVars byVar dataMap
                (map (fun k => (k, e)) theme_names) 0) as Hloop.
  cbv zeta in Hloop.
  match type of Hloop with
  | context [forEach dataMap ?b ?i] => set (final := forEach dataMap b i) in *
  end.
  destruct Hloop as (Hkeys & Hsum & Hlen).
  { rewrite map_map. cbn [fst]. apply map_id. }
  { unfold counts_total. rewrite map_map. cbn [snd]. unfold e. reflexivity. }
  { apply Forall_forall. intros kv Hkv. apply in_map_iff in Hkv.
    destruct Hkv as (k & <- & _). reflexivity. }
  rewrite (own_entries_names _ Hkeys).
  set (to_theme := fun '((t, data) : string * ThemeData) =>
                     {| theme := t;
                        tw_count := td_count data;
                        tw_actualResponses := actualResponses data;
                        tw_responsesByBanner := responsesByBanner data |}).
  assert (Ef : filter (fun '(_, data) => (0 <? td_count data)%nat) final
               = filter (fun kv => (0 <? td_count (snd kv))%nat) final)
    by (apply filter_ext; now intros [k v]).
  rewrite Ef. clear Ef.
  split; [|split].
  - rewrite list_sum_sort_by, map_map.
    rewrite (map_ext (fun x => tw_count (to_theme x))
                     (fun kv => td_count (snd kv)))
      by (now intros [k v]).
    rewrite (list_sum_positive (fun kv : string * ThemeData => td_count (snd kv))).
    exact Hsum.
  - apply Forall_forall. intros t Ht. apply sort_by_In in Ht.
    apply in_map_iff in Ht. destruct Ht as ([k data] & <- & Hkv).
    apply filter_In in Hkv. destruct Hkv as [Hkv Hpos]. cbn [snd] in Hpos.
    cbn [to_theme tw_count tw_actualResponses theme].
    rewrite Forall_forall in Hlen.
    split; [now apply Nat.ltb_lt|]. split; [apply (Hlen _ Hkv)|].
    rewrite <- Hkeys. apply in_map_iff. now exists (k, data).
  - eapply StronglySorted_weaken; [|apply sort_by_sorted].
    + intros a b Hab. apply Nat.leb_le. exact Hab.
    + intros x y. destruct (Nat.leb_spec (tw_count y) (tw_count x)); [now left|].
      right. apply Nat.leb_le. lia.
    + intros x y z Hxy Hyz. apply Nat.leb_le in Hxy, Hyz. apply Nat.leb_le. lia.
Qed.

Lemma extractThemesWithResponses_counts_witness :
  let themes :=
    extractThemesWithResponses comments comments_dataMap "Comment"
      ["Region"%string] comments_banner in
  list_sum (map tw_count themes)
  = length (answered_rows comments_dataMap "Comment")
  /\ Forall (fun t =>
               0 < tw_count t
               /\ tw_count t = length (tw_actualResponses t)
               /\ In (theme t) theme_names)
            themes
  /\ StronglySorted (fun a b => tw_count b <= tw_count a) themes.
Proof.
  apply extractThemesWithResponses_counts; [|reflexivity].
  exists "good price"%string. split; [now left|].
  intros H. vm_compute in H. discriminate H.
Defined.

End ThemeProperties.

(* ================================================================== *)
(** * Further properties of the statistics and of the box scores *)
(* ================================================================== *)

Module MeasuresProperties.
Import JS Types CrossTab CrossTabSpec CrossTabVocabulary Measures MeasuresVocabulary.
Import LoopFacts CrossTabFacts ShapeFacts PercentFacts SortFacts ArrayFacts.

(** ** Minimum and maximum *)

Lemma min2_cases a b : min2 a b = a \/ min2 a b = b.
Proof.
  unfold min2.
  destruct (PrimFloat.is_nan a); [now left|].
  destruct (PrimFloat.is_nan b); [now right|].
  destruct (PrimFloat.ltb b a); [now right|].
  destruct (PrimFloat.ltb a b); [now left|].
  destruct (is_negative_zero b); [now right | now left].
Qed.

Lemma max2_cases a b : max2 a b = a \/ max2 a b = b.
Proof.
  unfold max2.
  destruct (PrimFloat.is_nan a); [now left|].
  destruct (PrimFloat.is_nan b); [now right|].
  destruct (PrimFloat.ltb a b); [now right|].
  destruct (PrimFloat.ltb b a); [now left|].
  destruct (is_negative_zero a); [now right | now left].
Qed.

Lemma fold_pick (f : number -> number -> number) :
  (forall a b, f a b = a \/ f a b = b) ->
  forall l init, In (fold_left f l init) (init :: l).
Proof.
  intros Hf. induction l as [|x l IH]; intros init; [now left|].
  cbn [fold_left]. destruct (IH (f init x)) as [E|Hin].
  - rewrite <- E. destruct (Hf init x) as [-> | ->]; [now left|].
    right. now left.
  - right. now right.
Qed.

(** The first value replaces the start of the fold. *)
Lemma min2_infinity x :
  PrimFloat.is_nan x = false -> min2 infinity x = x.
Proof.
  intros Hx. unfold min2. rewrite Hx.
  change (PrimFloat.is_nan infinity) with false. cbv iota.
  unfold is_negative_zero. unfold PrimFloat.is_nan in Hx.
  revert Hx.
  rewrite !FloatAxioms.ltb_spec, !FloatAxioms.eqb_spec.
  change (Prim2SF infinity) with (S754_infinity false).
  change (Prim2SF 0) with (S754_zero false).
  destruct (Prim2SF x) as [sg|sg| |sg m e] eqn:E; try destruct sg;
    cbn; try reflexivity; try discriminate.
  intros _. apply Prim2SF_inj. now rewrite E.
Qed.

Lemma max2_neg_infinity x :
  PrimFloat.is_nan x = false -> max2 neg_infinity x = x.
Proof.
  intros Hx. unfold max2. rewrite Hx.
  change (PrimFloat.is_nan neg_infinity) with false. cbv iota.
  unfold is_negative_zero. unfold PrimFloat.is_nan in Hx.
  revert Hx.
  rewrite !FloatAxioms.ltb_spec, !FloatAxioms.eqb_spec.
  change (Prim2SF neg_infinity) with (S754_infinity true).
  change (Prim2SF 0) with (S754_zero false).
  destruct (Prim2SF x) as [sg|sg| |sg m e] eqn:E; try destruct sg;
    cbn; try reflexivity; try discriminate.
  intros _. apply Prim2SF_inj. now rewrite E.
Qed.

Lemma Math_min_of_member l :
  l <> [] -> Forall (fun v => PrimFloat.is_nan v = false) l ->
  In (Math_min_of l) l.
Proof.
  destruct l as [|x l]; [congruence|]. intros _ H.
  unfold Math_min_of. cbn [fold_left].
  rewrite min2_infinity by now inversion H.
  apply fold_pick, min2_cases.
Qed.

Lemma Math_max_of_member l :
  l <> [] -> Forall (fun v => PrimFloat.is_nan v = false) l ->
  In (Math_max_of l) l.
Proof.
  destruct l as [|x l]; [congruence|]. intros _ H.
  unfold Math_max_of. cbn [fold_left].
  rewrite max2_neg_infinity by now inversion H.
  apply fold_pick, max2_cases.
Qed.

Section WithRuntime.

Variable Number : string -> number.
Variable Math_pow : number -> number -> number.

(** X23. On a banner that defines every banner variable, past the Total
    column, [calculateBoxCount] at column [j + 1]
    counts the rows of the [j]-th banner column whose cell is a target
    value, and it is 0 when the banner has no such column. *)
Theorem calculateBoxCount_column dataMap tableVar bannerVars byVar j targets :
  banner_defined bannerVars byVar = true ->
  calculateBoxCount Number dataMap tableVar bannerVars byVar (S j) targets
  = match nth_error (banner_columns bannerVars byVar) j with
    | Some (bannerVar, bannerVal) =>
        count (box_hit Number tableVar targets)
              (group_rows dataMap bannerVar bannerVal)
    | None => 0%float
    end.
Proof.
  intros _. unfold calculateBoxCount. cbn [Nat.eqb].
  rewrite forEach_banner_columns.
  pose proof (@banner_find_loop number
                (fun bannerVar bannerVal =>
                   count (fun row =>
                            let value := number_cell Number row tableVar in
                            let bannerValue := cell_text row bannerVar in
                            negb (PrimFloat.is_nan value)
                            && includes_number targets value
                            && String.eqb bannerValue bannerVal) dataMap)
                (S j) (banner_columns bannerVars byVar) 1 ltac:(lia)) as H.
  cbn zeta in H.
  match goal with
  | H : snd ?x = _ |- (let '(_, found) := ?y in _) = _ =>
      change y with x; destruct x as [cur found]
  end.
  cbn [snd] in H. subst found.
  replace (S j - 1) with j by lia.
  destruct (nth_error (banner_columns bannerVars byVar) j) as [[bv bval]|];
    [|reflexivity].
  cbn [option_map]. unfold count, group_rows, box_hit. f_equal. f_equal.
  induction dataMap as [|row rws IH]; [reflexivity|].
  cbn [filter].
  destruct (String.eqb (cell_text row bv) bval) eqn:E; cbn [filter];
    rewrite ?andb_true_r, ?andb_false_r.
  - destruct (negb _ && _); [now rewrite IH | exact IH].
  - exact IH.
Qed.


Lemma seq_snoc i : seq 0 (S i) = (seq 0 i ++ [i])%list.
Proof. now rewrite seq_S. Qed.

Lemma calculateEnhancedScaleBoxes_eq dataMap tableVar bannerVars byVar r
  baseValues :
  let cell := box_cell Number dataMap tableVar bannerVars byVar baseValues in
  let cols := seq 0 (length baseValues) in
  let min := sr_min r in
  let max := sr_max r in
  let long := PrimFloat.leb 6 (max - min + 1) in
  calculateEnhancedScaleBoxes Number dataMap tableVar bannerVars byVar r
                              baseValues
  = {| topBox := map (cell [max]) cols;
       bottomBox := map (cell [min]) cols;
       top2Box := map (cell [max - 1; max]) cols;
       bottom2Box := map (cell [min; min + 1]) cols;
       top3Box := if long then Some (map (cell [max - 2; max - 1; max]) cols)
                  else None;
       bottom3Box := if long then Some (map (cell [min; min + 1; min + 2]) cols)
                     else None;
       scaleRange := r |}%float.
Proof.
  intros cell cols min max long. unfold calculateEnhancedScaleBoxes.
  cbv zeta. fold min max. fold long. clearbody long.
  set (body := fun (colIndex : nat) (_ : _) => _).
  set (init3 := if long then (Some [], Some []) else (None, None)).
  assert (Inv : forall i, i <= length baseValues ->
            for_range i body
              (let '(t3, b3) := init3 in ([], [], [], [], t3, b3))
            = (map (cell [max]) (seq 0 i), map (cell [min]) (seq 0 i),
               map (cell [max - 1; max]%float) (seq 0 i),
               map (cell [min; min + 1]%float) (seq 0 i),
               (if long
                then Some (map (cell [max - 2; max - 1; max]%float) (seq 0 i))
                else None),
               (if long
                then Some (map (cell [min; min + 1; min + 2]%float) (seq 0 i))
                else None))).
  { induction i as [|i IH]; intros Hi.
    - unfold for_range, init3. cbn. now destruct long.
    - unfold for_range in *. rewrite seq_snoc, fold_left_app, IH by lia.
      cbn [fold_left]. unfold body.
      rewrite !map_app. cbn [map]. unfold push, cell, box_cell.
      destruct long; reflexivity. }
  specialize (Inv (length baseValues) (le_n _)).
  unfold init3 in *. destruct long.
  - cbn zeta in *. rewrite Inv. reflexivity.
  - cbn zeta in *. rewrite Inv. reflexivity.
Qed.

Lemma calculateRankingBoxes_eq dataMap tableVar bannerVars byVar baseValues :
  let cell := box_cell Number dataMap tableVar bannerVars byVar baseValues in
  let cols := seq 0 (length baseValues) in
  calculateRankingBoxes Number dataMap tableVar bannerVars byVar baseValues
  = {| rb_rank1 := map (cell [1]) cols;
       rb_rank2 := map (cell [2]) cols;
       rb_rank3 := map (cell [3]) cols;
       rb_rank1Plus2 := map (cell [1; 2]) cols;
       rb_rank1Plus2Plus3 := map (cell [1; 2; 3]) cols |}%float.
Proof.
  intros cell cols. unfold calculateRankingBoxes.
  set (body := fun (colIndex : nat) (_ : _) => _).
  assert (Inv : forall i, i <= length baseValues ->
            for_range i body ([], [], [], [], [])
            = (map (cell [1]%float) (seq 0 i), map (cell [2]%float) (seq 0 i),
               map (cell [3]%float) (seq 0 i),
               map (cell [1; 2]%float) (seq 0 i),
               map (cell [1; 2; 3]%float) (seq 0 i))).
  { induction i as [|i IH]; intros Hi; [reflexivity|].
    unfold for_range in *. rewrite seq_snoc, fold_left_app, IH by lia.
    cbn [fold_left]. unfold body. rewrite !map_app. reflexivity. }
  rewrite (Inv (length baseValues) (le_n _)). reflexivity.
Qed.

Lemma one_cell_rows_map (f : nat -> list number) n :
  (forall i, length (f i) = 1) -> one_cell_rows n (map f (seq 0 n)).
Proof.
  intros H. split; [now rewrite length_map, length_seq|].
  apply Forall_forall. intros row Hin. apply in_map_iff in Hin.
  destruct Hin as [i [<- _]]. apply H.
Qed.

(** X24. On a banner that defines every banner variable, the box
    matrices of a scale have one single-cell row per base
    value; the three-box matrices exist exactly when the scale has six
    points or more ([max - min + 1 >= 6]), and then have the same shape. *)
Theorem calculateEnhancedScaleBoxes_shape dataMap tableVar bannerVars byVar r
  baseValues :
  banner_defined bannerVars byVar = true ->
  let sc := calculateEnhancedScaleBoxes Number dataMap tableVar bannerVars
              byVar r baseValues in
  let n := length baseValues in
  one_cell_rows n (topBox sc) /\ one_cell_rows n (bottomBox sc)
  /\ one_cell_rows n (top2Box sc) /\ one_cell_rows n (bottom2Box sc)
  /\ scaleRange sc = r
  /\ (if PrimFloat.leb 6 (sr_max r - sr_min r + 1)
      then exists t3 b3, top3Box sc = Some t3 /\ bottom3Box sc = Some b3
                         /\ one_cell_rows n t3 /\ one_cell_rows n b3
      else top3Box sc = None /\ bottom3Box sc = None).
Proof.
  intros _ sc n. subst sc. rewrite calculateEnhancedScaleBoxes_eq.
  cbn [topBox bottomBox top2Box bottom2Box top3Box bottom3Box scaleRange].
  repeat split; try (apply one_cell_rows_map; reflexivity).
  destruct (PrimFloat.leb 6 (sr_max r - sr_min r + 1)).
  - eexists _, _. repeat split; try (apply one_cell_rows_map; reflexivity).
  - split; reflexivity.
Qed.

Lemma box_cell_no_base dataMap tableVar bannerVars byVar baseValues targets i :
  PrimFloat.ltb 0 (nth i baseValues undefined_number) = false ->
  box_cell Number dataMap tableVar bannerVars byVar baseValues targets i = [0%float].
Proof. intros H. unfold box_cell, percent_of. now rewrite H. Qed.

Lemma nth_map_seq {B} (f : nat -> B) n i d :
  i < n -> nth i (map f (seq 0 n)) d = f i.
Proof.
  intros Hi. rewrite (nth_indep _ d (f 0)) by now rewrite length_map, length_seq.
  rewrite (map_nth f (seq 0 n) 0 i). now rewrite seq_nth.
Qed.

(** X25. On a banner that defines every banner variable, a column whose
    base is not above zero shows 0 in every box matrix of a scale and of a
    ranking, whatever the counts are. *)
Theorem box_scores_without_base dataMap tableVar bannerVars byVar r baseValues
  i :
  banner_defined bannerVars byVar = true ->
  i < length baseValues ->
  PrimFloat.ltb 0 (nth i baseValues undefined_number) = false ->
  let sc := calculateEnhancedScaleBoxes Number dataMap tableVar bannerVars
              byVar r baseValues in
  let rb := calculateRankingBoxes Number dataMap tableVar bannerVars byVar
              baseValues in
  Forall (fun m => nth i m [] = [0%float])
         [topBox sc; bottomBox sc; top2Box sc; bottom2Box sc;
          rb_rank1 rb; rb_rank2 rb; rb_rank3 rb; rb_rank1Plus2 rb;
          rb_rank1Plus2Plus3 rb]
  /\ match top3Box sc with
     | Some t3 => nth i t3 [] = [0%float]
     | None => True
     end
  /\ match bottom3Box sc with
     | Some b3 => nth i b3 [] = [0%float]
     | None => True
     end.
Proof.
  intros _ Hi Hb sc rb. subst sc rb.
  rewrite calculateEnhancedScaleBoxes_eq, calculateRankingBoxes_eq.
  cbn [topBox bottomBox top2Box bottom2Box top3Box bottom3Box rb_rank1
       rb_rank2 rb_rank3 rb_rank1Plus2 rb_rank1Plus2Plus3].
  split; [|split].
  - repeat constructor; rewrite nth_map_seq by exact Hi;
      now apply box_cell_no_base.
  - destruct (PrimFloat.leb _ _); [|exact I].
    rewrite nth_map_seq by exact Hi. now apply box_cell_no_base.
  - destruct (PrimFloat.leb _ _); [|exact I].
    rewrite nth_map_seq by exact Hi. now apply box_cell_no_base.
Qed.



(** ** Descriptive statistics *)

Lemma calculateStatisticalMeasures_eq dataMap tableVar bannerVars byVar :
  let groups :=
    numeric_cells Number dataMap tableVar
    :: map (fun '(bannerVar, bannerVal) =>
              numeric_cells Number (group_rows dataMap bannerVar bannerVal)
                            tableVar)
           (banner_columns bannerVars byVar) in
  calculateStatisticalMeasures Number Math_pow dataMap tableVar bannerVars byVar
  = {| sm_mean := map calculateMean groups;
       sm_median := map calculateMedian groups;
       sm_standardDeviation :=
         map (calculateStandardDeviation Math_pow) groups;
       sm_headers := "Total"%string :: map snd (banner_columns bannerVars byVar)
    |}.
Proof.
  intros groups. unfold calculateStatisticalMeasures.
  rewrite !forEach_banner_columns.
  fold (numeric_cells Number dataMap tableVar).
  assert (Hh : forall (l : list (string * string)) init,
            forEach l (fun '(bannerVar, bannerVal) (headers : list string) =>
                         push headers bannerVal) init
            = (init ++ map snd l)%list).
  { induction l as [|[bv bval] l IH]; intros init.
    - cbn. now rewrite app_nil_r.
    - rewrite forEach_cons, IH. unfold push. now rewrite <- app_assoc. }
  rewrite Hh.
  assert (Hl : forall (l : list (string * string)) m md sd,
            forEach l
              (fun '(bannerVar, bannerVal) '(mean, median, standardDeviation) =>
                 let values :=
                   filter (fun val => negb (PrimFloat.is_nan val))
                     (map (fun row => number_cell Number row tableVar)
                        (filter (fun row =>
                                   (cell_text row bannerVar =? bannerVal)%string)
                                dataMap)) in
                 (push mean (calculateMean values),
                  push median (calculateMedian values),
                  push standardDeviation
                       (calculateStandardDeviation Math_pow values)))
              (m, md, sd)
            = let gs := map (fun '(bannerVar, bannerVal) =>
                               numeric_cells Number
                                 (group_rows dataMap bannerVar bannerVal)
                                 tableVar) l in
              ((m ++ map calculateMean gs)%list,
               (md ++ map calculateMedian gs)%list,
               (sd ++ map (calculateStandardDeviation Math_pow) gs)%list)).
  { induction l as [|[bv bval] l IH]; intros m md sd.
    - cbn. now rewrite !app_nil_r.
    - rewrite forEach_cons. cbv zeta. rewrite IH. cbv zeta. unfold push.
      cbn [map]. rewrite <- !app_assoc. reflexivity. }
  rewrite Hl. reflexivity.
Qed.

(** X26. On a banner that defines every banner variable, the descriptive
    statistics of a numeric or scale question have
    one mean, one median and one standard deviation per header, the headers
    being Total and then every banner value. *)
Theorem calculateStatisticalMeasures_shape dataMap tableVar bannerVars byVar :
  banner_defined bannerVars byVar = true ->
  let m := calculateStatisticalMeasures Number Math_pow dataMap tableVar
             bannerVars byVar in
  sm_headers m = "Total"%string :: map snd (banner_columns bannerVars byVar)
  /\ length (sm_mean m) = length (sm_headers m)
  /\ length (sm_median m) = length (sm_headers m)
  /\ length (sm_standardDeviation m) = length (sm_headers m).
Proof.
  intros _ m. subst m. rewrite calculateStatisticalMeasures_eq.
  cbn [sm_headers sm_mean sm_median sm_standardDeviation].
  cbn [map length]. rewrite !length_map. auto.
Qed.

Lemma nth_map_some {A B} (f : A -> B) l j x d :
  nth_error l j = Some x -> nth j (map f l) d = f x.
Proof.
  revert j. induction l as [|y l IH]; intros [|j]; cbn; try discriminate.
  - now intros [= ->].
  - apply IH.
Qed.

Lemma numeric_cells_none rws tableVar :
  (forall row, In row rws ->
               PrimFloat.is_nan (number_cell Number row tableVar) = true) ->
  numeric_cells Number rws tableVar = [].
Proof.
  unfold numeric_cells. induction rws as [|row rws IH]; intros H;
    [reflexivity|].
  cbn [map filter]. rewrite (H row (or_introl eq_refl)). cbn [negb].
  apply IH. intros r Hr. apply H. now right.
Qed.

(** X27. On a banner that defines every banner variable, a banner column
    none of whose rows holds a number has mean, median and standard
    deviation 0. *)
Theorem calculateStatisticalMeasures_no_number dataMap tableVar bannerVars
  byVar j bannerVar bannerVal :
  banner_defined bannerVars byVar = true ->
  nth_error (banner_columns bannerVars byVar) j = Some (bannerVar, bannerVal) ->
  (forall row, In row dataMap -> cell_text row bannerVar = bannerVal ->
               PrimFloat.is_nan (number_cell Number row tableVar) = true) ->
  let m := calculateStatisticalMeasures Number Math_pow dataMap tableVar
             bannerVars byVar in
  nth (S j) (sm_mean m) undefined_number = 0%float
  /\ nth (S j) (sm_median m) undefined_number = 0%float
  /\ nth (S j) (sm_standardDeviation m) undefined_number = 0%float.
Proof.
  intros _ Hj Hnan m. subst m. rewrite calculateStatisticalMeasures_eq.
  cbn [sm_mean sm_median sm_standardDeviation map nth].
  assert (E : numeric_cells Number (group_rows dataMap bannerVar bannerVal)
                            tableVar = []).
  { apply numeric_cells_none. intros row Hin.
    unfold group_rows in Hin. apply filter_In in Hin. destruct Hin as [Hin Hc].
    apply Hnan; [exact Hin|]. now apply String.eqb_eq. }
  set (gs := map _ (banner_columns bannerVars byVar)).
  assert (G : nth_error gs j = Some []).
  { unfold gs. rewrite nth_error_map, Hj. cbn. now rewrite E. }
  repeat split; erewrite nth_map_some by exact G; reflexivity.
Qed.



(** ** The range of a scale *)

(** X28. The two ends of a detected scale range are numbers that cells of
    the column hold. *)
Theorem detectScaleRange_ends_occur values r :
  detectScaleRange Number values = Some r ->
  (exists s, In (Some s) values /\ Number s = sr_min r)
  /\ (exists s, In (Some s) values /\ Number s = sr_max r).
Proof.
  unfold detectScaleRange.
  set (numericValues := filter _ _).
  destruct (Nat.eqb_spec (length numericValues) 0) as [E|NE]; [discriminate|].
  destruct (_ && _); [|discriminate]. intros [= <-].
  cbn [sr_min sr_max].
  assert (Hne : numericValues <> []) by now destruct numericValues.
  assert (Hnan : Forall (fun v => PrimFloat.is_nan v = false) numericValues).
  { apply Forall_forall. intros v Hv. unfold numericValues in Hv.
    apply filter_In in Hv. destruct Hv as [_ Hv].
    now apply negb_true_iff in Hv. }
  assert (Cell : forall v, In v numericValues ->
            exists s, In (Some s) values /\ Number s = v).
  { intros v Hv. unfold numericValues in Hv. apply filter_In in Hv.
    destruct Hv as [Hv Hn]. apply in_map_iff in Hv.
    destruct Hv as [[s|] [Es Hin]].
    - now exists s.
    - subst v. discriminate. }
  split; apply Cell.
  - now apply Math_min_of_member.
  - now apply Math_max_of_member.
Qed.



(** ** The median *)

(** X29. The median of an odd number of values is one of the values, and
    the median of an even number of values is half the sum of two of
    them. *)
Theorem calculateMedian_of_values values :
  values <> [] ->
  if Nat.even (length values)
  then exists a b, In a values /\ In b values
                   /\ calculateMedian values = ((a + b) / 2)%float
  else In (calculateMedian values) values.
Proof.
  intros Hne. unfold calculateMedian, undefined_number. unfold number in *.
  destruct (Nat.eqb_spec (length values) 0) as [E|NE];
    [now destruct values|].
  cbv zeta. rewrite sort_by_length.
  set (sorted := sort_by (fun a b => negb (PrimFloat.ltb 0 (a - b))) values).
  assert (Hlen : length sorted = length values) by apply sort_by_length.
  assert (Hin : forall i, i < length values -> In (nth i sorted nan) values).
  { intros i Hi. apply (sort_by_In (fun a b => negb (PrimFloat.ltb 0 (a - b)))).
    apply nth_In. fold sorted. lia. }
  assert (Hmid : length values / 2 < length values)
    by (apply Nat.div_lt; lia).
  destruct (Nat.even (length values)) eqn:Ev.
  - apply Nat.even_spec in Ev. destruct Ev as [k Ek].
    assert (Em : length values mod 2 = 0).
    { rewrite Ek, Nat.mul_comm. apply Nat.Div0.mod_mul. }
    eexists _, _.
    match goal with
    | |- context [(?n mod 2 =? 0)%nat] =>
        replace (n mod 2) with 0 by (symmetry; exact Em)
    end.
    cbn [Nat.eqb].
    split; [|split; [|reflexivity]]; apply Hin; lia.
  - assert (Em : length values mod 2 = 1).
    { rewrite <- Nat.negb_odd in Ev. apply negb_false_iff in Ev.
      apply Nat.odd_spec in Ev. destruct Ev as [k Ek].
      rewrite Ek, Nat.add_comm, Nat.mul_comm, Nat.Div0.mod_add. reflexivity. }
    match goal with
    | |- context [(?n mod 2 =? 0)%nat] =>
        replace (n mod 2) with 1 by (symmetry; exact Em)
    end.
    cbn [Nat.eqb]. now apply Hin.
Qed.



End WithRuntime.

(** ** The examples *)

Lemma calculateBoxCount_column_witness :
  calculateBoxCount Number_decimal scale_dataMap "Score" ["Region"%string]
    scale_banner 2 [4; 5]%float
  = match nth_error (banner_columns ["Region"%string] scale_banner) 1 with
    | Some (bannerVar, bannerVal) =>
        count (box_hit Number_decimal "Score" [4; 5]%float)
              (group_rows scale_dataMap bannerVar bannerVal)
    | None => 0%float
    end.
Proof.
  apply (@calculateBoxCount_column Number_decimal scale_dataMap "Score"%string
           ["Region"%string] scale_banner 1 [4; 5]%float).
  reflexivity.
Defined.

Lemma calculateEnhancedScaleBoxes_shape_witness :
  let r := {| sr_min := 1%float; sr_max := 5%float |} in
  let sc := calculateEnhancedScaleBoxes Number_decimal scale_dataMap "Score"
              ["Region"%string] scale_banner r [4; 1; 2; 1; 0]%float in
  let n := length [4; 1; 2; 1; 0]%float in
  one_cell_rows n (topBox sc) /\ one_cell_rows n (bottomBox sc)
  /\ one_cell_rows n (top2Box sc) /\ one_cell_rows n (bottom2Box sc)
  /\ scaleRange sc = r
  /\ (if PrimFloat.leb 6 (sr_max r - sr_min r + 1)
      then exists t3 b3, top3Box sc = Some t3 /\ bottom3Box sc = Some b3
                         /\ one_cell_rows n t3 /\ one_cell_rows n b3
      else top3Box sc = None /\ bottom3Box sc = None).
Proof.
  apply (@calculateEnhancedScaleBoxes_shape Number_decimal scale_dataMap
           "Score"%string ["Region"%string] scale_banner
           {| sr_min := 1%float; sr_max := 5%float |}
           [4; 1; 2; 1; 0]%float).
  reflexivity.
Defined.

Lemma calculateStatisticalMeasures_shape_witness :
  let m := calculateStatisticalMeasures Number_decimal Math_pow_square
             scale_dataMap "Score" ["Region"%string] scale_banner in
  sm_headers m
  = "Total"%string :: map snd (banner_columns ["Region"%string] scale_banner)
  /\ length (sm_mean m) = length (sm_headers m)
  /\ length (sm_median m) = length (sm_headers m)
  /\ length (sm_standardDeviation m) = length (sm_headers m).
Proof.
  apply (@calculateStatisticalMeasures_shape Number_decimal Math_pow_square
           scale_dataMap "Score"%string ["Region"%string] scale_banner).
  reflexivity.
Defined.

Lemma box_scores_without_base_witness :
  let sc := calculateEnhancedScaleBoxes Number_decimal scale_dataMap "Score"
              ["Region"%string] scale_banner
              {| sr_min := 1%float; sr_max := 5%float |}
              [4; 1; 2; 1; 0]%float in
  let rb := calculateRankingBoxes Number_decimal scale_dataMap "Score"
              ["Region"%string] scale_banner [4; 1; 2; 1; 0]%float in
  Forall (fun m => nth 4 m [] = [0%float])
         [topBox sc; bottomBox sc; top2Box sc; bottom2Box sc;
          rb_rank1 rb; rb_rank2 rb; rb_rank3 rb; rb_rank1Plus2 rb;
          rb_rank1Plus2Plus3 rb]
  /\ match top3Box sc with
     | Some t3 => nth 4 t3 [] = [0%float]
     | None => True
     end
  /\ match bottom3Box sc with
     | Some b3 => nth 4 b3 [] = [0%float]
     | None => True
     end.
Proof.
  apply (@box_scores_without_base Number_decimal scale_dataMap "Score"%string
           ["Region"%string] scale_banner
           {| sr_min := 1%float; sr_max := 5%float |}
           [4; 1; 2; 1; 0]%float 4).
  - reflexivity.
  - cbn. lia.
  - reflexivity.
Defined.

Lemma calculateStatisticalMeasures_no_number_witness :
  let m := calculateStatisticalMeasures Number_decimal Math_pow_square
             scale_dataMap "Score" ["Region"%string] scale_banner in
  nth 4 (sm_mean m) undefined_number = 0%float
  /\ nth 4 (sm_median m) undefined_number = 0%float
  /\ nth 4 (sm_standardDeviation m) undefined_number = 0%float.
Proof.
  apply (@calculateStatisticalMeasures_no_number Number_decimal Math_pow_square
           scale_dataMap "Score"%string ["Region"%string] scale_banner 3
           "Region"%string "West"%string).
  - reflexivity.
  - reflexivity.
  - intros row Hrow. vm_compute in Hrow.
    destruct Hrow as [<-|[<-|[<-|[<-|[<-|[]]]]]]; intros H;
      vm_compute in H; try discriminate H; reflexivity.
Defined.

Lemma detectScaleRange_ends_occur_witness :
  (exists s, In (Some s) (scale_values scale_dataMap "Score")
             /\ Number_decimal s = 1%float)
  /\ (exists s, In (Some s) (scale_values scale_dataMap "Score")
                /\ Number_decimal s = 5%float).
Proof.
  apply (@detectScaleRange_ends_occur Number_decimal
           (scale_values scale_dataMap "Score")
           {| sr_min := 1%float; sr_max := 5%float |}).
  vm_compute. reflexivity.
Defined.

Lemma calculateMedian_of_values_witness :
  In (calculateMedian [3; 1; 2]%float) [3; 1; 2]%float.
Proof.
  apply (@calculateMedian_of_values [3; 1; 2]%float). discriminate.
Defined.

End MeasuresProperties.

(* ================================================================== *)
(** * Further properties of the types of all columns *)
(* ================================================================== *)

Module AutoDetectProperties.
Import JS Types TypeDetector AutoDetect.
Import LoopFacts CrossTabFacts ArrayFacts.

Section WithRuntime.

Variable Number : string -> number.
Variable Date_year : string -> option Z.

(** X30. [autoDetectQuestionTypes] gives no type to a column of a
    multi-select group nor to a name that is no header; every other header
    gets the type that [analyzeQuestionType] finds for its column, the last
    column of that name if the header is repeated. *)
Theorem autoDetectQuestionTypes_lookup headers dataRows groups header :
  let types := autoDetectQuestionTypes Number Date_year headers dataRows
                 groups in
  (isInMultiSelectGroup groups header = true -> obj_get types header = None)
  /\ (~ In header headers -> obj_get types header = None)
  /\ (isInMultiSelectGroup groups header = false ->
      forall i,
        nth_error headers i = Some header ->
        (forall k, i < k -> nth_error headers k <> Some header) ->
        obj_get types header
        = Some (qta_type
                  (analyzeQuestionType Number Date_year header
                     (map (fun row => nth i row ""%string) dataRows)
                     default_sampleSize))).
Proof.
  intros types. subst types. unfold autoDetectQuestionTypes.
  set (typ := fun (h : string) (i : nat) =>
                qta_type (analyzeQuestionType Number Date_year h
                            (map (fun row => nth i row ""%string) dataRows)
                            default_sampleSize)).
  set (body := fun (header : string) (index : nat) (_ : obj QuestionType) => _).
  assert (Inv :
    (fun n (s : obj QuestionType) =>
       forall h,
         (isInMultiSelectGroup groups h = true -> obj_get s h = None)
         /\ ((forall i, i < n -> nth_error headers i <> Some h) ->
             obj_get s h = None)
         /\ (isInMultiSelectGroup groups h = false ->
             forall i, i < n -> nth_error headers i = Some h ->
               (forall k, i < k < n -> nth_error headers k <> Some h) ->
               obj_get s h = Some (typ h i)))
      (length headers) (forEachi headers body [])).
  { apply forEachi_invariant_nth.
    - intros h. repeat split; try reflexivity. intros _ i Hi. lia.
    - intros x n s Hx IH h. destruct (IH h) as [IH1 [IH2 IH3]].
      unfold body.
      destruct (isInMultiSelectGroup groups x) eqn:Gx; cbn [negb].
      + split; [exact IH1|]. split.
        * intros Hno. apply IH2. intros i Hi. apply Hno. lia.
        * intros Gh i Hi Hi' Hlast.
          destruct (Nat.eq_dec i n) as [->|Hn].
          -- rewrite Hx in Hi'. injection Hi' as ->. congruence.
          -- apply IH3; [exact Gh | lia | exact Hi' |].
             intros k Hk. apply Hlast. lia.
      + rewrite obj_get_set. fold (typ x n).
        destruct (String.eqb_spec h x) as [->|Hne].
        * split; [congruence|]. split.
          -- intros Hno. exfalso. apply (Hno n); [lia | exact Hx].
          -- intros _ i Hi Hi' Hlast.
             destruct (Nat.eq_dec i n) as [->|Hn]; [reflexivity|].
             exfalso. apply (Hlast n); [lia | exact Hx].
        * split; [exact IH1|]. split.
          -- intros Hno. apply IH2. intros i Hi. apply Hno. lia.
          -- intros Gh i Hi Hi' Hlast.
             destruct (Nat.eq_dec i n) as [->|Hn].
             ++ rewrite Hx in Hi'. congruence.
             ++ apply IH3; [exact Gh | lia | exact Hi' |].
                intros k Hk. apply Hlast. lia. }
  cbv beta in Inv. destruct (Inv header) as [H1 [H2 H3]].
  split; [exact H1|]. split.
  - intros Hno. apply H2. intros i Hi E. apply Hno.
    eapply nth_error_In, E.
  - intros Gh i Hi Hlast. apply H3; [exact Gh | | exact Hi |].
    + apply nth_error_Some. congruence.
    + intros k Hk. apply Hlast. lia.
Qed.

End WithRuntime.

End AutoDetectProperties.
